(** * Synapse 2.0: the simulation-and-monitoring engine of the dashboard

    A shallow embedding of the engine that lives inside the [Dashboard]
    component: the telemetry ring store ([CircularBuffer]), the alert
    priority queue ([PriorityQueue], [addAlert]), and the body of the
    one-second simulation tick (phase machine, thermal and hydraulic
    integrators, deviation metrics, health index, OEE), together with what
    the component computes from them at render ([Readouts]). The engine
    embedded is the later one, with the ring store, the priority queue and
    [clamp]; the older one of [synapse_ui.js] is embedded beside it
    ([Legacy]).

    Conventions of the embedding.
    - JavaScript numbers are exact rationals ([Q]); counters, array
      positions and clock readings (milliseconds) are integers ([Z]).
      [Math.min], [Math.max] and [Math.abs] are [Qmin], [Qmax], [Qabs];
      the [%] operator is [Z.rem].
    - The [useState] cells and the refs of the component are the fields of
      one record; the updaters handed to the setters during a tick run in
      the order in which the tick queued them.
    - Every [Math.random()] and [Date.now()] call site of the tick is a
      field of the record [Env] that the tick receives: the tick is a pure
      function of the state before it and of what the environment returned.
    - [undefined] array slots are [None]. *)

From Stdlib Require Import ZArith QArith Qminmax Qabs Qround List String Ascii Bool Lia Lqa.
From Stdlib Require Import DecimalString Sorted Permutation.
Import ListNotations.

Local Open Scope Z_scope.

(** ** Telemetry ring store *)

Module CircularBuffer.

Section Buffer.
Context {A : Type}.

Record t : Type := mk {
  size : Z;
  buffer : list (option A);
  length : Z;
  index : Z
}.

(** [new Array(size)]: [size] empty slots. The dashboard makes one buffer,
    of size 60; [index] stays within [0 .. size-1]. *)
Definition new (sz : Z) : t :=
  mk sz (repeat None (Z.to_nat sz)) 0 0.

(** [buffer[i] = v]. Past the end a JavaScript array grows, leaving holes. *)
Fixpoint store (l : list (option A)) (i : nat) (v : A) : list (option A) :=
  match l, i with
  | [], O => [Some v]
  | [], S i' => None :: store [] i' v
  | _ :: l', O => Some v :: l'
  | x :: l', S i' => x :: store l' i' v
  end.

(** [buffer[i]]: a read past the end, or of a hole, is [undefined]. *)
Definition fetch (l : list (option A)) (i : nat) : option A :=
  nth i l None.

Definition push (b : t) (value : A) : t :=
  mk (size b)
     (store (buffer b) (Z.to_nat (index b)) value)
     (Z.min (length b + 1) (size b))
     (Z.rem (index b + 1) (size b)).

(** The loop [for (i = 0; i < this.length; i += 1)] visits [0 .. length-1]. *)
Definition toArray (b : t) : list (option A) :=
  map (fun i : nat =>
         let idx := Z.rem (index b - length b + Z.of_nat i + size b) (size b) in
         fetch (buffer b) (Z.to_nat idx))
      (seq 0 (Z.to_nat (length b))).

Definition pushAll (b : t) (xs : list A) : t := fold_left push xs b.

(** What the buffer holds after the samples [xs] were pushed, one by one,
    into a fresh buffer of [sz] slots. *)
Definition holds (sz : Z) (xs : list A) (b : t) : Prop :=
  let n := Z.of_nat (List.length xs) in
  size b = sz /\
  index b = n mod sz /\
  length b = Z.min n sz /\
  forall k : nat,
    (k < List.length xs)%nat -> n - Z.of_nat k <= sz ->
    fetch (buffer b) (Z.to_nat (Z.of_nat k mod sz)) = nth_error xs k.

End Buffer.

Arguments t : clear implicits.

End CircularBuffer.

(** ** JavaScript numbers *)

Module Js.

Local Open Scope Q_scope.

(** [x < y] and [x > y] as the conditions of an [if]. *)
Definition ltb (x y : Q) : bool := negb (Qle_bool y x).
Definition gtb (x y : Q) : bool := negb (Qle_bool x y).

(** [Math.round]: the nearest integer, the upper one at a tie. *)
Definition round (x : Q) : Z := Qfloor (x + (1 # 2)).

(** [Number.prototype.toFixed(d)]. The sign is split off, then [n] is the
    integer for which [n / 10^d] is nearest to the magnitude (the larger
    one at a tie); [n] is printed with a point before its last [d]
    digits. *)
Definition scaled (x : Q) (d : nat) : Z :=
  Qfloor (Qabs x * inject_Z (10 ^ Z.of_nat d) + (1 # 2)).

Definition digits (n : Z) : string :=
  NilZero.string_of_uint (N.to_uint (Z.to_N n)).

Fixpoint zeros (k : nat) : string :=
  match k with
  | O => EmptyString
  | S k' => String "0" (zeros k')
  end.

Definition padded (d : nat) (s : string) : string :=
  (zeros (d - String.length s) ++ s)%string.

Definition toFixed (x : Q) (d : nat) : string :=
  let n := scaled x d in
  let p := (10 ^ Z.of_nat d)%Z in
  ((if ltb x 0 then "-" else "")
     ++ digits (n / p)
     ++ (match d with
         | O => ""
         | _ => "." ++ padded d (digits (n mod p))
         end))%string.

(** [parseFloat(x.toFixed(d))]: the number that the printed digits denote. *)
Definition fixed (x : Q) (d : nat) : Q :=
  let v := inject_Z (scaled x d) / inject_Z (10 ^ Z.of_nat d) in
  if ltb x 0 then - v else v.

End Js.

(** [const clamp = (value, min, max) => Math.min(max, Math.max(min, value))] *)
Definition clamp (value min max : Q) : Q := Qmin max (Qmax min value).

(** ** Alerts and their priority queue *)

Inductive AlertType : Type := critical | warning | info.

Definition ALERT_PRIORITY (t : AlertType) : Z :=
  match t with
  | critical => 3
  | warning => 2
  | info => 1
  end.

Record Alert : Type := mkAlert {
  msg : string;
  type : AlertType;
  time : Z
}.

Module PriorityQueue.

Section Queue.
Context {A : Type}.

Record t : Type := mk {
  items : list A;
  compare : A -> A -> Z
}.

Definition new (cmp : A -> A -> Z) : t := mk [] cmp.

(** [Array.prototype.sort(compare)] is a stable sort: elements that
    compare equal keep their relative order. Each element, taken from the
    left, goes behind every element already placed that it does not
    strictly precede. *)
Fixpoint place (cmp : A -> A -> Z) (x : A) (l : list A) : list A :=
  match l with
  | [] => [x]
  | y :: l' => if cmp y x <=? 0 then y :: place cmp x l' else x :: y :: l'
  end.

Definition sort (cmp : A -> A -> Z) (l : list A) : list A :=
  fold_left (fun placed x => place cmp x placed) l [].

Definition enqueue (q : t) (item : A) : t :=
  mk (sort (compare q) (items q ++ [item])) (compare q).

Definition toArray (q : t) : list A := items q.

(** A comparator that [sort] can be trusted with: a total preorder. *)
Record consistent (cmp : A -> A -> Z) : Prop := {
  cmp_total : forall a b, 0 < cmp a b -> cmp b a <= 0;
  cmp_trans : forall a b c, cmp a b <= 0 -> cmp b c <= 0 -> cmp a c <= 0
}.

Definition ordered (cmp : A -> A -> Z) : list A -> Prop :=
  StronglySorted (fun a b => cmp a b <= 0).

End Queue.

Arguments t : clear implicits.

End PriorityQueue.

(** ** Constants of the simulation engine *)

Inductive Phase : Type := IDLE | CLOSING | HEATING | PRESSING | COOLING | OPENING.

Definition Phase_eqb (a b : Phase) : bool :=
  match a, b with
  | IDLE, IDLE | CLOSING, CLOSING | HEATING, HEATING
  | PRESSING, PRESSING | COOLING, COOLING | OPENING, OPENING => true
  | _, _ => false
  end.

(** The keys of [CYCLE_PHASES], in the order of the object literal (the order
    in which [Object.values] visits them), and their [duration]. *)
Definition CYCLE_PHASES : list Phase :=
  [IDLE; CLOSING; HEATING; PRESSING; COOLING; OPENING].

Definition duration (p : Phase) : Z :=
  match p with
  | IDLE => 5
  | CLOSING => 3
  | HEATING => 15
  | PRESSING => 10
  | COOLING => 8
  | OPENING => 4
  end.

Definition label (p : Phase) : string :=
  match p with
  | IDLE => "Idle"
  | CLOSING => "Mold Closing"
  | HEATING => "Heating (Vulcanization)"
  | PRESSING => "High Pressure Hold"
  | COOLING => "Cooling"
  | OPENING => "Mold Opening"
  end.

Section Constants.
Local Open Scope Q_scope.

Definition TARGET_TEMP : Q := 165.
Definition TARGET_PRESSURE : Q := 180.
Definition TEMP_TOLERANCE : Q := 10.
Definition PRESSURE_TOLERANCE : Q := 10.
Definition TEMP_WARNING_THRESHOLD : Q := TARGET_TEMP * 0.85.
Definition VIBRATION_SAFE : Q := 4.
Definition VIBRATION_WARNING : Q := 5.
Definition VIBRATION_CRITICAL : Q := 8.

Definition BRAKE_PAD_TEMP_MIN : Q := 25.
Definition BRAKE_PAD_TEMP_MAX : Q := 220.
Definition BRAKE_PAD_PRESSURE_MIN : Q := 0.
Definition BRAKE_PAD_PRESSURE_MAX : Q := 260.
End Constants.

(** ** Telemetry samples *)

Module Sample.
Record t : Type := mk {
  time : string;
  timestamp : Z;
  temp : Q;
  predictedTemp : Q;
  pressure : Q;
  vibration : Q;
  state : Phase;
  tempDeviation : Q;
  pressureDeviation : Q;
  vibrationStatus : option AlertType
}.
End Sample.

(** ** The alert list

    [alerts] is the list the dashboard shows; [alertQueueRef] is the queue
    that lives next to it. The comparator is the one handed to the queue
    when the component mounts. *)

Definition alertCompare (a b : Alert) : Z :=
  let priorityDelta := ALERT_PRIORITY (type b) - ALERT_PRIORITY (type a) in
  if negb (priorityDelta =? 0) then priorityDelta else time b - time a.

(** The two [Date.now()] reads of one run of the [setAlerts] updater. *)
Record Clock : Type := mkClock {
  atCheck : Z;
  atStamp : Z
}.

Record AlertStore : Type := mkStore {
  alerts : list Alert;
  alertQueueRef : PriorityQueue.t Alert
}.

Definition suppressed (clk : Clock) (m : string) (prev : list Alert) : bool :=
  match prev with
  | [] => false
  | first :: _ => String.eqb (msg first) m && (atCheck clk - time first <? 5000)
  end.

Definition addAlert (clk : Clock) (m : string) (ty : AlertType) (s : AlertStore)
  : AlertStore :=
  if suppressed clk m (alerts s) then s
  else
    let nextAlert := mkAlert m ty (atStamp clk) in
    let queue := PriorityQueue.enqueue (alertQueueRef s) nextAlert in
    mkStore (firstn 10 (PriorityQueue.toArray queue)) queue.

Definition noAlerts : AlertStore :=
  mkStore [] (PriorityQueue.new alertCompare).

(** An offer is a call of [addAlert] made by the tick; [None] when the tick
    makes no call at that place. *)
Definition Offer : Type := option (string * AlertType).

Definition offer (clk : Clock) (o : Offer) (s : AlertStore) : AlertStore :=
  match o with
  | Some (m, ty) => addAlert clk m ty s
  | None => s
  end.

(** ** The dashboard engine *)

Module Dashboard.

Local Open Scope Q_scope.

(** The state of the component: its [useState] cells and its refs.
    [alertStore] groups the [alerts] cell and [alertQueueRef].
    [machineState] stands for the state cell and for [machineStateRef], which
    an effect re-aligns with the cell after the render that follows a tick;
    [phaseTime] stands for the cell and for [phaseTimeRef], which the tick
    writes together. [seenRejectCount] and [seenTotalCycles] are the values
    of [rejectCount] and [totalCycles] that the interval callback closed
    over when the simulation effect last ran (its only dependency is
    [isRunning]). *)
Record State : Type := mkState {
  machineState : Phase;
  phaseTime : Z;
  cycleTime : Z;
  totalCycles : Z;
  lastCycleTime : Q;
  rejectCount : Z;
  isRunning : bool;
  dataStream : list (option Sample.t);
  alertStore : AlertStore;
  tempDeviation : Q;
  pressureDeviation : Q;
  healthIndex : Q;
  currentTemp : Q;
  currentPressure : Q;
  currentVibration : Q;
  cycleStartRef : Z;
  dataBufferRef : CircularBuffer.t Sample.t;
  seenRejectCount : Z;
  seenTotalCycles : Z
}.

(** What the environment returns during one tick: one field for each
    [Math.random()] and [Date.now()] call site of the interval callback. *)
Record Env : Type := mkEnv {
  rndCycleJitter : Q;
  nowCycleEnd : Z;
  nowCycleStart : Z;
  rndTempNoise : Q;
  rndPressureNoise : Q;
  clkTempAlert : Clock;
  rndTempReject : Q;
  rndLeak : Q;
  clkPressureAlert : Clock;
  rndPressureReject : Q;
  rndVibration : Q;
  rndCriticalGate : Q;
  rndCriticalVibration : Q;
  clkCriticalAlert : Clock;
  rndVibrationReject : Q;
  rndWarningGate : Q;
  rndWarningVibration : Q;
  clkWarningAlert : Clock;
  sampleTime : string;
  nowSample : Z;
  rndHealth : Q
}.

(** [Math.random()] returns a number in [0, 1). *)
Definition random (r : Q) : Prop := 0 <= r /\ r < 1.

Definition mounted (now : Z) : State :=
  mkState IDLE 0 0 124 45.2 3 true [] noAlerts 0 0 85 25 0 0 now
          (CircularBuffer.new 60) 3 124.

(** *** Phase machine *)

Definition nextState (ms : Phase) : Phase :=
  match ms with
  | IDLE => CLOSING
  | CLOSING => HEATING
  | HEATING => PRESSING
  | PRESSING => COOLING
  | COOLING => OPENING
  | OPENING => IDLE
  end.

(** [phaseTimeRef.current >= phaseDuration], read after the increment. *)
Definition due (ms : Phase) (pt : Z) : bool := (duration ms <=? pt + 1)%Z.

Definition completes (ms : Phase) (pt : Z) : bool :=
  due ms pt && Phase_eqb ms OPENING.

(** [Object.values(CYCLE_PHASES).reduce((acc, val) => acc + val.duration, 0)] *)
Definition cycleLength : Z :=
  fold_left (fun acc val => (acc + duration val)%Z) CYCLE_PHASES 0%Z.

(** *** Process model *)

Definition vulcanizing (ms : Phase) : bool :=
  match ms with
  | HEATING | PRESSING => true
  | _ => false
  end.

Definition tempTargetByState (ms : Phase) : Q :=
  match ms with
  | IDLE => 35
  | CLOSING => 90
  | HEATING => TARGET_TEMP
  | PRESSING => TARGET_TEMP
  | COOLING => 80
  | OPENING => 45
  end.

Definition dt : Q := 1.

Definition predictedT (ms : Phase) (temp : Q) : Q :=
  let targetTemp := tempTargetByState ms in
  let thermalTau := if vulcanizing ms then 26 else 18 in
  let dT := (targetTemp - temp) / thermalTau in
  clamp (temp + dT * dt) BRAKE_PAD_TEMP_MIN BRAKE_PAD_TEMP_MAX.

Definition nextTemp (ms : Phase) (temp : Q) (env : Env) : Q :=
  let tempNoise := (rndTempNoise env - 0.5) * 0.8 in
  clamp (predictedT ms temp + tempNoise) BRAKE_PAD_TEMP_MIN BRAKE_PAD_TEMP_MAX.

Definition nextPressure (ms : Phase) (pressure : Q) (env : Env) : Q :=
  let pressureNoise := (rndPressureNoise env - 0.5) * 0.6 in
  let pumpFlow :=
    match ms with
    | CLOSING | HEATING | PRESSING => 3.4
    | _ => 0
    end in
  let baseLeakFlow := 0.9 + rndLeak env * 0.2 in
  let pistonArea := 1.1 in
  let moldVelocity := if Phase_eqb ms OPENING then 1.1 else 0.25 in
  let compliance := 0.18 in
  let reliefFlow := Qmax 0 ((pressure - 235) * 0.05) in
  let dP := (pumpFlow - baseLeakFlow - reliefFlow - pistonArea * moldVelocity)
            / compliance in
  let pressureStep := pressure + dP * dt in
  clamp (pressureStep + pressureNoise) BRAKE_PAD_PRESSURE_MIN BRAKE_PAD_PRESSURE_MAX.

(** *** Deviations and the alerts they raise

    [temp] and [pressure] are the readings just produced by the process
    model in this tick. In a template literal the integral constants
    [TARGET_TEMP] and [VIBRATION_SAFE] print as their digits. *)

Definition tempDevOf (ms : Phase) (temp : Q) : Q :=
  if vulcanizing ms then ((temp - TARGET_TEMP) / TARGET_TEMP) * 100 else 0.

Definition temperatureLow (temp tempDev : Q) : string :=
  ("🔴 Temperature Low: " ++ Js.toFixed temp 1 ++ "°C (Dev: "
     ++ Js.toFixed tempDev 1 ++ "%)")%string.

Definition temperatureDeviation (tempDev : Q) : string :=
  ("🟡 Temperature Deviation: " ++ Js.toFixed tempDev 1
     ++ "% (Set: " ++ Js.toFixed TARGET_TEMP 0 ++ "°C)")%string.

Definition tempOffer (ms : Phase) (temp : Q) : Offer :=
  let tempDev := tempDevOf ms temp in
  if vulcanizing ms then
    if Js.gtb (Qabs tempDev) TEMP_TOLERANCE then
      if Js.ltb temp TEMP_WARNING_THRESHOLD
      then Some (temperatureLow temp tempDev, critical)
      else Some (temperatureDeviation tempDev, warning)
    else None
  else None.

(** The amount added by [setRejectCount(c => c + (Math.random() > 0.8 ? 1 : 0))],
    which is called only next to the critical temperature alert. *)
Definition tempRejects (ms : Phase) (temp : Q) (env : Env) : Z :=
  if vulcanizing ms
     && Js.gtb (Qabs (tempDevOf ms temp)) TEMP_TOLERANCE
     && Js.ltb temp TEMP_WARNING_THRESHOLD
  then (if Js.gtb (rndTempReject env) 0.8 then 1 else 0)%Z
  else 0%Z.

Definition pressureDevOf (ms : Phase) (pressure : Q) : Q :=
  if Phase_eqb ms PRESSING
  then ((pressure - TARGET_PRESSURE) / TARGET_PRESSURE) * 100
  else 0.

Definition pressureLoss (pressure pressureDev : Q) : string :=
  ("🔴 Pressure Loss: " ++ Js.toFixed pressure 1 ++ " Bar (Dev: "
     ++ Js.toFixed pressureDev 1 ++ "%)")%string.

(** The condition under which the tick calls [addAlert] for pressure. *)
Definition pressureAlarm (ms : Phase) (pressure : Q) : bool :=
  Phase_eqb ms PRESSING
  && (Js.gtb (Qabs (pressureDevOf ms pressure)) PRESSURE_TOLERANCE
      && Js.ltb pressure (TARGET_PRESSURE * 0.9)).

Definition pressureOffer (ms : Phase) (pressure : Q) : Offer :=
  if pressureAlarm ms pressure
  then Some (pressureLoss pressure (pressureDevOf ms pressure), critical)
  else None.

Definition pressureRejects (ms : Phase) (pressure : Q) (env : Env) : Z :=
  if pressureAlarm ms pressure
  then (if Js.gtb (rndPressureReject env) 0.7 then 1 else 0)%Z
  else 0%Z.

(** *** Vibration *)

Definition highVibration (vibration : Q) : string :=
  ("🔴 High Vibration: " ++ Js.toFixed vibration 2 ++ " mm/s (Critical)")%string.

Definition vibrationWarning (vibration : Q) : string :=
  ("🟡 Vibration Warning: " ++ Js.toFixed vibration 2 ++ " mm/s (Safe: <"
     ++ Js.toFixed VIBRATION_SAFE 0 ++ " mm/s)")%string.

(** The reading [vibration] and the tier [vibrationAlert] of this tick. *)
Definition vibrationOf (ms : Phase) (env : Env) : Q * option AlertType :=
  let vibration := 2 + rndVibration env * 2 in
  if Phase_eqb ms PRESSING then
    if Js.gtb (rndCriticalGate env) 0.92
    then (6 + rndCriticalVibration env * 4, Some critical)
    else if Js.gtb (rndWarningGate env) 0.88
         then (4.5 + rndWarningVibration env * 1, Some warning)
         else (vibration, None)
  else (vibration, None).

Definition vibrationOffer (ms : Phase) (env : Env) : Offer :=
  match vibrationOf ms env with
  | (vibration, Some critical) => Some (highVibration vibration, critical)
  | (vibration, Some warning) => Some (vibrationWarning vibration, warning)
  | _ => None
  end.

Definition vibrationClock (ms : Phase) (env : Env) : Clock :=
  match snd (vibrationOf ms env) with
  | Some critical => clkCriticalAlert env
  | _ => clkWarningAlert env
  end.

Definition vibrationRejects (ms : Phase) (env : Env) : Z :=
  match snd (vibrationOf ms env) with
  | Some critical => (if Js.gtb (rndVibrationReject env) 0.6 then 1 else 0)%Z
  | _ => 0%Z
  end.

(** *** Health index: the updater handed to [setHealthIndex] *)

Definition vibrationPenaltyOf (vibration : Q) : Q :=
  if Js.gtb vibration VIBRATION_CRITICAL then 80
  else if Js.gtb vibration VIBRATION_WARNING then 40
  else if Js.gtb vibration VIBRATION_SAFE then 20
  else 5.

Definition healthUpdate (tempDev pressureDev : Q) (rejectCount totalCycles : Z)
           (vibration rnd : Q) : Q :=
  let tempDevPenalty := Qmin (Qabs tempDev * 2) 100 in
  let pressureDevPenalty := Qmin (Qabs pressureDev * 2) 100 in
  let rejectRate :=
    if (0 <? rejectCount)%Z
    then inject_Z rejectCount / inject_Z (Z.max 1 totalCycles)
    else 0 in
  let rejectPenalty := Qmin (rejectRate * 150) 100 in
  let vibrationPenalty := vibrationPenaltyOf vibration in
  let health := 100 - (0.4 * tempDevPenalty
                       + 0.3 * pressureDevPenalty
                       + 0.2 * rejectPenalty
                       + 0.1 * vibrationPenalty) in
  let fluctuation := (rnd - 0.5) * 1 in
  let finalHealth := health + fluctuation in
  Qmax 5 (Qmin 100 finalHealth).

(** *** One run of the interval callback

    The two readings that feed back into the next tick, [currentTemp] and
    [currentPressure], are stored in lowest terms ([Qred]): the same
    rational number, in a representation whose size does not explode over
    a long run. *)

Definition newDataPoint (ms : Phase) (env : Env)
           (temp predicted pressure vibration tempDev pressureDev : Q)
           (vibrationAlert : option AlertType) : Sample.t :=
  Sample.mk (sampleTime env) (nowSample env)
            (Js.fixed temp 1) (Js.fixed predicted 1)
            (Js.fixed pressure 1) (Js.fixed vibration 1)
            ms
            (Js.fixed tempDev 1) (Js.fixed pressureDev 1)
            vibrationAlert.

(** The sample that the tick hands to the ring store. *)
Definition sampleOf (st : State) (env : Env) : Sample.t :=
  let ms := machineState st in
  let predicted := predictedT ms (currentTemp st) in
  let temp := Qred (nextTemp ms (currentTemp st) env) in
  let tempDev := tempDevOf ms temp in
  let pressure := Qred (nextPressure ms (currentPressure st) env) in
  let pressureDev := pressureDevOf ms pressure in
  let vibration := fst (vibrationOf ms env) in
  let vibrationAlert := snd (vibrationOf ms env) in
  newDataPoint ms env temp predicted pressure vibration
               tempDev pressureDev vibrationAlert.

Definition tick (st : State) (env : Env) : State :=
  let ms := machineState st in
  let temp := Qred (nextTemp ms (currentTemp st) env) in
  let tempDev := tempDevOf ms temp in
  let pressure := Qred (nextPressure ms (currentPressure st) env) in
  let pressureDev := pressureDevOf ms pressure in
  let vibration := fst (vibrationOf ms env) in
  let buffer := CircularBuffer.push (dataBufferRef st) (sampleOf st env) in
  mkState
    (if due ms (phaseTime st) then nextState ms else ms)
    (if due ms (phaseTime st) then 0 else phaseTime st + 1)%Z
    (if completes ms (phaseTime st)
     then Z.max 1 (Js.round (inject_Z (nowCycleEnd env - cycleStartRef st) / 1000))
     else cycleTime st)
    (if completes ms (phaseTime st) then totalCycles st + 1 else totalCycles st)%Z
    (if completes ms (phaseTime st)
     then inject_Z cycleLength + (rndCycleJitter env * 2 - 1)
     else lastCycleTime st)
    (rejectCount st + tempRejects ms temp env + pressureRejects ms pressure env
     + vibrationRejects ms env)%Z
    (isRunning st)
    (CircularBuffer.toArray buffer)
    (offer (vibrationClock ms env) (vibrationOffer ms env)
       (offer (clkPressureAlert env) (pressureOffer ms pressure)
          (offer (clkTempAlert env) (tempOffer ms temp) (alertStore st))))
    (if vulcanizing ms then tempDev else tempDeviation st)
    (if Phase_eqb ms PRESSING then pressureDev else pressureDeviation st)
    (healthUpdate tempDev pressureDev (seenRejectCount st) (seenTotalCycles st)
                  vibration (rndHealth env))
    temp
    pressure
    vibration
    (if completes ms (phaseTime st) then nowCycleStart env else cycleStartRef st)
    buffer
    (seenRejectCount st)
    (seenTotalCycles st).

(** The state after the ticks whose environments are [envs], in order. *)
Definition run (st : State) (envs : list Env) : State := fold_left tick envs st.

(** [setIsRunning]: pausing clears the interval; resuming re-runs the
    simulation effect, whose new callback closes over the current counters. *)
Definition setIsRunning (b : bool) (st : State) : State :=
  mkState (machineState st) (phaseTime st) (cycleTime st) (totalCycles st)
          (lastCycleTime st) (rejectCount st) b (dataStream st) (alertStore st)
          (tempDeviation st) (pressureDeviation st) (healthIndex st)
          (currentTemp st) (currentPressure st) (currentVibration st)
          (cycleStartRef st) (dataBufferRef st)
          (if b && negb (isRunning st) then rejectCount st else seenRejectCount st)
          (if b && negb (isRunning st) then totalCycles st else seenTotalCycles st).

(** *** OEE, as the "Production Efficiency" card computes it at render *)

Definition oeeRaw (st : State) : Q :=
  let qualityFactor :=
    Qmax 0.55 (1 - (inject_Z (rejectCount st) / inject_Z (Z.max 1 (totalCycles st)))) in
  let performanceFactor :=
    Qmax 0.6 (0.95 - (Qabs (tempDeviation st) / 100 * 0.1)
                   - (Qabs (pressureDeviation st) / 100 * 0.1)) in
  let availabilityFactor := if isRunning st then 0.98 else 0.7 in
  (availabilityFactor * performanceFactor * qualityFactor) * 100.

Definition oeeClamped (st : State) : Q := Qmax 50 (Qmin 100 (oeeRaw st)).

Definition oeeText (st : State) : string := Js.toFixed (oeeClamped st) 1.

End Dashboard.

(** ** What the dashboard shows at render

    The status badge, the KPI cards and the footer cards are computed from
    the state cells and the refs each time the component renders. *)

Module Readouts.

Import Dashboard.
Local Open Scope Q_scope.

Record Status : Type := mkStatus {
  label : string;
  color : string
}.

Definition getMachineStatus (st : State) : Status :=
  if negb (isRunning st) then mkStatus "Stopped" "gray"
  else if Phase_eqb (machineState st) IDLE then mkStatus "Idle" "gray"
  else if Js.ltb (healthIndex st) 60
          || Js.gtb (Qabs (tempDeviation st)) (TEMP_TOLERANCE * 2)
          || Js.gtb (Qabs (pressureDeviation st)) (PRESSURE_TOLERANCE * 2)
  then mkStatus "Critical" "red"
  else if Js.ltb (healthIndex st) 75
          || Js.gtb (Qabs (tempDeviation st)) (TEMP_TOLERANCE * 1.5)
          || Js.gtb (Qabs (pressureDeviation st)) (PRESSURE_TOLERANCE * 1.5)
  then mkStatus "Warning" "yellow"
  else if Js.ltb (healthIndex st) 85
          || Js.gtb (Qabs (tempDeviation st)) TEMP_TOLERANCE
          || Js.gtb (Qabs (pressureDeviation st)) PRESSURE_TOLERANCE
  then mkStatus "Degraded" "orange"
  else if Phase_eqb (machineState st) HEATING
          && Js.ltb (currentTemp st) TEMP_WARNING_THRESHOLD
  then mkStatus "Heating Phase" "blue"
  else mkStatus "Healthy" "green".

(** [value={cycleTime || phaseTime}] of the "Cycle Phase Time" card: the
    left operand unless it is 0. *)
Definition cyclePhaseTime (st : State) : Z :=
  if (cycleTime st =? 0)%Z then phaseTime st else cycleTime st.

(** The OEE that picks the colour of the "Overall Equipment Effectiveness"
    figure. Its performance factor has no lower bound, unlike the one of
    the printed figure ([oeeRaw]). *)
Definition oeeColourValue (st : State) : Q :=
  let qualityFactor :=
    Qmax 0.55 (1 - (inject_Z (rejectCount st) / inject_Z (Z.max 1 (totalCycles st)))) in
  let performanceFactor :=
    0.95 - (Qabs (tempDeviation st) / 100 * 0.1)
         - (Qabs (pressureDeviation st) / 100 * 0.1) in
  let availabilityFactor := if isRunning st then 0.98 else 0.7 in
  (availabilityFactor * performanceFactor * qualityFactor) * 100.

Definition oeeColour (isDark : bool) (st : State) : string :=
  let oee := oeeColourValue st in
  if Qle_bool 75 oee then (if isDark then "text-green-400" else "text-emerald-600")
  else if Qle_bool 60 oee then (if isDark then "text-yellow-400" else "text-amber-600")
  else (if isDark then "text-red-400" else "text-rose-500").

(** The colour of the health icon next to the health index. *)
Definition healthColour (isDark : bool) (st : State) : string :=
  if Qle_bool 85 (healthIndex st)
  then (if isDark then "text-green-400" else "text-emerald-500")
  else if Qle_bool 75 (healthIndex st)
  then (if isDark then "text-yellow-400" else "text-amber-500")
  else if Qle_bool 60 (healthIndex st)
  then (if isDark then "text-orange-400" else "text-orange-600")
  else (if isDark then "text-red-400" else "text-rose-500").

(** The line under the health bar. *)
Definition toleranceNote (st : State) : string :=
  if Qle_bool (Qabs (tempDeviation st)) TEMP_TOLERANCE
     && Qle_bool (Qabs (pressureDeviation st)) PRESSURE_TOLERANCE
  then "✓ All parameters within tolerance"
  else ("⚠ Temp: " ++ Js.toFixed (tempDeviation st) 1 ++ "% | Pressure: "
          ++ Js.toFixed (pressureDeviation st) 1 ++ "%")%string.

(** The colours of the "Current: ... mm/s" line under the vibration
    chart. *)
Definition vibrationRed (isDark : bool) : string :=
  if isDark then "text-red-400 bg-red-900/20 border-red-500/30"
  else "text-rose-600 bg-rose-100 border-rose-200".

Definition vibrationYellow (isDark : bool) : string :=
  if isDark then "text-yellow-400 bg-yellow-900/20 border-yellow-500/30"
  else "text-amber-600 bg-amber-100 border-amber-200".

Definition vibrationGreen (isDark : bool) : string :=
  if isDark then "text-green-400 bg-green-900/20 border-green-500/30"
  else "text-emerald-600 bg-emerald-100 border-emerald-200".

(** The colour is picked from the newest sample of [dataStream]. Reading
    a field of an empty slot throws: [None]. *)
Definition vibrationTone (isDark : bool) (stream : list (option Sample.t))
  : option string :=
  match stream with
  | [] => Some (vibrationGreen isDark)
  | _ :: _ =>
      match last stream None with
      | None => None
      | Some newest =>
          Some (if Js.gtb (Sample.vibration newest) VIBRATION_CRITICAL
                then vibrationRed isDark
                else if Js.gtb (Sample.vibration newest) VIBRATION_WARNING
                     then vibrationYellow isDark
                     else vibrationGreen isDark)
      end
  end.

End Readouts.

(** ** The older engine of [synapse_ui.js]

    The first version of the dashboard keeps the alert list itself as the
    only store: a new alert goes to the front and the list is cut to ten.
    Its pressure integrator relaxes towards a phase target and adds the
    noise without clamping. Its phase machine compares the elapsed time
    with the duration before the increment takes effect. *)

Module Legacy.

Definition addAlert (clk : Clock) (m : string) (ty : AlertType)
           (prev : list Alert) : list Alert :=
  if suppressed clk m prev then prev
  else firstn 10 (mkAlert m ty (atStamp clk) :: prev).

Definition nextPressure (machineState : Phase) (pressure rnd : Q) : Q :=
  (let noise := (rnd - 0.5) * 1.5 in
   let targetP :=
     match machineState with
     | CLOSING => 50
     | HEATING | PRESSING => TARGET_PRESSURE
     | _ => 0
     end in
   let pressureRate := 0.3 in
   pressure + (targetP - pressure) * pressureRate + noise)%Q.

(** [setPhaseTime(prev => prev + 1)], then [if (phaseTime >= phaseDuration)]
    on the value of the current render, then [setPhaseTime(0)]. *)
Definition advance (p : Phase * Z) : Phase * Z :=
  let (machineState, phaseTime) := p in
  if duration machineState <=? phaseTime
  then (Dashboard.nextState machineState, 0)
  else (machineState, phaseTime + 1).

(** *** The whole tick of the older engine

    The interval callback of [synapse_ui.js] is created anew whenever
    [isRunning], [machineState] or [phaseTime] changes, that is, after
    every tick: it reads the state cells of the latest render. The
    readings are stored in lowest terms, as in the newer engine. *)

Local Open Scope Q_scope.

Record State : Type := mkState {
  machineState : Phase;
  phaseTime : Z;
  totalCycles : Z;
  lastCycleTime : Q;
  rejectCount : Z;
  isRunning : bool;
  dataStream : list Sample.t;
  alerts : list Alert;
  tempDeviation : Q;
  pressureDeviation : Q;
  healthIndex : Q;
  currentTemp : Q;
  currentPressure : Q
}.

Record Env : Type := mkEnv {
  rndCycleJitter : Q;
  rndNoise : Q;
  clkTempAlert : Clock;
  rndTempReject : Q;
  clkPressureAlert : Clock;
  rndPressureReject : Q;
  rndVibration : Q;
  rndCriticalGate : Q;
  rndCriticalVibration : Q;
  clkCriticalAlert : Clock;
  rndVibrationReject : Q;
  rndWarningGate : Q;
  rndWarningVibration : Q;
  clkWarningAlert : Clock;
  sampleTime : string;
  nowSample : Z;
  rndHealth : Q
}.

Definition mounted : State :=
  mkState IDLE 0 124 45.2 3 true [] [] 0 0 85 25 0.

Definition setIsRunning (b : bool) (st : State) : State :=
  mkState (machineState st) (phaseTime st) (totalCycles st) (lastCycleTime st)
          (rejectCount st) b (dataStream st) (alerts st) (tempDeviation st)
          (pressureDeviation st) (healthIndex st) (currentTemp st)
          (currentPressure st).

Definition targetT (ms : Phase) : Q :=
  if Dashboard.vulcanizing ms then TARGET_TEMP
  else if Phase_eqb ms COOLING then 60
  else 100.

Definition heatingRate (ms : Phase) : Q :=
  if Dashboard.vulcanizing ms then 0.8
  else if Phase_eqb ms COOLING then 0.5
  else 0.1.

Definition predictedT (ms : Phase) (temp : Q) : Q :=
  temp + (targetT ms - temp) * (heatingRate ms * 0.2).

Definition nextTemp (ms : Phase) (temp rnd : Q) : Q :=
  let noise := (rnd - 0.5) * 1.5 in
  temp + (targetT ms - temp) * (heatingRate ms * 0.15) + (noise * 0.1).

(** The messages, with the characters that the file holds. *)
Definition temperatureLow (temp tempDev : Q) : string :=
  ("ðŸ”´ Temperature Low: " ++ Js.toFixed temp 1 ++ "Â°C (Dev: "
     ++ Js.toFixed tempDev 1 ++ "%)")%string.

Definition temperatureDeviation (tempDev : Q) : string :=
  ("ðŸŸ¡ Temperature Deviation: " ++ Js.toFixed tempDev 1
     ++ "% (Set: " ++ Js.toFixed TARGET_TEMP 0 ++ "Â°C)")%string.

Definition pressureLoss (pressure pressureDev : Q) : string :=
  ("ðŸ”´ Pressure Loss: " ++ Js.toFixed pressure 1 ++ " Bar (Dev: "
     ++ Js.toFixed pressureDev 1 ++ "%)")%string.

Definition highVibration (vibration : Q) : string :=
  ("ðŸ”´ High Vibration: " ++ Js.toFixed vibration 2 ++ " mm/s (Critical)")%string.

Definition vibrationWarning (vibration : Q) : string :=
  ("ðŸŸ¡ Vibration Warning: " ++ Js.toFixed vibration 2 ++ " mm/s (Safe: <"
     ++ Js.toFixed VIBRATION_SAFE 0 ++ " mm/s)")%string.

Definition tempOffer (ms : Phase) (temp : Q) : Offer :=
  let tempDev := Dashboard.tempDevOf ms temp in
  if Dashboard.vulcanizing ms then
    if Js.gtb (Qabs tempDev) TEMP_TOLERANCE then
      if Js.ltb temp TEMP_WARNING_THRESHOLD
      then Some (temperatureLow temp tempDev, critical)
      else Some (temperatureDeviation tempDev, warning)
    else None
  else None.

Definition tempRejects (ms : Phase) (temp : Q) (env : Env) : Z :=
  if Dashboard.vulcanizing ms
     && Js.gtb (Qabs (Dashboard.tempDevOf ms temp)) TEMP_TOLERANCE
     && Js.ltb temp TEMP_WARNING_THRESHOLD
  then (if Js.gtb (rndTempReject env) 0.8 then 1 else 0)%Z
  else 0%Z.

Definition pressureOffer (ms : Phase) (pressure : Q) : Offer :=
  if Dashboard.pressureAlarm ms pressure
  then Some (pressureLoss pressure (Dashboard.pressureDevOf ms pressure), critical)
  else None.

Definition pressureRejects (ms : Phase) (pressure : Q) (env : Env) : Z :=
  if Dashboard.pressureAlarm ms pressure
  then (if Js.gtb (rndPressureReject env) 0.7 then 1 else 0)%Z
  else 0%Z.

Definition vibrationOf (ms : Phase) (env : Env) : Q * option AlertType :=
  let vibration := 2 + rndVibration env * 2 in
  if Phase_eqb ms PRESSING then
    if Js.gtb (rndCriticalGate env) 0.92
    then (6 + rndCriticalVibration env * 4, Some critical)
    else if Js.gtb (rndWarningGate env) 0.88
         then (4.5 + rndWarningVibration env * 1, Some warning)
         else (vibration, None)
  else (vibration, None).

Definition vibrationOffer (ms : Phase) (env : Env) : Offer :=
  match vibrationOf ms env with
  | (vibration, Some critical) => Some (highVibration vibration, critical)
  | (vibration, Some warning) => Some (vibrationWarning vibration, warning)
  | _ => None
  end.

Definition vibrationClock (ms : Phase) (env : Env) : Clock :=
  match snd (vibrationOf ms env) with
  | Some critical => clkCriticalAlert env
  | _ => clkWarningAlert env
  end.

Definition vibrationRejects (ms : Phase) (env : Env) : Z :=
  match snd (vibrationOf ms env) with
  | Some critical => (if Js.gtb (rndVibrationReject env) 0.6 then 1 else 0)%Z
  | _ => 0%Z
  end.

Definition offer (clk : Clock) (o : Offer) (prev : list Alert) : list Alert :=
  match o with
  | Some (m, ty) => addAlert clk m ty prev
  | None => prev
  end.

(** The updater handed to [setHealthIndex]: deductions from 100. *)
Definition healthUpdate (tempDev pressureDev vibration rnd : Q) : Q :=
  let health := 100 in
  let health :=
    if Js.gtb (Qabs tempDev) TEMP_TOLERANCE then health - 10 else health in
  let health :=
    if Js.gtb (Qabs tempDev) (TEMP_TOLERANCE * 1.5) then health - 10 else health in
  let health :=
    if Js.gtb (Qabs pressureDev) PRESSURE_TOLERANCE then health - 10 else health in
  let health :=
    if Js.gtb vibration VIBRATION_CRITICAL then health - 20
    else if Js.gtb vibration VIBRATION_WARNING then health - 10
    else health in
  Qmax 50 (Qmin 100 (health + (rnd - 0.5) * 2)).

(** The updater handed to [setDataStream]: append, then [shift] once the
    array is longer than 60. *)
Definition append {A : Type} (prev : list A) (newDataPoint : A) : list A :=
  let newStream := prev ++ [newDataPoint] in
  if (60 <? List.length newStream)%nat then tl newStream else newStream.

Definition sampleOf (st : State) (env : Env) : Sample.t :=
  let ms := machineState st in
  let temp := Qred (nextTemp ms (currentTemp st) (rndNoise env)) in
  let pressure := Qred (nextPressure ms (currentPressure st) (rndNoise env)) in
  Sample.mk (sampleTime env) (nowSample env)
            (Js.fixed temp 1)
            (Js.fixed (predictedT ms (currentTemp st)) 1)
            (Js.fixed pressure 1)
            (Js.fixed (fst (vibrationOf ms env)) 1)
            ms
            (Js.fixed (Dashboard.tempDevOf ms temp) 1)
            (Js.fixed (Dashboard.pressureDevOf ms pressure) 1)
            (snd (vibrationOf ms env)).

Definition tick (st : State) (env : Env) : State :=
  let ms := machineState st in
  let completes := (duration ms <=? phaseTime st)%Z && Phase_eqb ms OPENING in
  let temp := Qred (nextTemp ms (currentTemp st) (rndNoise env)) in
  let tempDev := Dashboard.tempDevOf ms temp in
  let pressure := Qred (nextPressure ms (currentPressure st) (rndNoise env)) in
  let pressureDev := Dashboard.pressureDevOf ms pressure in
  let vibration := fst (vibrationOf ms env) in
  mkState
    (fst (advance (ms, phaseTime st)))
    (snd (advance (ms, phaseTime st)))
    (if completes then totalCycles st + 1 else totalCycles st)%Z
    (if completes
     then inject_Z Dashboard.cycleLength + (rndCycleJitter env * 2 - 1)
     else lastCycleTime st)
    (rejectCount st + tempRejects ms temp env + pressureRejects ms pressure env
     + vibrationRejects ms env)%Z
    (isRunning st)
    (append (dataStream st) (sampleOf st env))
    (offer (vibrationClock ms env) (vibrationOffer ms env)
       (offer (clkPressureAlert env) (pressureOffer ms pressure)
          (offer (clkTempAlert env) (tempOffer ms temp) (alerts st))))
    (if Dashboard.vulcanizing ms then tempDev else tempDeviation st)
    (if Phase_eqb ms PRESSING then pressureDev else pressureDeviation st)
    (healthUpdate tempDev pressureDev vibration (rndHealth env))
    temp
    pressure.

Definition getMachineStatus (st : State) : Readouts.Status :=
  if negb (isRunning st) then Readouts.mkStatus "Stopped" "gray"
  else if Phase_eqb (machineState st) IDLE then Readouts.mkStatus "Idle" "gray"
  else if Phase_eqb (machineState st) HEATING
          && Js.ltb (currentTemp st) TEMP_WARNING_THRESHOLD
  then Readouts.mkStatus "Heating Phase" "orange"
  else if Js.gtb (Qabs (tempDeviation st)) TEMP_TOLERANCE
          || Js.gtb (Qabs (pressureDeviation st)) PRESSURE_TOLERANCE
  then Readouts.mkStatus "Warning" "yellow"
  else if Phase_eqb (machineState st) PRESSING && Js.ltb (healthIndex st) 70
  then Readouts.mkStatus "Critical" "red"
  else Readouts.mkStatus "Optimal" "green".

(** Every draw of a tick lies in [0, 1). *)
Definition fair (env : Env) : Prop :=
  Dashboard.random (rndCycleJitter env) /\ Dashboard.random (rndNoise env) /\
  Dashboard.random (rndTempReject env) /\
  Dashboard.random (rndPressureReject env) /\
  Dashboard.random (rndVibration env) /\
  Dashboard.random (rndCriticalGate env) /\
  Dashboard.random (rndCriticalVibration env) /\
  Dashboard.random (rndVibrationReject env) /\
  Dashboard.random (rndWarningGate env) /\
  Dashboard.random (rndWarningVibration env) /\
  Dashboard.random (rndHealth env).

(** The states of the older dashboard on fair draws. *)
Inductive operated : State -> Prop :=
| op_mounted : operated mounted
| op_tick (st : State) (env : Env) :
    operated st -> isRunning st = true -> fair env -> operated (tick st env)
| op_toggle (st : State) (b : bool) :
    operated st -> operated (setIsRunning b st).

(** An environment in which every draw is [draw] and every clock reads
    [now]. *)
Definition steady (draw : Q) (now : Z) : Env :=
  mkEnv draw draw (mkClock now now) draw (mkClock now now) draw draw draw draw
        (mkClock now now) draw draw draw (mkClock now now) "12:00:00" now draw.

(** The state after the ticks whose environments are [envs], in order. *)
Definition run (st : State) (envs : list Env) : State := fold_left tick envs st.

(** The ticks of the running cycle that lie behind a state of the older
    engine, where a phase of duration [d] takes [d + 1] ticks. *)
Definition elapsed (ms : Phase) (pt : Z) : Z :=
  (match ms with
   | IDLE => 0
   | CLOSING => 6
   | HEATING => 10
   | PRESSING => 26
   | COOLING => 37
   | OPENING => 46
   end + pt)%Z.

End Legacy.

(** ** Runs of the engine, and the vocabulary of its properties *)

Module Behaviour.

Import Dashboard.
Local Open Scope Q_scope.

(** The states the component can be in: it mounts, the interval fires while
    the simulation runs, and the operator pauses or resumes it. *)
Inductive reachable : State -> Prop :=
| reach_mounted (now : Z) : reachable (mounted now)
| reach_tick (st : State) (env : Env) :
    reachable st -> isRunning st = true -> reachable (tick st env)
| reach_toggle (st : State) (b : bool) :
    reachable st -> reachable (setIsRunning b st).

Definition withinLimits (st : State) : Prop :=
  (BRAKE_PAD_TEMP_MIN <= currentTemp st <= BRAKE_PAD_TEMP_MAX) /\
  (BRAKE_PAD_PRESSURE_MIN <= currentPressure st <= BRAKE_PAD_PRESSURE_MAX).

(** The phase machine seen on its own: the phase and the elapsed phase time
    after a tick depend on nothing but the phase and the elapsed phase time
    before it. *)
Definition advance (p : Phase * Z) : Phase * Z :=
  let (ms, pt) := p in
  if due ms pt then (nextState ms, 0%Z) else (ms, (pt + 1)%Z).

Definition phaseOf (st : State) : Phase * Z := (machineState st, phaseTime st).

(** How many of the next [n] ticks complete a cycle. *)
Fixpoint firings (n : nat) (p : Phase * Z) : Z :=
  match n with
  | O => 0%Z
  | S n' => ((if completes (fst p) (snd p) then 1 else 0) + firings n' (advance p))%Z
  end.

(** How many ticks of a run signalled [cycle completed]. *)
Fixpoint completions (st : State) (envs : list Env) : Z :=
  match envs with
  | [] => 0%Z
  | env :: envs' =>
      ((if completes (machineState st) (phaseTime st) then 1 else 0)
       + completions (tick st env) envs')%Z
  end.

(** [q] comes right after [p] in the cyclic order of [CYCLE_PHASES]. *)
Definition follows (p q : Phase) : Prop :=
  exists i : nat,
    (i < List.length CYCLE_PHASES)%nat /\
    nth_error CYCLE_PHASES i = Some p /\
    nth_error CYCLE_PHASES (S i mod List.length CYCLE_PHASES) = Some q.

(** An environment in which every random draw is [draw] and every clock
    reads [now]. *)
Definition steady (draw : Q) (now : Z) : Env :=
  mkEnv draw now now draw draw (mkClock now now) draw draw (mkClock now now)
        draw draw draw draw (mkClock now now) draw draw draw (mkClock now now)
        "12:00:00" now draw.

(** [a] may stand before [b] in the alert list: it is more severe, or as
    severe and not older. *)
Definition outranks (a b : Alert) : Prop :=
  (ALERT_PRIORITY (type b) < ALERT_PRIORITY (type a))%Z \/
  (ALERT_PRIORITY (type a) = ALERT_PRIORITY (type b) /\ (time b <= time a)%Z).

(** The alert store as the engine keeps it. *)
Definition kept (s : AlertStore) : Prop :=
  PriorityQueue.compare (alertQueueRef s) = alertCompare /\
  (List.length (alerts s) <= 10)%nat /\
  StronglySorted outranks (alerts s).

(** Quiet ticks one second apart: tick [k] happens at [1000 k] ms and every
    random draw is one half (no noise, no vibration excursion). *)
Definition calm (k : nat) : Env := steady 0.5 (1000 * Z.of_nat k).

Definition calmTicks (n : nat) : list Env := map calm (seq 1 n).

(** Ticks one second apart in which every random draw is 0.9: the noise is
    high and every reject draw adds a reject. *)
Definition eventful (k : nat) : Env := steady 0.9 (1000 * Z.of_nat k).

Definition eventfulTicks (n : nat) : list Env := map eventful (seq 1 n).

(** Ticks one second apart in which every random draw is 0.99: the noise is
    at its highest, and every tick of PRESSING reads a critical vibration
    of 9.96 mm/s. *)
Definition hectic (k : nat) : Env := steady 0.99 (1000 * Z.of_nat k).

Definition hecticTicks (n : nat) : list Env := map hectic (seq 1 n).

(** A clock that reads [now] at both reads of one [addAlert]. *)
Definition at_ms (now : Z) : Clock := mkClock now now.

(** A store built by two calls of [addAlert]: a critical temperature alert,
    then one vibration warning accepted one second later. *)
Definition lowTemperature : string := temperatureLow 130 (tempDevOf HEATING 130).

Definition vibrationAt5 : string := vibrationWarning 5.

Definition warningBehindCritical : AlertStore :=
  addAlert (at_ms 1000) vibrationAt5 warning
    (addAlert (at_ms 0) lowTemperature critical noAlerts).

(** What one call site of [addAlert] puts into the queue during a tick:
    the candidate when the guard of [addAlert] lets it pass, nothing when
    the guard drops it or the tick makes no call. *)
Definition accepted (clk : Clock) (o : Offer) (s : AlertStore) : list Alert :=
  match o with
  | Some (m, ty) =>
      if suppressed clk m (alerts s) then [] else [mkAlert m ty (atStamp clk)]
  | None => []
  end.


(** Severity and time stamp of the alerts of a list, in order. *)
Definition stamps (l : list Alert) : list (AlertType * Z) :=
  map (fun a => (type a, time a)) l.

(** The dashboard one tick into PRESSING of a hectic run: seventeen alerts
    have been accepted since it mounted. *)
Definition crowded : State := run (mounted 0) (hecticTicks 24).

(** The alert store ten ticks into a hectic run: two critical alerts. *)
Definition sparse : AlertStore := alertStore (run (mounted 0) (hecticTicks 10)).

(** The health index as the specification words it. *)
Definition vibrationStep (vibration : Q) : Q :=
  if Qle_bool vibration VIBRATION_SAFE then 5
  else if Qle_bool vibration VIBRATION_WARNING then 20
  else if Qle_bool vibration VIBRATION_CRITICAL then 40
  else 80.

Definition weightedPenalty (tempDev pressureDev : Q) (rejects totalCycles : Z)
           (vibration : Q) : Q :=
  0.4 * Qmin (Qabs tempDev * 2) 100
  + 0.3 * Qmin (Qabs pressureDev * 2) 100
  + 0.2 * Qmin (inject_Z rejects / inject_Z (Z.max 1 totalCycles) * 150) 100
  + 0.1 * vibrationStep vibration.

(** The three factors of OEE as the specification words them. *)
Definition availability (running : bool) : Q := if running then 0.98 else 0.70.

Definition performance (tempDev pressureDev : Q) : Q :=
  Qmax 0.60 (0.95 - Qabs tempDev / 1000 - Qabs pressureDev / 1000).

Definition quality (rejects totalCycles : Z) : Q :=
  Qmax 0.55 (1 - inject_Z rejects / inject_Z (Z.max 1 totalCycles)).

(** The state of the specification's temperature scenario: HEATING, one
    noise-free tick away from 130 degrees. *)
Definition heatingTowards130 : State :=
  mkState HEATING 0 0 124 45.2 3 true [] noAlerts 0 0 85 128.6 0 0 0
          (CircularBuffer.new 60) 3 124.

(** PRESSING with the hydraulic pressure far above its target. *)
Definition pressingAt250 : State :=
  mkState PRESSING 0 0 124 45.2 3 true [] noAlerts 0 0 85 150 250 0 0
          (CircularBuffer.new 60) 3 124.

(** Counters never run backwards. *)
Definition countersSane (st : State) : Prop :=
  (0 <= rejectCount st)%Z /\ (0 <= seenRejectCount st)%Z.

End Behaviour.

(** ** Operation under fair draws

    The vocabulary of the properties that need every [Math.random()] draw
    of a tick to lie in [0, 1). *)

Module Operation.

Import Dashboard Behaviour.
Local Open Scope Q_scope.

Definition fair (env : Env) : Prop :=
  random (rndCycleJitter env) /\ random (rndTempNoise env) /\
  random (rndPressureNoise env) /\ random (rndTempReject env) /\
  random (rndLeak env) /\ random (rndPressureReject env) /\
  random (rndVibration env) /\ random (rndCriticalGate env) /\
  random (rndCriticalVibration env) /\ random (rndVibrationReject env) /\
  random (rndWarningGate env) /\ random (rndWarningVibration env) /\
  random (rndHealth env).

(** The states of a dashboard whose ticks all see fair draws. *)
Inductive operated : State -> Prop :=
| op_mounted (now : Z) : operated (mounted now)
| op_tick (st : State) (env : Env) :
    operated st -> isRunning st = true -> fair env -> operated (tick st env)
| op_toggle (st : State) (b : bool) :
    operated st -> operated (setIsRunning b st).

(** The ticks of the running cycle that lie behind a state: 0 in the state
    that starts IDLE, 44 in the last state of OPENING. *)
Definition elapsed (ms : Phase) (pt : Z) : Z :=
  (match ms with
   | IDLE => 0
   | CLOSING => 5
   | HEATING => 8
   | PRESSING => 23
   | COOLING => 33
   | OPENING => 41
   end + pt)%Z.

Definition position (st : State) : Z :=
  elapsed (machineState st) (phaseTime st).

(** The reading after one tick in phase [ms] from [temp], were the noise
    at its least upper bound. *)
Definition warmest (ms : Phase) (temp : Q) : Q :=
  temp + (tempTargetByState ms - temp) / (if vulcanizing ms then 26 else 18)
  + 0.4.

(** An upper envelope of the temperature along a cycle: 110 degrees at
    the start of IDLE, then the warmest reading that each tick allows. *)
Fixpoint hottest (n : nat) : (Phase * Z) * Q :=
  match n with
  | O => ((IDLE, 0%Z), 110)
  | S n' =>
      let before := hottest n' in
      (advance (fst before), Qred (warmest (fst (fst before)) (snd before)))
  end.

(** A lower envelope of the pressure: with the pump on, from the start of
    CLOSING to the end of PRESSING, each tick gains at least 10.95 bar
    until the relief valve opens at 235 bar. *)
Definition pumpedTo (n : Z) : Q :=
  if (5 <=? n)%Z && (n <=? 33)%Z
  then Qmin 235 (10.95 * inject_Z (n - 5))
  else 0.

(** The first HEATING tick since the mount lies behind the state. *)
Definition heated (st : State) : Prop :=
  (124 < totalCycles st)%Z \/ (8 < position st)%Z.

(** What a dashboard that has run on fair draws since its mount satisfies:
    the phase clock is within the phase, the readings are inside their
    envelopes, and each deviation cell holds the deviation of the last
    tick that computed it. *)
Record tracked (st : State) : Prop := {
  tracked_phase : (0 <= phaseTime st < duration (machineState st))%Z;
  tracked_cycles : (124 <= totalCycles st)%Z;
  tracked_temp : currentTemp st <= snd (hottest (Z.to_nat (position st)));
  tracked_pressure :
    pumpedTo (position st) <= currentPressure st /\
    0 <= currentPressure st <= 260;
  tracked_tempDev :
    (9 <= position st <= 33)%Z ->
    tempDeviation st == (currentTemp st - TARGET_TEMP) / TARGET_TEMP * 100;
  tracked_pressureDev :
    (24 <= position st <= 33)%Z ->
    pressureDeviation st
    == (currentPressure st - TARGET_PRESSURE) / TARGET_PRESSURE * 100;
  tracked_tempDev_held :
    heated st -> ~ (9 <= position st <= 33)%Z -> tempDeviation st < -12;
  tracked_pressureDev_held :
    heated st -> ~ (9 <= position st <= 33)%Z -> 30 < pressureDeviation st;
  tracked_fresh :
    ~ heated st ->
    tempDeviation st == 0 /\ pressureDeviation st == 0 /\
    rejectCount st = 3%Z /\ seenRejectCount st = 3%Z /\
    seenTotalCycles st = 124%Z /\
    ((1 <= position st)%Z -> 98 <= healthIndex st)
}.

(** The alert store as [addAlert] leaves it: the queue is sorted and the
    list on display is its first ten entries. *)
Definition filed (s : AlertStore) : Prop :=
  PriorityQueue.compare (alertQueueRef s) = alertCompare /\
  PriorityQueue.ordered alertCompare (PriorityQueue.items (alertQueueRef s)) /\
  alerts s = firstn 10 (PriorityQueue.items (alertQueueRef s)).

(** The alerts waiting in the queue of a dashboard. *)
Definition queued (st : State) : list Alert :=
  PriorityQueue.items (alertQueueRef (alertStore st)).

(** The severity order of the status labels. *)
Definition severity (s : string) : Z :=
  if String.eqb s "Critical" then 3
  else if String.eqb s "Warning" then 2
  else if String.eqb s "Degraded" then 1
  else 0.

(** The alerts that the three call sites of a tick put into the queue, the
    latest first. *)
Definition admitted (st : State) (env : Env) : list Alert :=
  let ms := machineState st in
  let s0 := alertStore st in
  let s1 := offer (clkTempAlert env) (tempOffer ms (currentTemp (tick st env))) s0 in
  let s2 := offer (clkPressureAlert env)
              (pressureOffer ms (currentPressure (tick st env))) s1 in
  accepted (vibrationClock ms env) (vibrationOffer ms env) s2
  ++ accepted (clkPressureAlert env)
       (pressureOffer ms (currentPressure (tick st env))) s1
  ++ accepted (clkTempAlert env) (tempOffer ms (currentTemp (tick st env))) s0.

(** A quiet tick at [now] ms, but for the vibration excursion: the draws
    compared with 0.92 and with 0.88, and the draw that sets the size of
    the excursion. *)
Definition vibrating (criticalGate warningGate amplitude : Q) (now : Z) : Env :=
  mkEnv 0.5 now now 0.5 0.5 (mkClock now now) 0.5 0.5 (mkClock now now)
        0.5 0.5 criticalGate amplitude (mkClock now now) 0.5 warningGate
        amplitude (mkClock now now) "12:00:00" now 0.5.

(** The dashboard after 23 quiet ticks: PRESSING has just begun. *)
Definition pressingBegins : State := run (mounted 0) (calmTicks 23).

End Operation.

(** * Properties *)

(** ** The ring store holds the last pushes *)

Module CircularBufferFacts.

Import CircularBuffer.

Section Buffer.
Context {A : Type}.

Lemma fetch_store_same (l : list (option A)) (i : nat) (v : A) :
  fetch (store l i v) i = Some v.
Proof.
  unfold fetch. revert l.
  induction i as [|i IH]; intros [|x l]; simpl; auto.
Qed.

Lemma fetch_store_other (l : list (option A)) (i j : nat) (v : A) :
  i <> j -> fetch (store l i v) j = fetch l j.
Proof.
  unfold fetch. revert l j.
  induction i as [|i IH]; intros [|x l] [|j] Hij; simpl; try congruence.
  - now destruct j.
  - rewrite IH by congruence. now destruct j.
  - apply IH. congruence.
Qed.

Lemma holds_new (sz : Z) : 0 < sz -> holds sz (@nil A) (new sz).
Proof.
  intros Hsz. unfold holds, new; simpl.
  split; [reflexivity|]. split; [now rewrite Z.mod_0_l by lia|].
  split; [lia|]. intros k Hk. inversion Hk.
Qed.

Lemma holds_push (sz : Z) (xs : list A) (b : t A) (x : A) :
  0 < sz -> holds sz xs b -> holds sz (xs ++ [x]) (push b x).
Proof.
  intros Hsz (Hsize & Hidx & Hlen & Hslots).
  unfold holds. rewrite length_app. simpl List.length.
  set (n := Z.of_nat (List.length xs)) in *.
  replace (Z.of_nat (List.length xs + 1)) with (n + 1) by (unfold n; lia).
  assert (Hn : 0 <= n) by (unfold n; lia).
  assert (Hin : 0 <= n mod sz < sz) by (apply Z.mod_pos_bound; lia).
  unfold push; simpl. rewrite Hsize, Hidx, Hlen.
  split; [reflexivity|]. split; [|split].
  - rewrite Z.rem_mod_nonneg by lia.
    rewrite Zplus_mod_idemp_l. reflexivity.
  - lia.
  - intros k Hk Hwin.
    destruct (Nat.eq_dec k (List.length xs)) as [->|Hne].
    + fold n. rewrite fetch_store_same.
      rewrite nth_error_app2 by lia. now rewrite Nat.sub_diag.
    + assert (Hk' : (k < List.length xs)%nat) by lia.
      rewrite nth_error_app1 by exact Hk'.
      rewrite fetch_store_other.
      * apply Hslots; [exact Hk'|lia].
      * intros Heq. apply Z2Nat.inj in Heq; try lia.
        2:{ apply Z.mod_pos_bound; lia. }
        assert (Hd : (n - Z.of_nat k) mod sz = 0).
        { rewrite Zminus_mod, Heq, Z.sub_diag. apply Z.mod_0_l; lia. }
        rewrite Z.mod_small in Hd by (unfold n in *; lia).
        unfold n in *; lia.
Qed.

Lemma holds_pushAll (sz : Z) (xs : list A) :
  0 < sz -> holds sz xs (pushAll (new sz) xs).
Proof.
  intros Hsz. induction xs as [|x xs IH] using rev_ind.
  - now apply holds_new.
  - unfold pushAll. rewrite fold_left_app. simpl.
    now apply holds_push.
Qed.

Lemma nth_map_Some (l : list A) (i : nat) :
  nth i (map Some l) None = nth_error l i.
Proof.
  revert i. induction l as [|x l IH]; intros [|i]; simpl; auto.
Qed.

Lemma nth_map_seq (f : nat -> option A) (len i : nat) :
  (i < len)%nat -> nth i (map f (seq 0 len)) None = f i.
Proof.
  intros Hi.
  rewrite (nth_indep _ None (f O)) by (now rewrite length_map, length_seq).
  now rewrite map_nth, seq_nth.
Qed.

(** The snapshot of a buffer that [holds] the pushes [xs] is the suffix of
    [xs] made of its last [min n sz] elements, oldest first. *)
Lemma toArray_holds (sz : Z) (xs : list A) (b : t A) :
  0 < sz -> holds sz xs b ->
  toArray b =
  map Some (skipn (List.length xs - Z.to_nat (Z.min (Z.of_nat (List.length xs)) sz)) xs).
Proof.
  intros Hsz (Hsize & Hidx & Hlen & Hslots).
  set (n := Z.of_nat (List.length xs)) in *.
  set (len := Z.to_nat (Z.min n sz)).
  assert (Hlenle : (len <= List.length xs)%nat) by (unfold len, n; lia).
  unfold toArray. rewrite Hsize, Hidx, Hlen. fold len.
  apply nth_ext with (d := None) (d' := None).
  - rewrite length_map, length_seq, length_map, length_skipn. lia.
  - intros i Hi. rewrite length_map, length_seq in Hi.
    rewrite nth_map_Some, nth_error_skipn.
    rewrite nth_map_seq by exact Hi.
    assert (Hin : 0 <= n mod sz < sz) by (apply Z.mod_pos_bound; lia).
    rewrite Z.rem_mod_nonneg by (unfold len in *; lia).
    replace ((n mod sz - Z.min n sz + Z.of_nat i + sz) mod sz)
      with (Z.of_nat (List.length xs - len + i) mod sz).
    + apply Hslots; unfold len, n in *; lia.
    + replace (n mod sz - Z.min n sz + Z.of_nat i + sz)
        with (n mod sz + (Z.of_nat i - Z.min n sz + 1 * sz)) by lia.
      rewrite Zplus_mod_idemp_l.
      replace (n + (Z.of_nat i - Z.min n sz + 1 * sz))
        with (n - Z.min n sz + Z.of_nat i + 1 * sz) by lia.
      rewrite Z_mod_plus_full. f_equal. unfold len, n in *. lia.
Qed.

End Buffer.

End CircularBufferFacts.

(** ** Comparisons and clamping *)

Module JsFacts.

Import Js.
Local Open Scope Q_scope.

Lemma ltb_lt (x y : Q) : ltb x y = true <-> x < y.
Proof.
  unfold ltb. rewrite negb_true_iff, <- not_true_iff_false, Qle_bool_iff.
  split; [apply Qnot_le_lt | apply Qlt_not_le].
Qed.

Lemma ltb_ge (x y : Q) : ltb x y = false <-> y <= x.
Proof.
  unfold ltb. rewrite negb_false_iff. apply Qle_bool_iff.
Qed.

Lemma gtb_gt (x y : Q) : gtb x y = true <-> y < x.
Proof. apply ltb_lt. Qed.

Lemma gtb_le (x y : Q) : gtb x y = false <-> x <= y.
Proof. apply ltb_ge. Qed.

End JsFacts.

Lemma clamp_bounds (value lo hi : Q) :
  (lo <= hi)%Q -> (lo <= clamp value lo hi <= hi)%Q.
Proof.
  intros Hlh. unfold clamp. split.
  - apply Q.min_glb; [exact Hlh | apply Q.le_max_l].
  - apply Q.le_min_l.
Qed.

(** ** Sorting with a consistent comparator *)

Module PriorityQueueFacts.

Import PriorityQueue.

Section Queue.
Context {A : Type}.

Lemma place_In (cmp : A -> A -> Z) (x : A) (l : list A) (y : A) :
  In y (place cmp x l) <-> y = x \/ In y l.
Proof.
  induction l as [|z l IH]; simpl.
  - intuition.
  - destruct (cmp z x <=? 0); simpl; rewrite ?IH; intuition.
Qed.

Lemma place_length (cmp : A -> A -> Z) (x : A) (l : list A) :
  List.length (place cmp x l) = S (List.length l).
Proof.
  induction l as [|z l IH]; simpl; auto.
  destruct (cmp z x <=? 0); simpl; auto.
Qed.

Lemma place_ordered (cmp : A -> A -> Z) (x : A) (l : list A) :
  consistent cmp -> ordered cmp l -> ordered cmp (place cmp x l).
Proof.
  intros [Htot Htr]. unfold ordered.
  induction 1 as [|z l Hl IH Hz]; simpl.
  - repeat constructor.
  - destruct (cmp z x <=? 0) eqn:E.
    + apply Z.leb_le in E. constructor; [exact IH|].
      apply Forall_forall. intros y Hy. apply place_In in Hy.
      destruct Hy as [->|Hy]; [exact E|].
      rewrite Forall_forall in Hz. now apply Hz.
    + apply Z.leb_gt in E. apply Htot in E.
      constructor; [now constructor|].
      constructor; [exact E|].
      rewrite Forall_forall in Hz |- *. intros y Hy.
      apply Htr with z; auto.
Qed.

Lemma sort_from_ordered (cmp : A -> A -> Z) (l acc : list A) :
  consistent cmp -> ordered cmp acc ->
  ordered cmp (fold_left (fun placed x => place cmp x placed) l acc).
Proof.
  intros Hc. revert acc.
  induction l as [|x l IH]; simpl; intros acc Hacc; [exact Hacc|].
  apply IH. now apply place_ordered.
Qed.

Lemma sort_ordered (cmp : A -> A -> Z) (l : list A) :
  consistent cmp -> ordered cmp (sort cmp l).
Proof.
  intros Hc. apply sort_from_ordered; [exact Hc | constructor].
Qed.

Lemma sort_from_length (cmp : A -> A -> Z) (l acc : list A) :
  List.length (fold_left (fun placed x => place cmp x placed) l acc)
  = (List.length l + List.length acc)%nat.
Proof.
  revert acc. induction l as [|x l IH]; simpl; intros acc; [reflexivity|].
  rewrite IH, place_length. lia.
Qed.

Lemma sort_length (cmp : A -> A -> Z) (l : list A) :
  List.length (sort cmp l) = List.length l.
Proof. unfold sort. rewrite sort_from_length. simpl. lia. Qed.

Lemma sort_from_In (cmp : A -> A -> Z) (l acc : list A) (y : A) :
  In y (fold_left (fun placed x => place cmp x placed) l acc)
  <-> In y l \/ In y acc.
Proof.
  revert acc. induction l as [|x l IH]; simpl; intros acc.
  - intuition.
  - rewrite IH, place_In. intuition.
Qed.

Lemma sort_In (cmp : A -> A -> Z) (l : list A) (y : A) :
  In y (sort cmp l) <-> In y l.
Proof. unfold sort. rewrite sort_from_In. simpl. intuition. Qed.

Lemma In_firstn (k : nat) (l : list A) (y : A) :
  In y (firstn k l) -> In y l.
Proof.
  revert k. induction l as [|z l IH]; intros [|k]; simpl; try tauto.
  intros [->|Hy]; [now left | right; eauto].
Qed.

Lemma ordered_firstn (cmp : A -> A -> Z) (k : nat) (l : list A) :
  ordered cmp l -> ordered cmp (firstn k l).
Proof.
  unfold ordered. intros Hl. revert k.
  induction Hl as [|z l Hl IH Hz]; intros [|k]; simpl; try constructor.
  - apply IH.
  - rewrite Forall_forall in Hz |- *. intros y Hy.
    apply Hz. eapply In_firstn. exact Hy.
Qed.

End Queue.

(** Sorting rearranges, it neither loses nor invents an item. *)
Section Rearrangement.
Context {A : Type}.
Variable cmp : A -> A -> Z.

Lemma place_perm (x : A) (l : list A) :
  Permutation (x :: l) (PriorityQueue.place cmp x l).
Proof.
  induction l as [|y l IH]; simpl; [reflexivity|].
  destruct (cmp y x <=? 0); [|reflexivity].
  rewrite perm_swap. apply perm_skip. exact IH.
Qed.

Lemma sort_from_perm (l acc : list A) :
  Permutation (l ++ acc)
    (fold_left (fun placed x => PriorityQueue.place cmp x placed) l acc).
Proof.
  revert acc. induction l as [|x l IH]; intros acc; simpl; [reflexivity|].
  rewrite <- IH. rewrite <- place_perm.
  apply Permutation_middle.
Qed.

Lemma sort_perm (l : list A) : Permutation l (PriorityQueue.sort cmp l).
Proof.
  unfold PriorityQueue.sort. rewrite <- sort_from_perm.
  rewrite app_nil_r. reflexivity.
Qed.

End Rearrangement.

End PriorityQueueFacts.

(** ** The engine *)

Module Properties.

Import Dashboard Behaviour.
Local Open Scope Q_scope.

Lemma isRunning_run (st : State) (envs : list Env) :
  isRunning (run st envs) = isRunning st.
Proof.
  unfold run. revert st.
  induction envs as [|e envs IH]; intros st; simpl; [reflexivity|].
  now rewrite IH.
Qed.

Lemma reachable_run (st : State) (envs : list Env) :
  reachable st -> isRunning st = true -> reachable (run st envs).
Proof.
  unfold run. revert st.
  induction envs as [|e envs IH]; intros st Hst Hrun; simpl; [exact Hst|].
  apply IH; [now constructor | exact Hrun].
Qed.

(** *** Clamp invariant *)

Lemma tick_withinLimits (st : State) (env : Env) : withinLimits (tick st env).
Proof.
  unfold withinLimits, tick; cbn [currentTemp currentPressure].
  rewrite !Qred_correct. unfold nextTemp, nextPressure.
  split; apply clamp_bounds; discriminate.
Qed.

(** C1. After every tick the temperature lies in [25, 220] and the pressure
    in [0, 260], whatever the state before the tick and whatever the
    environment (noise included) returned during it; hence the same holds in
    every reachable state, after any number of ticks. *)
Theorem clamp_invariant :
  (forall (st : State) (env : Env),
      25 <= currentTemp (tick st env) <= 220 /\
      0 <= currentPressure (tick st env) <= 260) /\
  (forall st : State, reachable st ->
      25 <= currentTemp st <= 220 /\ 0 <= currentPressure st <= 260) /\
  (forall (now : Z) (envs : list Env),
      25 <= currentTemp (run (mounted now) envs) <= 220 /\
      0 <= currentPressure (run (mounted now) envs) <= 260).
Proof.
  assert (Hreach : forall st, reachable st -> withinLimits st).
  { induction 1 as [now | st env _ _ _ | st b _ IH].
    - unfold withinLimits; simpl. repeat split; discriminate.
    - apply tick_withinLimits.
    - exact IH. }
  split; [|split].
  - intros st env. exact (tick_withinLimits st env).
  - exact Hreach.
  - intros now envs. apply Hreach.
    apply reachable_run; [constructor | reflexivity].
Qed.

Lemma clamp_invariant_witness :
  reachable (run (mounted 0) (calmTicks 3)) /\
  25 <= currentTemp (run (mounted 0) (calmTicks 3)) <= 220 /\
  0 <= currentPressure (run (mounted 0) (calmTicks 3)) <= 260.
Proof.
  assert (Hr : reachable (run (mounted 0) (calmTicks 3))).
  { apply reachable_run; [apply reach_mounted | reflexivity]. }
  split; [exact Hr|].
  exact (proj1 (proj2 clamp_invariant) _ Hr).
Defined.

(** The older engine does not clamp: from rest, a low noise draw takes the
    pressure below zero. *)
Lemma Legacy_pressure_unclamped : Legacy.nextPressure IDLE 0 0 < 0.
Proof. vm_compute. reflexivity. Qed.

(** *** Ring store *)

(** C2. After any [n] pushes into the 60-slot ring store the snapshot is
    the list of the last [min n 60] pushed samples in push order, oldest
    first: it has [min n 60] elements, never more than 60, and once 61 or
    more samples were pushed its first element is the one pushed 60 pushes
    ago. *)
Theorem ring_snapshot (A : Type) (xs : list A) :
  let n := List.length xs in
  let snap := CircularBuffer.toArray
                (CircularBuffer.pushAll (CircularBuffer.new 60) xs) in
  snap = map Some (skipn (n - Nat.min n 60) xs) /\
  List.length snap = Nat.min n 60 /\
  (List.length snap <= 60)%nat /\
  ((61 <= n)%nat -> hd None snap = nth_error xs (n - 60)).
Proof.
  intros n snap.
  assert (Hsnap : snap = map Some (skipn (n - Nat.min n 60) xs)).
  { unfold snap.
    rewrite (CircularBufferFacts.toArray_holds 60 xs)
      by (try lia; apply CircularBufferFacts.holds_pushAll; lia).
    fold n. do 2 f_equal. lia. }
  split; [exact Hsnap|].
  assert (Hlen : List.length snap = Nat.min n 60).
  { rewrite Hsnap, length_map, length_skipn. fold n. lia. }
  split; [exact Hlen|]. split; [lia|].
  intros Hn. rewrite Hsnap.
  replace (n - Nat.min n 60)%nat with (n - 60)%nat by lia.
  assert (Hlt : (n - 60 < List.length xs)%nat) by (fold n; lia).
  revert Hlt. generalize (n - 60)%nat. clear.
  intros k. revert xs. induction k as [|k IH]; intros [|x xs] Hk; simpl in *;
    try lia; [reflexivity|].
  apply IH. lia.
Qed.

Lemma ring_snapshot_witness :
  (61 <= List.length (seq 0 61))%nat /\
  hd None (CircularBuffer.toArray
             (CircularBuffer.pushAll (CircularBuffer.new 60) (seq 0 61)))
  = nth_error (seq 0 61) (List.length (seq 0 61) - 60).
Proof.
  split.
  - simpl. lia.
  - apply (ring_snapshot nat (seq 0 61)). simpl. lia.
Defined.

(** *** Phase machine *)

Lemma nextState_follows (p : Phase) : follows p (nextState p).
Proof.
  destruct p;
    [exists 0%nat | exists 1%nat | exists 2%nat
     | exists 3%nat | exists 4%nat | exists 5%nat];
    simpl; repeat split; lia.
Qed.

Lemma tick_phaseOf (st : State) (env : Env) :
  phaseOf (tick st env) = advance (phaseOf st).
Proof.
  unfold phaseOf, advance, tick; cbn [machineState phaseTime].
  now destruct (due (machineState st) (phaseTime st)).
Qed.

Lemma run_phaseOf (st : State) (envs : list Env) :
  phaseOf (run st envs) = Nat.iter (List.length envs) advance (phaseOf st).
Proof.
  unfold run. revert st.
  induction envs as [|e envs IH]; intros st; [reflexivity|].
  cbn [fold_left List.length]. rewrite IH, tick_phaseOf.
  now rewrite Nat.iter_succ_r.
Qed.

Lemma completions_firings (st : State) (envs : list Env) :
  completions st envs = firings (List.length envs) (phaseOf st).
Proof.
  revert st. induction envs as [|e envs IH]; intros st; [reflexivity|].
  cbn [completions List.length firings]. now rewrite IH, tick_phaseOf.
Qed.

Lemma tick_totalCycles (st : State) (env : Env) :
  totalCycles (tick st env) =
  (totalCycles st + if completes (machineState st) (phaseTime st) then 1 else 0)%Z.
Proof.
  unfold tick; cbn [totalCycles].
  destruct (completes (machineState st) (phaseTime st)); lia.
Qed.

Lemma run_totalCycles (st : State) (envs : list Env) :
  totalCycles (run st envs) = (totalCycles st + completions st envs)%Z.
Proof.
  unfold run. revert st.
  induction envs as [|e envs IH]; intros st; cbn [fold_left completions]; [lia|].
  rewrite IH, tick_totalCycles. lia.
Qed.

(** No tick before the 45th completes a cycle that starts in IDLE at 0. *)
Lemma firings_before_45 :
  forallb (fun k => (firings k (IDLE, 0%Z) =? 0)%Z) (seq 0 45) = true.
Proof. vm_compute. reflexivity. Qed.

(** C3. The phases last 5, 3, 15, 10, 8 and 4 ticks and follow one another
    in the fixed cyclic order. A tick on which the elapsed phase time reaches
    the duration of the phase resets it to 0 and activates the next phase of
    the cycle; any other tick adds one to it and keeps the phase and the
    cycle count. From IDLE at elapsed time 0, no tick before the 45th
    completes a cycle, and after exactly 45 ticks (the sum of the durations)
    the phase is IDLE at elapsed time 0 again, the completion signal has
    fired exactly once and the cycle count has grown by exactly 1. *)
Theorem phase_cycle :
  map duration CYCLE_PHASES = [5; 3; 15; 10; 8; 4]%Z /\
  cycleLength = 45%Z /\
  (forall (st : State) (env : Env),
      (duration (machineState st) <= phaseTime st + 1)%Z ->
      phaseTime (tick st env) = 0%Z /\
      follows (machineState st) (machineState (tick st env)) /\
      (totalCycles (tick st env) =
       if Phase_eqb (machineState st) OPENING
       then totalCycles st + 1 else totalCycles st)%Z) /\
  (forall (st : State) (env : Env),
      (phaseTime st + 1 < duration (machineState st))%Z ->
      phaseTime (tick st env) = (phaseTime st + 1)%Z /\
      machineState (tick st env) = machineState st /\
      totalCycles (tick st env) = totalCycles st) /\
  (forall (st : State) (envs : list Env),
      machineState st = IDLE -> phaseTime st = 0%Z ->
      Z.of_nat (List.length envs) = cycleLength ->
      machineState (run st envs) = IDLE /\
      phaseTime (run st envs) = 0%Z /\
      completions st envs = 1%Z /\
      totalCycles (run st envs) = (totalCycles st + 1)%Z /\
      (forall k : nat, (k < 45)%nat ->
          completions st (firstn k envs) = 0%Z /\
          totalCycles (run st (firstn k envs)) = totalCycles st)).
Proof.
  split; [reflexivity|]. split; [reflexivity|]. split; [|split].
  - intros st env Hdue.
    assert (Hd : due (machineState st) (phaseTime st) = true)
      by (unfold due; now apply Z.leb_le).
    unfold tick; cbn [phaseTime machineState totalCycles].
    unfold completes. rewrite Hd. cbn [andb].
    split; [reflexivity|]. split; [apply nextState_follows|].
    now destruct (Phase_eqb (machineState st) OPENING).
  - intros st env Hnot.
    assert (Hd : due (machineState st) (phaseTime st) = false)
      by (unfold due; now apply Z.leb_gt).
    unfold tick; cbn [phaseTime machineState totalCycles].
    unfold completes. rewrite Hd. cbn [andb]. now repeat split.
  - intros st envs Hms Hpt Hlen.
    assert (Hn : List.length envs = 45%nat)
      by (change cycleLength with 45%Z in Hlen; lia).
    assert (Hp : phaseOf st = (IDLE, 0%Z)) by (unfold phaseOf; congruence).
    assert (Hend : phaseOf (run st envs) = (IDLE, 0%Z)).
    { rewrite run_phaseOf, Hn, Hp. vm_compute. reflexivity. }
    assert (Hfire : completions st envs = 1%Z).
    { rewrite completions_firings, Hn, Hp. vm_compute. reflexivity. }
    unfold phaseOf in Hend. inversion Hend as [[Hm Ht]].
    rewrite Hm, Ht.
    split; [reflexivity|]. split; [reflexivity|]. split; [exact Hfire|].
    split; [|intros k Hk; split].
    + rewrite run_totalCycles, Hfire. reflexivity.
    + rewrite completions_firings, Hp, length_firstn, Hn.
      rewrite Nat.min_l by lia.
      pose proof firings_before_45 as Hall. rewrite forallb_forall in Hall.
      apply Z.eqb_eq. apply Hall. apply in_seq. lia.
    + rewrite run_totalCycles, completions_firings, Hp, length_firstn, Hn.
      rewrite Nat.min_l by lia.
      pose proof firings_before_45 as Hall. rewrite forallb_forall in Hall.
      assert (Hz : (firings k (IDLE, 0%Z) =? 0)%Z = true)
        by (apply Hall; apply in_seq; lia).
      apply Z.eqb_eq in Hz. rewrite Hz. lia.
Qed.

Lemma phase_cycle_witness :
  machineState (mounted 0) = IDLE /\
  phaseTime (mounted 0) = 0%Z /\
  Z.of_nat (List.length (repeat (steady 0.5 0) 45)) = cycleLength /\
  machineState (run (mounted 0) (repeat (steady 0.5 0) 45)) = IDLE /\
  totalCycles (run (mounted 0) (repeat (steady 0.5 0) 45)) = 125%Z.
Proof.
  split; [reflexivity|]. split; [reflexivity|]. split; [reflexivity|].
  pose proof (proj2 (proj2 (proj2 (proj2 phase_cycle)))
                (mounted 0) (repeat (steady 0.5 0) 45)
                eq_refl eq_refl eq_refl) as H.
  split; [exact (proj1 H) | exact (proj1 (proj2 (proj2 (proj2 H))))].
Defined.

(** In the older engine every phase lasts one tick longer: a cycle takes 51
    ticks, not 45. *)
Lemma Legacy_cycle_takes_51 :
  Nat.iter 45 Legacy.advance (IDLE, 0%Z) = (COOLING, 8%Z) /\
  Nat.iter 51 Legacy.advance (IDLE, 0%Z) = (IDLE, 0%Z).
Proof. split; vm_compute; reflexivity. Qed.

(** *** Alert list *)

Lemma alertCompare_outranks (a b : Alert) :
  (alertCompare a b <= 0)%Z <-> outranks a b.
Proof.
  unfold alertCompare, outranks.
  destruct (ALERT_PRIORITY (type b) - ALERT_PRIORITY (type a) =? 0)%Z eqn:E;
    cbn [negb].
  - apply Z.eqb_eq in E. lia.
  - apply Z.eqb_neq in E. lia.
Qed.

Lemma alertCompare_consistent : PriorityQueue.consistent alertCompare.
Proof.
  split.
  - intros a b H. apply alertCompare_outranks.
    assert (Hn : ~ outranks a b) by (rewrite <- alertCompare_outranks; lia).
    unfold outranks in *. lia.
  - intros a b c Hab Hbc. rewrite alertCompare_outranks in *.
    unfold outranks in *. lia.
Qed.

Lemma ordered_outranks (l : list Alert) :
  PriorityQueue.ordered alertCompare l -> StronglySorted outranks l.
Proof.
  unfold PriorityQueue.ordered.
  induction 1 as [|a l Hl IH Ha]; constructor; [exact IH|].
  rewrite Forall_forall in Ha |- *. intros b Hb.
  apply alertCompare_outranks. now apply Ha.
Qed.

Lemma kept_noAlerts : kept noAlerts.
Proof.
  split; [reflexivity|]. split; simpl; [lia | constructor].
Qed.

Lemma addAlert_kept (clk : Clock) (m : string) (ty : AlertType) (s : AlertStore) :
  kept s -> kept (addAlert clk m ty s).
Proof.
  intros (Hcmp & Hlen & Hsorted). unfold addAlert.
  destruct (suppressed clk m (alerts s)); [now repeat split|].
  split; [exact Hcmp|]. cbn [alerts]. split.
  - apply firstn_le_length.
  - apply ordered_outranks. apply PriorityQueueFacts.ordered_firstn.
    unfold PriorityQueue.toArray, PriorityQueue.enqueue; cbn [PriorityQueue.items].
    rewrite Hcmp. apply PriorityQueueFacts.sort_ordered.
    exact alertCompare_consistent.
Qed.

Lemma offer_kept (clk : Clock) (o : Offer) (s : AlertStore) :
  kept s -> kept (offer clk o s).
Proof.
  destruct o as [[m ty]|]; simpl; [apply addAlert_kept | trivial].
Qed.

Lemma reachable_kept (st : State) : reachable st -> kept (alertStore st).
Proof.
  induction 1 as [now | st env _ IH _ | st b _ IH].
  - exact kept_noAlerts.
  - unfold tick; cbn [alertStore]. now repeat apply offer_kept.
  - exact IH.
Qed.

Lemma filed_noAlerts : Operation.filed noAlerts.
Proof.
  split; [reflexivity|]. split; [constructor | reflexivity].
Qed.

Lemma addAlert_filed (clk : Clock) (m : string) (ty : AlertType) (s : AlertStore) :
  Operation.filed s -> Operation.filed (addAlert clk m ty s).
Proof.
  intros (Hc & Ho & Ha). unfold addAlert.
  destruct (suppressed clk m (alerts s)); [split; [exact Hc | split; assumption]|].
  split; [exact Hc|]. split; [|reflexivity].
  simpl. rewrite Hc.
  apply PriorityQueueFacts.sort_ordered. apply alertCompare_consistent.
Qed.

Lemma offer_filed (clk : Clock) (o : Offer) (s : AlertStore) :
  Operation.filed s -> Operation.filed (offer clk o s).
Proof.
  destruct o as [[m ty]|]; simpl; [apply addAlert_filed | trivial].
Qed.

Lemma reachable_filed (st : State) : reachable st -> Operation.filed (alertStore st).
Proof.
  induction 1 as [now | st env _ IH _ | st b _ IH].
  - apply filed_noAlerts.
  - unfold tick; cbn [alertStore]. repeat apply offer_filed. exact IH.
  - exact IH.
Qed.

(** C4. The severities rank info below warning below critical. In every
    reachable state the alert list shown by the dashboard has at most 10
    entries, is ordered by severity, critical before warning before info,
    and within one severity by time stamp, most recent first, and is the
    first ten entries of the queue of all accepted alerts, which is in the
    same order. An accepted insertion adds the new alert to that queue and
    takes nothing out of it, leaves the queue in that order and the list
    as its first ten entries, hence bounded and ordered; the new alert is
    on the list whenever fewer than ten alerts were queued before. *)
Theorem alerts_bounded_sorted :
  (ALERT_PRIORITY info < ALERT_PRIORITY warning < ALERT_PRIORITY critical)%Z /\
  (forall st : State, reachable st ->
      (List.length (alerts (alertStore st)) <= 10)%nat /\
      StronglySorted outranks (alerts (alertStore st)) /\
      alerts (alertStore st) = firstn 10 (Operation.queued st) /\
      StronglySorted outranks (Operation.queued st)) /\
  (forall (clk : Clock) (m : string) (ty : AlertType) (s : AlertStore),
      PriorityQueue.compare (alertQueueRef s) = alertCompare ->
      suppressed clk m (alerts s) = false ->
      (List.length (alerts (addAlert clk m ty s)) <= 10)%nat /\
      StronglySorted outranks (alerts (addAlert clk m ty s)) /\
      In (mkAlert m ty (atStamp clk))
         (PriorityQueue.items (alertQueueRef (addAlert clk m ty s))) /\
      Permutation
        (mkAlert m ty (atStamp clk) :: PriorityQueue.items (alertQueueRef s))
        (PriorityQueue.items (alertQueueRef (addAlert clk m ty s))) /\
      StronglySorted outranks
        (PriorityQueue.items (alertQueueRef (addAlert clk m ty s))) /\
      alerts (addAlert clk m ty s)
      = firstn 10 (PriorityQueue.items (alertQueueRef (addAlert clk m ty s))) /\
      ((List.length (PriorityQueue.items (alertQueueRef s)) < 10)%nat ->
       In (mkAlert m ty (atStamp clk)) (alerts (addAlert clk m ty s)))).
Proof.
  split; [simpl; lia|]. split.
  - intros st Hst.
    destruct (reachable_kept st Hst) as (_ & Hlen & Hsorted).
    destruct (reachable_filed st Hst) as (_ & Hq & Ha).
    split; [exact Hlen|]. split; [exact Hsorted|]. split; [exact Ha|].
    apply ordered_outranks. exact Hq.
  - intros clk m ty s Hcmp Hacc. unfold addAlert. rewrite Hacc.
    cbn [alerts alertQueueRef PriorityQueue.toArray PriorityQueue.enqueue
         PriorityQueue.items].
    rewrite Hcmp.
    assert (Hord : PriorityQueue.ordered alertCompare
                     (PriorityQueue.sort alertCompare
                        (PriorityQueue.items (alertQueueRef s)
                         ++ [mkAlert m ty (atStamp clk)]))).
    { apply PriorityQueueFacts.sort_ordered. exact alertCompare_consistent. }
    assert (Hin : In (mkAlert m ty (atStamp clk))
                    (PriorityQueue.sort alertCompare
                       (PriorityQueue.items (alertQueueRef s)
                        ++ [mkAlert m ty (atStamp clk)]))).
    { apply PriorityQueueFacts.sort_In. apply in_or_app. right. now left. }
    split; [apply firstn_le_length|]. split.
    { apply ordered_outranks. apply PriorityQueueFacts.ordered_firstn. exact Hord. }
    split; [exact Hin|]. split.
    { rewrite <- PriorityQueueFacts.sort_perm. apply Permutation_cons_append. }
    split; [apply ordered_outranks; exact Hord|].
    split; [reflexivity|].
    intros Hfew. rewrite firstn_all2; [exact Hin|].
    rewrite PriorityQueueFacts.sort_length, length_app. cbn [List.length]. lia.
Qed.

(** Two instances. One tick into PRESSING of a hectic run seventeen alerts
    are queued and the list shows the first ten, all critical, the two of
    the last tick, which bear one time stamp, ahead of the older ones. Ten
    ticks into that run two critical alerts are listed; a warning accepted
    a second later and a note accepted a second after that go behind them,
    the note last although it is the most recent. *)
Lemma alerts_bounded_sorted_witness :
  reachable crowded /\
  List.length (Operation.queued crowded) = 17%nat /\
  alerts (alertStore crowded) = firstn 10 (Operation.queued crowded) /\
  StronglySorted outranks (alerts (alertStore crowded)) /\
  stamps (alerts (alertStore crowded))
  = [(critical, 24000); (critical, 24000); (critical, 23000); (critical, 22000);
     (critical, 21000); (critical, 20000); (critical, 19000); (critical, 18000);
     (critical, 17000); (critical, 16000)]%Z /\
  stamps (alerts sparse) = [(critical, 10000); (critical, 9000)]%Z /\
  suppressed (at_ms 12000) "note"
    (alerts (addAlert (at_ms 11000) vibrationAt5 warning sparse)) = false /\
  stamps (alerts (addAlert (at_ms 12000) "note" info
                    (addAlert (at_ms 11000) vibrationAt5 warning sparse)))
  = [(critical, 10000); (critical, 9000); (warning, 11000); (info, 12000)]%Z /\
  StronglySorted outranks
    (alerts (addAlert (at_ms 12000) "note" info
               (addAlert (at_ms 11000) vibrationAt5 warning sparse))) /\
  In (mkAlert "note" info 12000)
    (alerts (addAlert (at_ms 12000) "note" info
               (addAlert (at_ms 11000) vibrationAt5 warning sparse))).
Proof.
  assert (Hr : reachable crowded).
  { apply reachable_run; [apply reach_mounted | reflexivity]. }
  destruct (proj1 (proj2 alerts_bounded_sorted) crowded Hr) as (_ & Hs & Ha & _).
  assert (Hcmp : PriorityQueue.compare
                   (alertQueueRef (addAlert (at_ms 11000) vibrationAt5 warning sparse))
                 = alertCompare) by reflexivity.
  assert (Hacc : suppressed (at_ms 12000) "note"
                   (alerts (addAlert (at_ms 11000) vibrationAt5 warning sparse))
                 = false) by (vm_compute; reflexivity).
  assert (Hfew : (List.length
                    (PriorityQueue.items
                       (alertQueueRef (addAlert (at_ms 11000) vibrationAt5 warning sparse)))
                  < 10)%nat) by (vm_compute; lia).
  destruct (proj2 (proj2 alerts_bounded_sorted) (at_ms 12000) "note"%string info
              (addAlert (at_ms 11000) vibrationAt5 warning sparse) Hcmp Hacc)
    as (_ & Hs' & _ & _ & _ & _ & Hin).
  split; [exact Hr|]. split; [vm_compute; reflexivity|].
  split; [exact Ha|]. split; [exact Hs|]. split; [vm_compute; reflexivity|].
  split; [vm_compute; reflexivity|]. split; [exact Hacc|].
  split; [vm_compute; reflexivity|]. split; [exact Hs'|].
  exact (Hin Hfew).
Defined.

(** *** Deduplication *)

Lemma suppressed_iff (clk : Clock) (m : string) (prev : list Alert) :
  suppressed clk m prev = true <->
  exists first rest,
    prev = first :: rest /\ msg first = m /\
    (atCheck clk - time first < 5000)%Z.
Proof.
  destruct prev as [|first rest]; simpl.
  - split; [discriminate | intros (f & r & H & _); discriminate].
  - rewrite andb_true_iff, String.eqb_eq, Z.ltb_lt. split.
    + intros [Hm Ht]. now exists first, rest.
    + intros (f & r & H & Hm & Ht). inversion H; subst. now split.
Qed.

(** What the code does: a candidate is dropped exactly when the entry at the
    head of the displayed list carries its message and is younger than five
    seconds; the store is then left as it was. *)
Lemma addAlert_suppressed (clk : Clock) (m : string) (ty : AlertType)
      (s : AlertStore) :
  suppressed clk m (alerts s) = true -> addAlert clk m ty s = s.
Proof. intros H. unfold addAlert. now rewrite H. Qed.

(** Five seconds or more after the head entry nothing is suppressed. *)
Lemma far_apart_not_suppressed (clk : Clock) (m : string) (first : Alert)
      (rest : list Alert) :
  (5000 <= atCheck clk - time first)%Z ->
  suppressed clk m (first :: rest) = false.
Proof.
  intros H. simpl. apply andb_false_iff. right. now apply Z.ltb_ge.
Qed.

(** In the older engine the head of the list is the alert accepted last, so
    there the check is a check against the most recently accepted alert. *)
Lemma Legacy_head_is_latest (clk : Clock) (m : string) (ty : AlertType)
      (prev : list Alert) :
  suppressed clk m prev = false ->
  hd_error (Legacy.addAlert clk m ty prev) = Some (mkAlert m ty (atStamp clk)).
Proof. intros H. unfold Legacy.addAlert. now rewrite H. Qed.


(** *** Health index *)

Lemma Qle_bool_false (x y : Q) : Qle_bool x y = false -> y < x.
Proof.
  intros H. apply Qnot_le_lt. intros Hle.
  apply Qle_bool_iff in Hle. congruence.
Qed.

Lemma vibrationPenaltyOf_step (vibration : Q) :
  vibrationPenaltyOf vibration = vibrationStep vibration.
Proof.
  unfold vibrationPenaltyOf, vibrationStep, Js.gtb,
    VIBRATION_SAFE, VIBRATION_WARNING, VIBRATION_CRITICAL.
  destruct (Qle_bool vibration 4) eqn:E4;
    destruct (Qle_bool vibration 5) eqn:E5;
    destruct (Qle_bool vibration 8) eqn:E8;
    cbn [negb]; try reflexivity; exfalso;
    repeat match goal with
           | H : Qle_bool _ _ = true |- _ => apply Qle_bool_iff in H
           | H : Qle_bool _ _ = false |- _ => apply Qle_bool_false in H
           end; lra.
Qed.

Lemma vibrationStep_bounds (vibration : Q) : 5 <= vibrationStep vibration <= 80.
Proof.
  unfold vibrationStep.
  destruct (Qle_bool vibration VIBRATION_SAFE);
    [|destruct (Qle_bool vibration VIBRATION_WARNING);
      [|destruct (Qle_bool vibration VIBRATION_CRITICAL)]];
    split; discriminate.
Qed.

Lemma capped_bounds (x : Q) : 0 <= x -> 0 <= Qmin x 100 <= 100.
Proof.
  intros Hx. split; [apply Q.min_glb; [exact Hx | discriminate] | apply Q.le_min_r].
Qed.

Lemma rejectRate_nonneg (rejects totalCycles : Z) :
  (0 <= rejects)%Z ->
  0 <= inject_Z rejects / inject_Z (Z.max 1 totalCycles) * 150.
Proof.
  intros Hr.
  assert (H0 : 0 <= inject_Z rejects)
    by (change 0 with (inject_Z 0); now rewrite <- Zle_Qle).
  assert (H1 : 0 < inject_Z (Z.max 1 totalCycles))
    by (change 0 with (inject_Z 0); rewrite <- Zlt_Qlt; lia).
  apply Qmult_le_0_compat; [|discriminate].
  apply Qle_shift_div_l; [exact H1 | lra].
Qed.

Lemma weightedPenalty_bounds (tempDev pressureDev : Q) (rejects totalCycles : Z)
      (vibration : Q) :
  (0 <= rejects)%Z ->
  0.5 <= weightedPenalty tempDev pressureDev rejects totalCycles vibration <= 98.
Proof.
  intros Hr. unfold weightedPenalty.
  assert (Ht : 0 <= Qabs tempDev * 2)
    by (apply Qmult_le_0_compat; [apply Qabs_nonneg | discriminate]).
  assert (Hp : 0 <= Qabs pressureDev * 2)
    by (apply Qmult_le_0_compat; [apply Qabs_nonneg | discriminate]).
  pose proof (capped_bounds _ Ht).
  pose proof (capped_bounds _ Hp).
  pose proof (capped_bounds _ (rejectRate_nonneg rejects totalCycles Hr)).
  pose proof (vibrationStep_bounds vibration).
  lra.
Qed.

Lemma healthUpdate_formula (tempDev pressureDev : Q) (rejects totalCycles : Z)
      (vibration rnd : Q) :
  (0 <= rejects)%Z ->
  healthUpdate tempDev pressureDev rejects totalCycles vibration rnd ==
  Qmax 5 (Qmin 100
            (100 - weightedPenalty tempDev pressureDev rejects totalCycles vibration
             + (rnd - (1 # 2)))).
Proof.
  intros Hr. unfold healthUpdate, weightedPenalty.
  rewrite vibrationPenaltyOf_step.
  apply Q.max_compat; [reflexivity|]. apply Q.min_compat; [reflexivity|].
  assert (Hrate :
    (if (0 <? rejects)%Z
     then inject_Z rejects / inject_Z (Z.max 1 totalCycles) else 0)
    == inject_Z rejects / inject_Z (Z.max 1 totalCycles)).
  { destruct (0 <? rejects)%Z eqn:E; [reflexivity|].
    apply Z.ltb_ge in E. assert (rejects = 0%Z) as -> by lia.
    unfold Qdiv. change (inject_Z 0) with 0. ring. }
  rewrite Hrate. ring.
Qed.

Lemma healthUpdate_range (tempDev pressureDev : Q) (rejects totalCycles : Z)
      (vibration rnd : Q) :
  5 <= healthUpdate tempDev pressureDev rejects totalCycles vibration rnd <= 100.
Proof.
  unfold healthUpdate. split; [apply Q.le_max_l|].
  apply Q.max_lub; [discriminate | apply Q.le_min_l].
Qed.

Lemma tick_countersSane (st : State) (env : Env) :
  countersSane st -> countersSane (tick st env).
Proof.
  intros [Hr Hs]. unfold countersSane, tick; cbn [rejectCount seenRejectCount].
  split; [|exact Hs].
  assert (0 <= tempRejects (machineState st)
                 (Qred (nextTemp (machineState st) (currentTemp st) env)) env)%Z.
  { unfold tempRejects.
    repeat match goal with |- context [if ?c then _ else _] => destruct c end; lia. }
  assert (0 <= pressureRejects (machineState st)
                 (Qred (nextPressure (machineState st) (currentPressure st) env)) env)%Z.
  { unfold pressureRejects.
    repeat match goal with |- context [if ?c then _ else _] => destruct c end; lia. }
  assert (0 <= vibrationRejects (machineState st) env)%Z.
  { unfold vibrationRejects.
    destruct (snd (vibrationOf (machineState st) env)) as [[| |]|];
      try lia.
    destruct (Js.gtb (rndVibrationReject env) 0.6); lia. }
  lia.
Qed.

Lemma reachable_countersSane (st : State) : reachable st -> countersSane st.
Proof.
  induction 1 as [now | st env _ IH _ | st b _ IH].
  - split; simpl; lia.
  - now apply tick_countersSane.
  - destruct IH as [Hr Hs]. unfold countersSane, setIsRunning;
      cbn [rejectCount seenRejectCount].
    split; [exact Hr|]. now destruct (b && negb (isRunning st)).
Qed.

Lemma reachable_healthIndex (st : State) :
  reachable st -> 5 <= healthIndex st <= 100.
Proof.
  induction 1 as [now | st env _ _ _ | st b _ IH].
  - simpl. split; discriminate.
  - unfold tick; cbn [healthIndex]. apply healthUpdate_range.
  - exact IH.
Qed.

(** The health index is recomputed on every tick by one updater. Given
    the deviations and the vibration of the tick and the reject and cycle
    counters it reads, the updater returns
    100 - (0.4 tempPenalty + 0.3 pressurePenalty + 0.2 rejectPenalty
    + 0.1 vibrationPenalty) + jitter, kept within [5, 100], where
    tempPenalty = min(|tempDev| 2, 100), pressurePenalty likewise,
    rejectPenalty = min(rejects / max(1, totalCycles) 150, 100), the
    vibration penalty is 5 up to the safe threshold, 20 above it, 40 above
    the warning threshold and 80 above the critical one, and the jitter is
    the random draw minus one half, at most 0.5 in magnitude. Only the floor
    of 5 ever cuts the value. In every reachable state the health index lies
    in [5, 100]. *)
Lemma health_index_formula :
  (forall (tempDev pressureDev : Q) (rejects totalCycles : Z)
          (vibration rnd : Q),
      (0 <= rejects)%Z -> random rnd ->
      let jitter := rnd - (1 # 2) in
      let formula :=
        100 - (0.4 * Qmin (Qabs tempDev * 2) 100
               + 0.3 * Qmin (Qabs pressureDev * 2) 100
               + 0.2 * Qmin (inject_Z rejects / inject_Z (Z.max 1 totalCycles)
                             * 150) 100
               + 0.1 * vibrationPenaltyOf vibration)
        + jitter in
      healthUpdate tempDev pressureDev rejects totalCycles vibration rnd
      == Qmax 5 (Qmin 100 formula) /\
      - (1 # 2) <= jitter < 1 # 2 /\
      formula < 100 /\
      (5 <= formula ->
       healthUpdate tempDev pressureDev rejects totalCycles vibration rnd
       == formula)) /\
  (forall (st : State) (env : Env),
      let st' := tick st env in
      healthIndex st' =
      healthUpdate (tempDevOf (machineState st) (currentTemp st'))
                   (pressureDevOf (machineState st) (currentPressure st'))
                   (seenRejectCount st) (seenTotalCycles st)
                   (currentVibration st') (rndHealth env)) /\
  (forall vibration : Q,
      (vibration <= VIBRATION_SAFE -> vibrationPenaltyOf vibration = 5) /\
      (VIBRATION_SAFE < vibration <= VIBRATION_WARNING ->
       vibrationPenaltyOf vibration = 20) /\
      (VIBRATION_WARNING < vibration <= VIBRATION_CRITICAL ->
       vibrationPenaltyOf vibration = 40) /\
      (VIBRATION_CRITICAL < vibration -> vibrationPenaltyOf vibration = 80)) /\
  (forall st : State, reachable st ->
      (0 <= seenRejectCount st)%Z /\ 5 <= healthIndex st <= 100).
Proof.
  split; [|split; [|split]].
  - intros tempDev pressureDev rejects totalCycles vibration rnd Hr [Hlo Hhi]
           jitter formula.
    assert (Hf : formula ==
              100 - weightedPenalty tempDev pressureDev rejects totalCycles
                      vibration + (rnd - (1 # 2))).
    { unfold formula, jitter, weightedPenalty.
      now rewrite vibrationPenaltyOf_step. }
    assert (Hh : healthUpdate tempDev pressureDev rejects totalCycles
                   vibration rnd == Qmax 5 (Qmin 100 formula)).
    { rewrite healthUpdate_formula by exact Hr.
      apply Q.max_compat; [reflexivity|].
      apply Q.min_compat; [reflexivity|]. symmetry. exact Hf. }
    pose proof (weightedPenalty_bounds tempDev pressureDev rejects totalCycles
                  vibration Hr) as Hw.
    assert (Hj : - (1 # 2) <= jitter < 1 # 2) by (unfold jitter; lra).
    assert (H100 : formula < 100) by (rewrite Hf; lra).
    split; [exact Hh|]. split; [exact Hj|]. split; [exact H100|].
    intros H5. rewrite Hh.
    rewrite (Q.min_r 100 formula) by lra. apply Q.max_r. exact H5.
  - reflexivity.
  - intros vibration. rewrite vibrationPenaltyOf_step. unfold vibrationStep,
      VIBRATION_SAFE, VIBRATION_WARNING, VIBRATION_CRITICAL.
    destruct (Qle_bool vibration 4) eqn:E4;
      destruct (Qle_bool vibration 5) eqn:E5;
      destruct (Qle_bool vibration 8) eqn:E8;
      repeat match goal with
             | H : Qle_bool _ _ = true |- _ => apply Qle_bool_iff in H
             | H : Qle_bool _ _ = false |- _ => apply Qle_bool_false in H
             end;
      repeat split; intros; try reflexivity; exfalso; lra.
  - intros st Hst. split.
    + exact (proj2 (reachable_countersSane st Hst)).
    + exact (reachable_healthIndex st Hst).
Qed.

Lemma health_index_at_vibration_9 :
  (0 <= 3)%Z /\ random 0.5 /\
  healthUpdate (- (21.2)) 0 3 124 9 0.5 ==
  100 - (0.4 * Qmin (Qabs (- (21.2)) * 2) 100
         + 0.3 * Qmin (Qabs 0 * 2) 100
         + 0.2 * Qmin (inject_Z 3 / inject_Z (Z.max 1 124) * 150) 100
         + 0.1 * vibrationPenaltyOf 9)
  + (0.5 - (1 # 2)) /\
  vibrationPenaltyOf 9 = 80.
Proof.
  assert (Hr : (0 <= 3)%Z) by lia.
  assert (Hd : random 0.5) by (split; [discriminate | reflexivity]).
  destruct (proj1 health_index_formula (- (21.2)) 0 3%Z 124%Z 9 0.5 Hr Hd)
    as (_ & _ & _ & Hexact).
  split; [exact Hr|]. split; [exact Hd|]. split.
  - apply Hexact. vm_compute. discriminate.
  - apply (proj1 (proj2 (proj2 health_index_formula)) 9). reflexivity.
Qed.

(** The counters read by the health updater are those of the render in
    which the simulation effect last ran: a tick never refreshes them, a
    resume does. *)
Lemma health_counters_are_captured :
  (forall (st : State) (env : Env),
      seenRejectCount (tick st env) = seenRejectCount st /\
      seenTotalCycles (tick st env) = seenTotalCycles st) /\
  (forall st : State,
      isRunning st = false ->
      seenRejectCount (setIsRunning true st) = rejectCount st /\
      seenTotalCycles (setIsRunning true st) = totalCycles st).
Proof.
  split; [now intros st env|].
  intros st Hst. unfold setIsRunning; cbn [seenRejectCount seenTotalCycles].
  now rewrite Hst.
Qed.

(** Evaluation for C6. Nine ticks after mounting, with every random draw at
    0.9, the first HEATING tick has added a reject: the reject count is 4 of
    124 cycles. On the tenth tick the health updater still computes the
    reject penalty from 3 rejects, the count its callback closed over when
    the simulation effect ran at mount: the new health index is the formula
    evaluated at 3 rejects, and differs from the formula evaluated at the
    reject count before the tick (4) and after it (5), both of which lie
    well inside [5, 100]. *)
Theorem health_index_ignores_new_rejects :
  let st := run (mounted 0) (eventfulTicks 9) in
  let st' := tick st (eventful 10) in
  let formula (rejects totalCycles : Z) :=
    100 - weightedPenalty (tempDevOf (machineState st) (currentTemp st'))
                          (pressureDevOf (machineState st) (currentPressure st'))
                          rejects totalCycles (currentVibration st')
    + (rndHealth (eventful 10) - (1 # 2)) in
  reachable st /\ random (rndHealth (eventful 10)) /\
  rejectCount st = 4%Z /\ totalCycles st = 124%Z /\
  rejectCount st' = 5%Z /\ totalCycles st' = 124%Z /\
  healthIndex st' == formula 3%Z 124%Z /\
  ~ healthIndex st' == formula 4%Z 124%Z /\
  ~ healthIndex st' == formula 5%Z 124%Z /\
  5 <= formula 4%Z 124%Z <= 100 /\
  5 <= formula 5%Z 124%Z <= 100.
Proof.
  intros st st' formula.
  split; [apply reachable_run; [apply reach_mounted | reflexivity]|].
  split; [split; [discriminate | reflexivity]|].
  split; [vm_compute; reflexivity|]. split; [vm_compute; reflexivity|].
  split; [vm_compute; reflexivity|]. split; [vm_compute; reflexivity|].
  split; [vm_compute; reflexivity|].
  split; [intros H; vm_compute in H; discriminate|].
  split; [intros H; vm_compute in H; discriminate|].
  split; split; vm_compute; discriminate.
Qed.

(** *** OEE *)

Lemma Qfloor_half (k : Z) : Qfloor (inject_Z k + (1 # 2)) = k.
Proof.
  pose proof (Qfloor_le (inject_Z k + (1 # 2))) as Hle.
  pose proof (Qlt_floor (inject_Z k + (1 # 2))) as Hlt.
  rewrite inject_Z_plus in Hlt. change (inject_Z 1) with 1 in Hlt.
  remember (Qfloor (inject_Z k + (1 # 2))) as f eqn:Ef. clear Ef.
  assert (H1 : inject_Z f < inject_Z k + 1) by lra.
  assert (H2 : inject_Z k + - (1) < inject_Z f) by lra.
  assert (H3 : (f < k + 1)%Z).
  { rewrite Zlt_Qlt, inject_Z_plus. exact H1. }
  assert (H4 : (k + - 1 < f)%Z).
  { rewrite Zlt_Qlt, inject_Z_plus. exact H2. }
  lia.
Qed.

(** Rounding to one decimal keeps a number between two non-negative
    integers between them. *)
Lemma fixed1_within (a b : Z) (x : Q) :
  (0 <= a)%Z -> inject_Z a <= x <= inject_Z b ->
  inject_Z a <= Js.fixed x 1 <= inject_Z b.
Proof.
  intros Ha [Hax Hxb].
  assert (H0 : 0 <= x).
  { apply Qle_trans with (inject_Z a); [|exact Hax].
    change 0 with (inject_Z 0). now rewrite <- Zle_Qle. }
  unfold Js.fixed, Js.scaled.
  assert (Hneg : Js.ltb x 0 = false) by (now apply JsFacts.ltb_ge).
  rewrite Hneg. change (inject_Z (10 ^ Z.of_nat 1)) with 10.
  remember (Qfloor (Qabs x * 10 + (1 # 2))) as n eqn:En.
  assert (Hlo : (a * 10 <= n)%Z).
  { rewrite <- (Qfloor_Z (a * 10)), En. apply Qfloor_resp_le.
    rewrite inject_Z_mult, (Qabs_pos x H0). change (inject_Z 10) with 10. lra. }
  assert (Hhi : (n <= b * 10)%Z).
  { rewrite <- (Qfloor_half (b * 10)), En. apply Qfloor_resp_le.
    rewrite inject_Z_mult, (Qabs_pos x H0). change (inject_Z 10) with 10. lra. }
  clear En. rewrite Zle_Qle, inject_Z_mult in Hlo, Hhi.
  change (inject_Z 10) with 10 in *.
  unfold Qdiv. change (/ 10) with (1 # 10). lra.
Qed.

(** C7. OEE is availability x performance x quality x 100 with
    availability 0.98 when running and 0.70 otherwise,
    performance max(0.60, 0.95 - |tempDev|/1000 - |pressureDev|/1000) and
    quality max(0.55, 1 - rejects / max(1, totalCycles)); the value shown is
    this product clamped to [50, 100] and printed with one decimal, so it
    lies in [50, 100] in every state. *)
Theorem oee_formula (st : State) :
  oeeRaw st ==
    availability (isRunning st)
    * performance (tempDeviation st) (pressureDeviation st)
    * quality (rejectCount st) (totalCycles st) * 100 /\
  oeeClamped st = Qmax 50 (Qmin 100 (oeeRaw st)) /\
  oeeText st = Js.toFixed (oeeClamped st) 1 /\
  50 <= oeeClamped st <= 100 /\
  50 <= Js.fixed (oeeClamped st) 1 <= 100.
Proof.
  assert (Hrange : 50 <= oeeClamped st <= 100).
  { unfold oeeClamped. split; [apply Q.le_max_l|].
    apply Q.max_lub; [discriminate | apply Q.le_min_l]. }
  split; [|split; [reflexivity | split; [reflexivity | split; [exact Hrange|]]]].
  - unfold oeeRaw, availability, performance, quality.
    assert (Hp : Qmax 0.6 (0.95 - Qabs (tempDeviation st) / 100 * 0.1
                           - Qabs (pressureDeviation st) / 100 * 0.1)
                 == Qmax 0.60 (0.95 - Qabs (tempDeviation st) / 1000
                               - Qabs (pressureDeviation st) / 1000)).
    { apply Q.max_compat; [reflexivity | field]. }
    rewrite Hp. destruct (isRunning st); ring.
  - apply (fixed1_within 50 100); [lia | exact Hrange].
Qed.

(** *** Temperature alerts *)

Lemma vulcanizing_iff (ms : Phase) :
  vulcanizing ms = true <-> ms = HEATING \/ ms = PRESSING.
Proof.
  destruct ms; simpl; split; intros H; try discriminate; auto;
    destruct H; discriminate.
Qed.

Lemma Phase_eqb_eq (a b : Phase) : Phase_eqb a b = true <-> a = b.
Proof. destruct a, b; simpl; split; intros H; congruence. Qed.

Lemma tick_alertStore (st : State) (env : Env) :
  alertStore (tick st env) =
  offer (vibrationClock (machineState st) env)
        (vibrationOffer (machineState st) env)
    (offer (clkPressureAlert env)
           (pressureOffer (machineState st) (currentPressure (tick st env)))
       (offer (clkTempAlert env)
              (tempOffer (machineState st) (currentTemp (tick st env)))
              (alertStore st))).
Proof. reflexivity. Qed.

(** C8. On a tick in HEATING or PRESSING whose temperature deviation exceeds
    the tolerance in magnitude, the tick offers a critical "Temperature Low"
    alert when the temperature is below the warning threshold (85% of the
    target, 140.25) and a warning "Temperature Deviation" alert otherwise;
    that offer is the first of the tick to reach the alert list, and the
    deviation is written to the deviation cell and, rounded to one decimal,
    to the telemetry sample. *)
Theorem temperature_alert_severity (st : State) (env : Env) :
  let st' := tick st env in
  let temp := currentTemp st' in
  let tempDev := (temp - TARGET_TEMP) / TARGET_TEMP * 100 in
  machineState st = HEATING \/ machineState st = PRESSING ->
  TEMP_TOLERANCE < Qabs tempDev ->
  TEMP_WARNING_THRESHOLD == (85 # 100) * TARGET_TEMP /\
  (temp < TEMP_WARNING_THRESHOLD ->
   tempOffer (machineState st) temp
   = Some (temperatureLow temp tempDev, critical)) /\
  (TEMP_WARNING_THRESHOLD <= temp ->
   tempOffer (machineState st) temp
   = Some (temperatureDeviation tempDev, warning)) /\
  alertStore st' =
    offer (vibrationClock (machineState st) env)
          (vibrationOffer (machineState st) env)
      (offer (clkPressureAlert env)
             (pressureOffer (machineState st) (currentPressure st'))
         (offer (clkTempAlert env) (tempOffer (machineState st) temp)
                (alertStore st))) /\
  tempDeviation st' = tempDev /\
  Sample.tempDeviation (sampleOf st env) = Js.fixed tempDev 1.
Proof.
  intros st' temp tempDev Hphase Hdev.
  pose proof (proj2 (vulcanizing_iff (machineState st)) Hphase) as Hv.
  assert (Hd : tempDevOf (machineState st) temp = tempDev)
    by (unfold tempDevOf; now rewrite Hv).
  assert (Hg : Js.gtb (Qabs tempDev) TEMP_TOLERANCE = true)
    by (now apply JsFacts.gtb_gt).
  split; [unfold TEMP_WARNING_THRESHOLD; ring|].
  split; [|split; [|split; [apply tick_alertStore|split]]].
  - intros Hlow. unfold tempOffer. rewrite Hv, Hd, Hg.
    now rewrite (proj2 (JsFacts.ltb_lt _ _) Hlow).
  - intros Hhigh. unfold tempOffer. rewrite Hv, Hd, Hg.
    now rewrite (proj2 (JsFacts.ltb_ge _ _) Hhigh).
  - unfold st', tick; cbn [tempDeviation]. rewrite Hv. exact Hd.
  - unfold sampleOf, newDataPoint; cbn [Sample.tempDeviation].
    fold temp. now rewrite <- Hd.
Qed.

Lemma temperature_alert_severity_witness :
  (machineState heatingTowards130 = HEATING \/
   machineState heatingTowards130 = PRESSING) /\
  currentTemp (tick heatingTowards130 (steady 0.5 0)) == 130 /\
  TEMP_TOLERANCE <
    Qabs ((currentTemp (tick heatingTowards130 (steady 0.5 0)) - TARGET_TEMP)
          / TARGET_TEMP * 100) /\
  currentTemp (tick heatingTowards130 (steady 0.5 0)) < TEMP_WARNING_THRESHOLD /\
  tempOffer HEATING (currentTemp (tick heatingTowards130 (steady 0.5 0)))
  = Some ("🔴 Temperature Low: 130.0°C (Dev: -21.2%)"%string, critical) /\
  alerts (alertStore (tick heatingTowards130 (steady 0.5 0)))
  = [mkAlert "🔴 Temperature Low: 130.0°C (Dev: -21.2%)" critical 0] /\
  Sample.tempDeviation (sampleOf heatingTowards130 (steady 0.5 0)) == - (21.2) /\
  Js.toFixed (tempDeviation (tick heatingTowards130 (steady 0.5 0))) 1
  = "-21.2"%string.
Proof.
  assert (Hdev : TEMP_TOLERANCE <
    Qabs ((currentTemp (tick heatingTowards130 (steady 0.5 0)) - TARGET_TEMP)
          / TARGET_TEMP * 100)) by (vm_compute; reflexivity).
  assert (Hlow : currentTemp (tick heatingTowards130 (steady 0.5 0))
                 < TEMP_WARNING_THRESHOLD) by (vm_compute; reflexivity).
  destruct (temperature_alert_severity heatingTowards130 (steady 0.5 0)
              (or_introl eq_refl) Hdev) as (_ & Hcrit & _ & _ & Hcell & Hsample).
  split; [left; reflexivity|]. split; [vm_compute; reflexivity|].
  split; [exact Hdev|]. split; [exact Hlow|]. split; [|split; [|split]].
  - change (tempOffer HEATING (currentTemp (tick heatingTowards130 (steady 0.5 0))))
      with (tempOffer (machineState heatingTowards130)
              (currentTemp (tick heatingTowards130 (steady 0.5 0)))).
    rewrite (Hcrit Hlow). vm_compute. reflexivity.
  - vm_compute. reflexivity.
  - rewrite Hsample. vm_compute. reflexivity.
  - rewrite Hcell. vm_compute. reflexivity.
Defined.

(** *** Deviations by phase *)

(** Outside the phases that compute a deviation, the tick leaves the
    deviation cells as they were. *)
Lemma deviation_cells_held (st : State) (env : Env) :
  (machineState st <> HEATING -> machineState st <> PRESSING ->
   tempDeviation (tick st env) = tempDeviation st) /\
  (machineState st <> PRESSING ->
   pressureDeviation (tick st env) = pressureDeviation st).
Proof.
  unfold tick; cbn [tempDeviation pressureDeviation].
  destruct (machineState st); simpl; split; intros; congruence.
Qed.

(** Counterexample for C9. Thirty-three quiet ticks after mounting, the
    machine has just left PRESSING for COOLING. On the next tick the phase
    is COOLING, the telemetry sample reports both deviations as 0, but the
    deviation cells that feed the KPI cards, the status badge and OEE still
    hold the values computed on the last PRESSING tick, so the performance
    factor of OEE stays below 0.95. *)
Lemma stale_deviation_in_cooling :
  let st := run (mounted 0) (calmTicks 33) in
  let st' := tick st (calm 34) in
  machineState st = COOLING /\
  Sample.tempDeviation (sampleOf st (calm 34)) == 0 /\
  Sample.pressureDeviation (sampleOf st (calm 34)) == 0 /\
  ~ tempDeviation st' == 0 /\
  ~ pressureDeviation st' == 0 /\
  performance (tempDeviation st') (pressureDeviation st') < 0.95.
Proof.
  intros st st'.
  split; [vm_compute; reflexivity|].
  split; [vm_compute; reflexivity|].
  split; [vm_compute; reflexivity|].
  split; [intros H; vm_compute in H; discriminate|].
  split; [intros H; vm_compute in H; discriminate|].
  vm_compute. reflexivity.
Qed.

(** C9, amended. The temperature deviation is (current - target) / target
    x 100 exactly while the phase is HEATING or PRESSING, and the pressure
    deviation is the same formula exactly while the phase is PRESSING; the
    tick then writes it to the deviation cell and, rounded to one decimal,
    to the telemetry sample. On a tick in any other phase the deviation is 0
    in that tick's telemetry sample and in that tick's health-index
    computation. *)
Theorem deviation_by_phase (st : State) (env : Env) :
  let st' := tick st env in
  let ms := machineState st in
  let temp := currentTemp st' in
  let pressure := currentPressure st' in
  let sample := sampleOf st env in
  (ms = HEATING \/ ms = PRESSING ->
   tempDevOf ms temp = (temp - TARGET_TEMP) / TARGET_TEMP * 100 /\
   tempDeviation st' = (temp - TARGET_TEMP) / TARGET_TEMP * 100 /\
   Sample.tempDeviation sample
   = Js.fixed ((temp - TARGET_TEMP) / TARGET_TEMP * 100) 1) /\
  (ms <> HEATING -> ms <> PRESSING ->
   tempDevOf ms temp = 0 /\
   Sample.tempDeviation sample == 0) /\
  (ms = PRESSING ->
   pressureDevOf ms pressure
   = (pressure - TARGET_PRESSURE) / TARGET_PRESSURE * 100 /\
   pressureDeviation st'
   = (pressure - TARGET_PRESSURE) / TARGET_PRESSURE * 100 /\
   Sample.pressureDeviation sample
   = Js.fixed ((pressure - TARGET_PRESSURE) / TARGET_PRESSURE * 100) 1) /\
  (ms <> PRESSING ->
   pressureDevOf ms pressure = 0 /\
   Sample.pressureDeviation sample == 0) /\
  healthIndex st' =
    healthUpdate (tempDevOf ms temp) (pressureDevOf ms pressure)
                 (seenRejectCount st) (seenTotalCycles st)
                 (currentVibration st') (rndHealth env).
Proof.
  intros st' ms temp pressure sample.
  assert (Hzero : Js.fixed 0 1 == 0) by (vm_compute; reflexivity).
  split; [|split; [|split; [|split; [|reflexivity]]]].
  - intros Hor. pose proof (proj2 (vulcanizing_iff ms) Hor) as Hv.
    assert (Hd : tempDevOf ms temp = (temp - TARGET_TEMP) / TARGET_TEMP * 100)
      by (unfold tempDevOf; now rewrite Hv).
    split; [exact Hd|]. split.
    + change (tempDeviation st')
        with (if vulcanizing ms then tempDevOf ms temp else tempDeviation st).
      rewrite Hv. exact Hd.
    + change (Sample.tempDeviation sample) with (Js.fixed (tempDevOf ms temp) 1).
      now rewrite Hd.
  - intros Hh Hp.
    assert (Hv : vulcanizing ms = false).
    { destruct (vulcanizing ms) eqn:E; [|reflexivity].
      apply vulcanizing_iff in E. tauto. }
    assert (Hd : tempDevOf ms temp = 0) by (unfold tempDevOf; now rewrite Hv).
    split; [exact Hd|].
    change (Sample.tempDeviation sample) with (Js.fixed (tempDevOf ms temp) 1).
    rewrite Hd. exact Hzero.
  - intros Hp.
    assert (He : Phase_eqb ms PRESSING = true) by (now apply Phase_eqb_eq).
    assert (Hd : pressureDevOf ms pressure
                 = (pressure - TARGET_PRESSURE) / TARGET_PRESSURE * 100)
      by (unfold pressureDevOf; now rewrite He).
    split; [exact Hd|]. split.
    + change (pressureDeviation st')
        with (if Phase_eqb ms PRESSING
              then pressureDevOf ms pressure else pressureDeviation st).
      rewrite He. exact Hd.
    + change (Sample.pressureDeviation sample)
        with (Js.fixed (pressureDevOf ms pressure) 1).
      now rewrite Hd.
  - intros Hp.
    assert (He : Phase_eqb ms PRESSING = false).
    { destruct (Phase_eqb ms PRESSING) eqn:E; [|reflexivity].
      apply Phase_eqb_eq in E. contradiction. }
    assert (Hd : pressureDevOf ms pressure = 0)
      by (unfold pressureDevOf; now rewrite He).
    split; [exact Hd|].
    change (Sample.pressureDeviation sample)
      with (Js.fixed (pressureDevOf ms pressure) 1).
    rewrite Hd. exact Hzero.
Qed.

Lemma deviation_by_phase_witness :
  machineState (mounted 0) <> HEATING /\
  machineState (mounted 0) <> PRESSING /\
  tempDevOf IDLE (currentTemp (tick (mounted 0) (calm 1))) = 0 /\
  Sample.tempDeviation (sampleOf (mounted 0) (calm 1)) == 0 /\
  Sample.pressureDeviation (sampleOf (mounted 0) (calm 1)) == 0.
Proof.
  assert (Hh : machineState (mounted 0) <> HEATING) by discriminate.
  assert (Hp : machineState (mounted 0) <> PRESSING) by discriminate.
  destruct (deviation_by_phase (mounted 0) (calm 1))
    as (_ & Htemp & _ & Hpress & _).
  split; [exact Hh|]. split; [exact Hp|].
  split; [exact (proj1 (Htemp Hh Hp))|].
  split; [exact (proj2 (Htemp Hh Hp)) | exact (proj2 (Hpress Hp))].
Defined.

(** *** Pressure alerts *)

Lemma tick_rejectCount (st : State) (env : Env) :
  rejectCount (tick st env) =
  (rejectCount st
   + tempRejects (machineState st) (currentTemp (tick st env)) env
   + pressureRejects (machineState st) (currentPressure (tick st env)) env
   + vibrationRejects (machineState st) env)%Z.
Proof. reflexivity. Qed.

Lemma pressureAlarm_iff (ms : Phase) (pressure : Q) :
  pressureAlarm ms pressure = true <->
  ms = PRESSING /\
  PRESSURE_TOLERANCE < Qabs (pressureDevOf ms pressure) /\
  pressure < TARGET_PRESSURE * 0.9.
Proof.
  unfold pressureAlarm.
  rewrite !andb_true_iff, Phase_eqb_eq, JsFacts.gtb_gt, JsFacts.ltb_lt.
  tauto.
Qed.

(** C10. The tick calls [addAlert] for pressure exactly when the phase is
    PRESSING, the pressure deviation exceeds the tolerance in magnitude and
    the pressure is below 90% of the target; the alert is then critical. So
    on a PRESSING tick whose deviation exceeds the tolerance while the
    pressure is at or above 90% of the target (the high side), no pressure
    alert of any severity is offered, the alert list receives only the
    temperature and vibration offers, and the reject counter grows by the
    temperature and vibration rejects only. *)
Theorem no_alert_for_high_pressure :
  (forall (ms : Phase) (pressure : Q),
      pressureOffer ms pressure <> None <->
      ms = PRESSING /\
      PRESSURE_TOLERANCE < Qabs (pressureDevOf ms pressure) /\
      pressure < TARGET_PRESSURE * 0.9) /\
  (forall (ms : Phase) (pressure : Q) (m : string) (ty : AlertType),
      pressureOffer ms pressure = Some (m, ty) -> ty = critical) /\
  (forall (st : State) (env : Env),
      let st' := tick st env in
      let pressure := currentPressure st' in
      machineState st = PRESSING ->
      PRESSURE_TOLERANCE
        < Qabs ((pressure - TARGET_PRESSURE) / TARGET_PRESSURE * 100) ->
      TARGET_PRESSURE * 0.9 <= pressure ->
      pressureOffer PRESSING pressure = None /\
      pressureRejects PRESSING pressure env = 0%Z /\
      alertStore st' =
        offer (vibrationClock PRESSING env) (vibrationOffer PRESSING env)
          (offer (clkTempAlert env) (tempOffer PRESSING (currentTemp st'))
                 (alertStore st)) /\
      rejectCount st' =
        (rejectCount st + tempRejects PRESSING (currentTemp st') env
         + vibrationRejects PRESSING env)%Z).
Proof.
  split; [|split].
  - intros ms pressure. rewrite <- pressureAlarm_iff. unfold pressureOffer.
    destruct (pressureAlarm ms pressure); split; congruence.
  - intros ms pressure m ty. unfold pressureOffer.
    destruct (pressureAlarm ms pressure); congruence.
  - intros st env st' pressure Hms _ Hhigh.
    assert (Halarm : pressureAlarm PRESSING pressure = false).
    { destruct (pressureAlarm PRESSING pressure) eqn:E; [|reflexivity].
      apply pressureAlarm_iff in E. destruct E as (_ & _ & Hlow).
      exfalso. apply (Qlt_not_le _ _ Hlow). exact Hhigh. }
    assert (Hoffer : pressureOffer PRESSING pressure = None)
      by (unfold pressureOffer; now rewrite Halarm).
    assert (Hrej : pressureRejects PRESSING pressure env = 0%Z)
      by (unfold pressureRejects; now rewrite Halarm).
    split; [exact Hoffer|]. split; [exact Hrej|]. split.
    + unfold st'. rewrite tick_alertStore, Hms.
      fold st'. fold pressure. rewrite Hoffer. reflexivity.
    + unfold st'. rewrite tick_rejectCount, Hms.
      fold st'. fold pressure. rewrite Hrej. lia.
Qed.

Lemma no_alert_for_high_pressure_witness :
  machineState pressingAt250 = PRESSING /\
  PRESSURE_TOLERANCE
    < Qabs ((currentPressure (tick pressingAt250 (calm 1)) - TARGET_PRESSURE)
            / TARGET_PRESSURE * 100) /\
  TARGET_PRESSURE * 0.9 <= currentPressure (tick pressingAt250 (calm 1)) /\
  pressureOffer PRESSING (currentPressure (tick pressingAt250 (calm 1))) = None /\
  pressureRejects PRESSING (currentPressure (tick pressingAt250 (calm 1))) (calm 1)
  = 0%Z.
Proof.
  assert (Hdev : PRESSURE_TOLERANCE
    < Qabs ((currentPressure (tick pressingAt250 (calm 1)) - TARGET_PRESSURE)
            / TARGET_PRESSURE * 100)) by (vm_compute; reflexivity).
  assert (Hhigh : TARGET_PRESSURE * 0.9
                  <= currentPressure (tick pressingAt250 (calm 1))).
  { vm_compute. discriminate. }
  destruct (proj2 (proj2 no_alert_for_high_pressure) pressingAt250 (calm 1)
              eq_refl Hdev Hhigh) as (Hoffer & Hrej & _).
  split; [reflexivity|]. split; [exact Hdev|]. split; [exact Hhigh|].
  split; [exact Hoffer | exact Hrej].
Defined.

(** *** Telemetry history of the dashboard *)

Lemma reachable_history (st : State) :
  reachable st ->
  exists xs : list Sample.t,
    CircularBuffer.holds 60 xs (dataBufferRef st) /\
    dataStream st = CircularBuffer.toArray (dataBufferRef st).
Proof.
  induction 1 as [now | st env _ IH _ | st b _ IH].
  - exists []. split; [apply CircularBufferFacts.holds_new; lia | reflexivity].
  - destruct IH as (xs & Hxs & _). exists (xs ++ [sampleOf st env]).
    split; [|reflexivity].
    unfold tick; cbn [dataBufferRef].
    apply CircularBufferFacts.holds_push; [lia | exact Hxs].
  - exact IH.
Qed.

(** In every reachable state the history handed to the charts is the
    snapshot of the ring store: at most 60 samples, the retained ones in the
    order they were recorded. *)
Lemma dataStream_snapshot (st : State) :
  reachable st ->
  exists xs : list Sample.t,
    dataStream st
    = map Some (skipn (List.length xs - Nat.min (List.length xs) 60) xs) /\
    (List.length (dataStream st) <= 60)%nat.
Proof.
  intros Hst. destruct (reachable_history st Hst) as (xs & Hxs & Hds).
  exists xs.
  assert (Heq : dataStream st
    = map Some (skipn (List.length xs - Nat.min (List.length xs) 60) xs)).
  { rewrite Hds, (CircularBufferFacts.toArray_holds 60 xs) by (lia || exact Hxs).
    do 2 f_equal. lia. }
  split; [exact Heq|].
  rewrite Heq, length_map, length_skipn. lia.
Qed.

End Properties.

(** * Further properties of the engine *)

(** ** The two stores: telemetry ring and alert queue *)

Module StoreFacts.

Import Dashboard Behaviour Operation.

(** *** Ring store *)

Section Ring.
Context {A : Type}.

Lemma store_length (l : list (option A)) (i : nat) (v : A) :
  (i < List.length l)%nat ->
  List.length (CircularBuffer.store l i v) = List.length l.
Proof.
  revert i. induction l as [|x l IH]; intros [|i] Hi; simpl in *; try lia.
  rewrite IH; lia.
Qed.

Lemma push_shape (sz : Z) (b : CircularBuffer.t A) (x : A) :
  0 < sz ->
  CircularBuffer.size b = sz /\
  List.length (CircularBuffer.buffer b) = Z.to_nat sz /\
  0 <= CircularBuffer.index b < sz ->
  CircularBuffer.size (CircularBuffer.push b x) = sz /\
  List.length (CircularBuffer.buffer (CircularBuffer.push b x)) = Z.to_nat sz /\
  0 <= CircularBuffer.index (CircularBuffer.push b x) < sz.
Proof.
  intros Hsz (Hs & Hl & Hi). unfold CircularBuffer.push; simpl.
  split; [exact Hs|]. split.
  - rewrite store_length; [exact Hl | lia].
  - rewrite Hs. apply Z.rem_bound_pos; lia.
Qed.

Lemma pushAll_shape (sz : Z) (xs : list A) (b : CircularBuffer.t A) :
  0 < sz ->
  CircularBuffer.size b = sz /\
  List.length (CircularBuffer.buffer b) = Z.to_nat sz /\
  0 <= CircularBuffer.index b < sz ->
  CircularBuffer.size (CircularBuffer.pushAll b xs) = sz /\
  List.length (CircularBuffer.buffer (CircularBuffer.pushAll b xs)) = Z.to_nat sz /\
  0 <= CircularBuffer.index (CircularBuffer.pushAll b xs) < sz.
Proof.
  intros Hsz. revert b.
  induction xs as [|x xs IH]; intros b Hb; simpl; [exact Hb|].
  apply IH. apply push_shape; assumption.
Qed.

(** X1. A ring store of positive size never grows: however many samples
    are pushed, the backing array keeps its [size] slots, the write index
    stays inside it, the length is the number of pushes capped at the
    size, and the snapshot has that many entries, none of them empty. *)
Theorem ring_never_grows (sz : Z) (xs : list A) (Hsz : 0 < sz) :
  let b := CircularBuffer.pushAll (CircularBuffer.new sz) xs in
  List.length (CircularBuffer.buffer b) = Z.to_nat sz /\
  0 <= CircularBuffer.index b < sz /\
  CircularBuffer.length b = Z.min (Z.of_nat (List.length xs)) sz /\
  List.length (CircularBuffer.toArray b) = Z.to_nat (CircularBuffer.length b) /\
  Forall (fun slot => slot <> None) (CircularBuffer.toArray b).
Proof.
  intros b.
  assert (Hshape := pushAll_shape sz xs (CircularBuffer.new sz) Hsz).
  destruct Hshape as (_ & Hl & Hi).
  { split; [reflexivity|]. split; [|simpl; lia].
    simpl. apply repeat_length. }
  pose proof (CircularBufferFacts.holds_pushAll sz xs Hsz) as Hh.
  fold b in Hl, Hi, Hh.
  split; [exact Hl|]. split; [exact Hi|].
  split; [exact (proj1 (proj2 (proj2 Hh)))|].
  split.
  - unfold CircularBuffer.toArray. rewrite length_map, length_seq. reflexivity.
  - rewrite (CircularBufferFacts.toArray_holds sz xs b Hsz Hh).
    apply Forall_forall. intros slot Hin.
    apply in_map_iff in Hin. destruct Hin as (y & <- & _). discriminate.
Qed.

End Ring.

Lemma ring_never_grows_witness :
  (0 < 3) /\
  List.length (CircularBuffer.buffer
     (CircularBuffer.pushAll (CircularBuffer.new 3) [10; 20; 30; 40; 50])) = 3%nat /\
  CircularBuffer.toArray
     (CircularBuffer.pushAll (CircularBuffer.new 3) [10; 20; 30; 40; 50])
  = [Some 30; Some 40; Some 50].
Proof.
  assert (H : 0 < 3) by lia.
  split; [exact H|].
  split; [exact (proj1 (ring_never_grows 3 [10; 20; 30; 40; 50] H)) | reflexivity].
Defined.

Lemma skipn_snoc (B : Type) (k : nat) (xs : list B) (x : B) :
  (k <= List.length xs)%nat -> skipn k (xs ++ [x]) = skipn k xs ++ [x].
Proof.
  intros Hk. rewrite skipn_app.
  replace (k - List.length xs)%nat with 0%nat by lia. reflexivity.
Qed.

Lemma tick_last_sample (st : State) (env : Env) :
  reachable st ->
  last (dataStream (tick st env)) None = Some (sampleOf st env).
Proof.
  intros Hst.
  destruct (Properties.reachable_history st Hst) as (xs & Hh & _).
  assert (H60 : 0 < 60) by lia.
  pose proof (CircularBufferFacts.holds_push 60 xs (dataBufferRef st)
                (sampleOf st env) H60 Hh) as Hh'.
  change (dataStream (tick st env))
    with (CircularBuffer.toArray
            (CircularBuffer.push (dataBufferRef st) (sampleOf st env))).
  rewrite (CircularBufferFacts.toArray_holds 60 _ _ H60 Hh').
  rewrite skipn_snoc.
  - rewrite map_app. simpl. apply last_last.
  - rewrite length_app. simpl. lia.
Qed.

(** X2. In every reachable state a tick puts its own sample at the end of
    [dataStream], where the KPI cards and the vibration line read it: the
    readings of the tick rounded to one decimal, filed under the phase in
    which the tick began. *)
Theorem newest_sample_is_last (st : State) (env : Env) (Hst : reachable st) :
  let st' := tick st env in
  last (dataStream st') None = Some (sampleOf st env) /\
  Sample.temp (sampleOf st env) = Js.fixed (currentTemp st') 1 /\
  Sample.pressure (sampleOf st env) = Js.fixed (currentPressure st') 1 /\
  Sample.vibration (sampleOf st env) = Js.fixed (currentVibration st') 1 /\
  Sample.state (sampleOf st env) = machineState st.
Proof.
  intros st'.
  split; [exact (tick_last_sample st env Hst) | repeat split].
Qed.

Lemma newest_sample_is_last_witness :
  reachable (mounted 0) /\
  last (dataStream (tick (mounted 0) (calm 1))) None
  = Some (sampleOf (mounted 0) (calm 1)).
Proof.
  assert (H : reachable (mounted 0)) by apply reach_mounted.
  split; [exact H|].
  exact (proj1 (newest_sample_is_last (mounted 0) (calm 1) H)).
Defined.

(** *** Priority queue *)

Section Queue.
Context {A : Type}.
Variable cmp : A -> A -> Z.

Lemma place_behind (x : A) (l : list A) :
  Forall (fun y => cmp y x <= 0) l -> PriorityQueue.place cmp x l = l ++ [x].
Proof.
  induction 1 as [|y l Hy _ IH]; simpl; [reflexivity|].
  apply Z.leb_le in Hy. rewrite Hy, IH. reflexivity.
Qed.

Lemma ordered_app_before (acc l : list A) (x : A) :
  PriorityQueue.ordered cmp (acc ++ x :: l) ->
  Forall (fun y => cmp y x <= 0) acc.
Proof.
  induction acc as [|y acc IH]; simpl; intros H; [constructor|].
  inversion H as [|? ? Hs Hf]; subst.
  constructor; [|exact (IH Hs)].
  rewrite Forall_forall in Hf. apply Hf.
  apply in_or_app. right. left. reflexivity.
Qed.

Lemma sort_from_sorted (l acc : list A) :
  PriorityQueue.ordered cmp (acc ++ l) ->
  fold_left (fun placed x => PriorityQueue.place cmp x placed) l acc = acc ++ l.
Proof.
  revert acc. induction l as [|x l IH]; intros acc H; simpl.
  - rewrite app_nil_r. reflexivity.
  - rewrite (place_behind x acc (ordered_app_before acc l x H)).
    rewrite IH; rewrite <- app_assoc; simpl; [reflexivity | exact H].
Qed.

Lemma sort_sorted (l : list A) :
  PriorityQueue.ordered cmp l -> PriorityQueue.sort cmp l = l.
Proof.
  intros H. unfold PriorityQueue.sort. rewrite sort_from_sorted; [reflexivity | exact H].
Qed.

Lemma sort_snoc (l : list A) (x : A) :
  PriorityQueue.ordered cmp l ->
  PriorityQueue.sort cmp (l ++ [x]) = PriorityQueue.place cmp x l.
Proof.
  intros H. unfold PriorityQueue.sort. rewrite fold_left_app. simpl.
  change (fold_left (fun placed x0 => PriorityQueue.place cmp x0 placed) l [])
    with (PriorityQueue.sort cmp l).
  rewrite (sort_sorted l H). reflexivity.
Qed.

Lemma place_splits (x : A) (l : list A) :
  exists front back : list A,
    l = front ++ back /\
    PriorityQueue.place cmp x l = front ++ x :: back /\
    Forall (fun y => cmp y x <= 0) front /\
    match back with
    | [] => True
    | y :: _ => 0 < cmp y x
    end.
Proof.
  induction l as [|y l (front & back & Hl & Hp & Hf & Hb)]; simpl.
  - exists [], []. repeat split; constructor.
  - destruct (cmp y x <=? 0) eqn:Hc.
    + exists (y :: front), back. simpl. rewrite Hl at 1. rewrite Hp.
      split; [reflexivity|]. split; [reflexivity|].
      split; [|exact Hb]. constructor; [apply Z.leb_le; exact Hc | exact Hf].
    + exists [], (y :: l). simpl.
      split; [reflexivity|]. split; [reflexivity|].
      split; [constructor | apply Z.leb_gt; exact Hc].
Qed.

Lemma place_firstn (x : A) (k : nat) (l : list A) :
  (k <= List.length l)%nat ->
  Forall (fun y => cmp y x <= 0) (firstn k l) ->
  firstn k (PriorityQueue.place cmp x l) = firstn k l.
Proof.
  revert l. induction k as [|k IH]; intros l Hk Hf; [reflexivity|].
  destruct l as [|y l]; simpl in *; [lia|].
  inversion Hf as [|? ? Hy Hf']; subst.
  apply Z.leb_le in Hy. rewrite Hy. simpl.
  rewrite IH; [reflexivity | lia | exact Hf'].
Qed.

End Queue.

(** X3. Sorting the whole array at each [enqueue] amounts to one stable
    insertion. In a queue whose items are in order, the new item goes
    right behind the longest run of leading items that may stand before
    it and in front of the first item that must come after it; the items
    already queued keep their places relative to each other, and none is
    lost. *)
Theorem enqueue_is_insertion (A : Type) (q : PriorityQueue.t A) (item : A)
  (Hq : PriorityQueue.ordered (PriorityQueue.compare q) (PriorityQueue.items q)) :
  exists front back : list A,
    PriorityQueue.items q = front ++ back /\
    PriorityQueue.items (PriorityQueue.enqueue q item) = front ++ item :: back /\
    Forall (fun y => PriorityQueue.compare q y item <= 0) front /\
    match back with
    | [] => True
    | y :: _ => 0 < PriorityQueue.compare q y item
    end.
Proof.
  unfold PriorityQueue.enqueue. simpl.
  rewrite (sort_snoc (PriorityQueue.compare q) (PriorityQueue.items q) item Hq).
  apply place_splits.
Qed.

Lemma enqueue_is_insertion_witness :
  PriorityQueue.ordered Z.sub [1; 3; 3; 7] /\
  exists front back : list Z,
    [1; 3; 3; 7] = front ++ back /\
    PriorityQueue.items
      (PriorityQueue.enqueue (PriorityQueue.mk [1; 3; 3; 7] Z.sub) 3)
    = front ++ 3 :: back /\
    Forall (fun y => y - 3 <= 0) front /\
    match back with
    | [] => True
    | y :: _ => 0 < y - 3
    end.
Proof.
  assert (H : PriorityQueue.ordered Z.sub [1; 3; 3; 7]).
  { unfold PriorityQueue.ordered.
    repeat (constructor; [|repeat (constructor; [lia|]); constructor]).
    constructor. }
  split; [exact H|].
  exact (enqueue_is_insertion Z (PriorityQueue.mk [1; 3; 3; 7] Z.sub) 3 H).
Defined.

(** *** The alert store of the dashboard *)

Lemma accepted_queue (clk : Clock) (o : Offer) (s : AlertStore) :
  Permutation (accepted clk o s ++ PriorityQueue.items (alertQueueRef s))
    (PriorityQueue.items (alertQueueRef (offer clk o s))).
Proof.
  destruct o as [[m ty]|]; cbn [accepted offer]; [|reflexivity].
  unfold addAlert.
  destruct (suppressed clk m (alerts s)); [reflexivity|].
  cbn [alertQueueRef PriorityQueue.enqueue PriorityQueue.items app].
  rewrite <- PriorityQueueFacts.sort_perm. apply Permutation_cons_append.
Qed.

Lemma accepted_length (clk : Clock) (o : Offer) (s : AlertStore) :
  (List.length (accepted clk o s) <= 1)%nat.
Proof.
  destruct o as [[m ty]|]; cbn [accepted]; [|simpl; lia].
  destruct (suppressed clk m (alerts s)); simpl; lia.
Qed.

(** X4. The alert queue behind the list never forgets. In every reachable
    state the queue is in priority order and the list on display is its
    first ten entries. After a tick the queue holds what it held before
    together with exactly the alerts that the guard of [addAlert] let
    pass at the three call sites of the tick, each once: the queue grows
    by one entry with every accepted alert, by at most three in a tick,
    and no entry ever leaves it for as long as the dashboard stays
    mounted. *)
Theorem queue_never_forgets (st : State) (env : Env) (Hst : reachable st) :
  filed (alertStore st) /\
  Permutation (admitted st env ++ queued st) (queued (tick st env)) /\
  (List.length (admitted st env) <= 3)%nat /\
  List.length (queued (tick st env))
  = (List.length (queued st) + List.length (admitted st env))%nat /\
  (forall a : Alert, In a (queued st) -> In a (queued (tick st env))).
Proof.
  split; [exact (Properties.reachable_filed st Hst)|].
  assert (Hp : Permutation (admitted st env ++ queued st) (queued (tick st env))).
  { unfold queued, admitted. rewrite Properties.tick_alertStore.
    cbv zeta. rewrite <- !app_assoc.
    eapply Permutation_trans; [|apply accepted_queue].
    apply Permutation_app_head.
    eapply Permutation_trans; [|apply accepted_queue].
    apply Permutation_app_head.
    apply accepted_queue. }
  split; [exact Hp|]. split.
  - unfold admitted. cbv zeta. rewrite !length_app.
    pose proof (accepted_length (vibrationClock (machineState st) env)
                  (vibrationOffer (machineState st) env)
                  (offer (clkPressureAlert env)
                     (pressureOffer (machineState st) (currentPressure (tick st env)))
                     (offer (clkTempAlert env)
                        (tempOffer (machineState st) (currentTemp (tick st env)))
                        (alertStore st)))).
    pose proof (accepted_length (clkPressureAlert env)
                  (pressureOffer (machineState st) (currentPressure (tick st env)))
                  (offer (clkTempAlert env)
                     (tempOffer (machineState st) (currentTemp (tick st env)))
                     (alertStore st))).
    pose proof (accepted_length (clkTempAlert env)
                  (tempOffer (machineState st) (currentTemp (tick st env)))
                  (alertStore st)).
    lia.
  - split.
    + rewrite <- (Permutation_length Hp), length_app. lia.
    + intros a Ha. apply (Permutation_in a Hp). apply in_or_app. now right.
Qed.

(** The first tick of PRESSING in a hectic run: fifteen alerts are queued
    before it, the tick accepts a temperature alert and a vibration alert,
    and seventeen are queued after it. *)
Lemma queue_never_forgets_witness :
  reachable (run (mounted 0) (hecticTicks 23)) /\
  admitted (run (mounted 0) (hecticTicks 23)) (hectic 24)
  = [mkAlert "🔴 High Vibration: 9.96 mm/s (Critical)" critical 24000;
     mkAlert "🔴 Temperature Low: 103.0°C (Dev: -37.6%)" critical 24000] /\
  List.length (queued (run (mounted 0) (hecticTicks 23))) = 15%nat /\
  List.length (queued (tick (run (mounted 0) (hecticTicks 23)) (hectic 24)))
  = (15 + 2)%nat /\
  Permutation
    (admitted (run (mounted 0) (hecticTicks 23)) (hectic 24)
     ++ queued (run (mounted 0) (hecticTicks 23)))
    (queued (tick (run (mounted 0) (hecticTicks 23)) (hectic 24))).
Proof.
  assert (Hr : reachable (run (mounted 0) (hecticTicks 23))).
  { apply Properties.reachable_run; [apply reach_mounted | reflexivity]. }
  split; [exact Hr|]. split; [vm_compute; reflexivity|].
  split; [vm_compute; reflexivity|]. split; [vm_compute; reflexivity|].
  exact (proj1 (proj2 (queue_never_forgets (run (mounted 0) (hecticTicks 23))
                         (hectic 24) Hr))).
Defined.

(** X5. Ten critical alerts shadow everything else. When the list on
    display is full of critical alerts, an alert of lower severity
    leaves the list as it is, although the Alert Manager accepts it into
    the queue: the operator never sees it. *)
Theorem critical_alerts_shadow_the_rest (s : AlertStore) (clk : Clock)
  (m : string) (ty : AlertType)
  (Hs : filed s) (Hfull : List.length (alerts s) = 10%nat)
  (Hcrit : Forall (fun a => type a = critical) (alerts s))
  (Hty : ty <> critical) :
  alerts (addAlert clk m ty s) = alerts s /\
  (suppressed clk m (alerts s) = false ->
   In (mkAlert m ty (atStamp clk))
      (PriorityQueue.items (alertQueueRef (addAlert clk m ty s)))).
Proof.
  destruct Hs as (Hc & Ho & Ha).
  unfold addAlert. destruct (suppressed clk m (alerts s)).
  - split; [reflexivity | discriminate].
  - cbn [alerts alertQueueRef PriorityQueue.toArray PriorityQueue.enqueue
         PriorityQueue.items].
    rewrite Hc. rewrite (sort_snoc alertCompare _ _ Ho).
    split.
    + rewrite Ha. apply place_firstn.
      * rewrite Ha in Hfull. rewrite length_firstn in Hfull. lia.
      * rewrite <- Ha. revert Hcrit. apply Forall_impl.
        intros a Hcr. unfold alertCompare. cbn [type time]. rewrite Hcr.
        destruct ty; [contradiction | |]; cbn; lia.
    + intros _. apply PriorityQueueFacts.place_In. left. reflexivity.
Qed.

Lemma critical_alerts_shadow_the_rest_witness :
  filed (alertStore (run (mounted 0) (calmTicks 18))) /\
  List.length (alerts (alertStore (run (mounted 0) (calmTicks 18)))) = 10%nat /\
  alerts (addAlert (at_ms 19000) vibrationAt5 warning
            (alertStore (run (mounted 0) (calmTicks 18))))
  = alerts (alertStore (run (mounted 0) (calmTicks 18))).
Proof.
  assert (Hr : reachable (run (mounted 0) (calmTicks 18))).
  { apply Properties.reachable_run; [apply reach_mounted | reflexivity]. }
  assert (Hs := Properties.reachable_filed _ Hr).
  assert (Hl : List.length (alerts (alertStore (run (mounted 0) (calmTicks 18))))
               = 10%nat) by (vm_compute; reflexivity).
  assert (Hc : Forall (fun a => type a = critical)
                 (alerts (alertStore (run (mounted 0) (calmTicks 18))))).
  { apply Forall_forall. intros a Hin.
    assert (Hall : forallb (fun a => match type a with critical => true | _ => false end)
                     (alerts (alertStore (run (mounted 0) (calmTicks 18)))) = true)
      by (vm_compute; reflexivity).
    rewrite forallb_forall in Hall. specialize (Hall a Hin).
    destruct (type a); [reflexivity | discriminate | discriminate]. }
  assert (Hw : warning <> critical) by discriminate.
  split; [exact Hs|]. split; [exact Hl|].
  exact (proj1 (critical_alerts_shadow_the_rest
                  (alertStore (run (mounted 0) (calmTicks 18)))
                  (at_ms 19000) vibrationAt5 warning Hs Hl Hc Hw)).
Defined.

(** X6. A critical alert that is accepted while the clock is ahead of
    every queued alert goes to the top of the list. *)
Theorem fresh_critical_leads (s : AlertStore) (clk : Clock) (m : string)
  (Hs : filed s) (Hnew : suppressed clk m (alerts s) = false)
  (Hclock : Forall (fun a => (time a < atStamp clk)%Z)
              (PriorityQueue.items (alertQueueRef s))) :
  hd_error (alerts (addAlert clk m critical s))
  = Some (mkAlert m critical (atStamp clk)).
Proof.
  destruct Hs as (Hc & Ho & Ha).
  unfold addAlert. rewrite Hnew.
  cbn [alerts alertQueueRef PriorityQueue.toArray PriorityQueue.enqueue
       PriorityQueue.items].
  rewrite Hc. rewrite (sort_snoc alertCompare _ _ Ho).
  destruct (PriorityQueue.items (alertQueueRef s)) as [|y l]; [reflexivity|].
  inversion Hclock as [|? ? Hy _]; subst.
  cbn [PriorityQueue.place].
  assert (Hgt : (0 < alertCompare y (mkAlert m critical (atStamp clk)))%Z).
  { unfold alertCompare. cbn [type time].
    destruct (type y); cbn; lia. }
  apply Z.leb_gt in Hgt. rewrite Hgt. reflexivity.
Qed.

Lemma fresh_critical_leads_witness :
  filed warningBehindCritical /\
  suppressed (at_ms 2000) "pressure" (alerts warningBehindCritical) = false /\
  hd_error (alerts (addAlert (at_ms 2000) "pressure" critical warningBehindCritical))
  = Some (mkAlert "pressure" critical 2000).
Proof.
  assert (Hs : filed warningBehindCritical).
  { unfold warningBehindCritical. repeat apply Properties.addAlert_filed. apply Properties.filed_noAlerts. }
  split; [exact Hs|]. split; [vm_compute; reflexivity|].
  apply (fresh_critical_leads warningBehindCritical (at_ms 2000) "pressure" Hs).
  - vm_compute. reflexivity.
  - vm_compute. repeat constructor.
Defined.

End StoreFacts.

(** ** The process model under fair draws *)

Module ProcessFacts.

Import Dashboard Behaviour Operation.
Local Open Scope Q_scope.

(** Case analysis on every [Qmin] and [Qmax] in sight. *)
Ltac minmax :=
  repeat match goal with
  | |- context [Qmin ?a ?b] =>
      let H := fresh "Hmin" in
      pose proof (Q.min_spec a b) as H;
      let m := fresh "m" in
      set (m := Qmin a b) in *; clearbody m
  | |- context [Qmax ?a ?b] =>
      let H := fresh "Hmax" in
      pose proof (Q.max_spec a b) as H;
      let m := fresh "m" in
      set (m := Qmax a b) in *; clearbody m
  | H0 : context [Qmin ?a ?b] |- _ =>
      let H := fresh "Hmin" in
      pose proof (Q.min_spec a b) as H;
      let m := fresh "m" in
      set (m := Qmin a b) in *; clearbody m
  | H0 : context [Qmax ?a ?b] |- _ =>
      let H := fresh "Hmax" in
      pose proof (Q.max_spec a b) as H;
      let m := fresh "m" in
      set (m := Qmax a b) in *; clearbody m
  end.

(** Division by a constant, as a product. *)
Ltac divisions :=
  unfold Qdiv in *;
  repeat match goal with
  | |- context [Qinv ?c] =>
      let v := eval vm_compute in (Qinv c) in change (Qinv c) with v in *
  | H : context [Qinv ?c] |- _ =>
      let v := eval vm_compute in (Qinv c) in change (Qinv c) with v in *
  end.

Lemma Qabs_beyond (x c : Q) : c < x \/ x < - c -> c < Qabs x.
Proof.
  intros H. apply Qabs_case; intros; lra.
Qed.

Lemma Qabs_within (x c : Q) : - c <= x <= c -> Qabs x <= c.
Proof.
  intros H. apply Qabs_case; intros; lra.
Qed.

(** *** The fields of the state after a tick *)

Lemma tick_currentTemp (st : State) (env : Env) :
  currentTemp (tick st env) == nextTemp (machineState st) (currentTemp st) env.
Proof.
  change (currentTemp (tick st env))
    with (Qred (nextTemp (machineState st) (currentTemp st) env)).
  apply Qred_correct.
Qed.

Lemma tick_currentPressure (st : State) (env : Env) :
  currentPressure (tick st env)
  == nextPressure (machineState st) (currentPressure st) env.
Proof.
  change (currentPressure (tick st env))
    with (Qred (nextPressure (machineState st) (currentPressure st) env)).
  apply Qred_correct.
Qed.

Lemma tick_tempDeviation (st : State) (env : Env) :
  tempDeviation (tick st env)
  = if vulcanizing (machineState st)
    then tempDevOf (machineState st) (currentTemp (tick st env))
    else tempDeviation st.
Proof. reflexivity. Qed.

Lemma tick_pressureDeviation (st : State) (env : Env) :
  pressureDeviation (tick st env)
  = if Phase_eqb (machineState st) PRESSING
    then pressureDevOf (machineState st) (currentPressure (tick st env))
    else pressureDeviation st.
Proof. reflexivity. Qed.

Lemma tick_healthIndex (st : State) (env : Env) :
  healthIndex (tick st env)
  = healthUpdate (tempDevOf (machineState st) (currentTemp (tick st env)))
      (pressureDevOf (machineState st) (currentPressure (tick st env)))
      (seenRejectCount st) (seenTotalCycles st)
      (fst (vibrationOf (machineState st) env)) (rndHealth env).
Proof. reflexivity. Qed.

Lemma tick_machineState (st : State) (env : Env) :
  machineState (tick st env)
  = if due (machineState st) (phaseTime st)
    then nextState (machineState st) else machineState st.
Proof. reflexivity. Qed.

Lemma tick_phaseTime (st : State) (env : Env) :
  phaseTime (tick st env)
  = (if due (machineState st) (phaseTime st) then 0 else phaseTime st + 1)%Z.
Proof. reflexivity. Qed.

(** *** Where a state stands in the cycle *)

Lemma position_tick (st : State) (env : Env) :
  (0 <= phaseTime st < duration (machineState st))%Z ->
  (0 <= phaseTime (tick st env) < duration (machineState (tick st env)))%Z /\
  position (tick st env)
  = (if (position st =? 44)%Z then 0 else position st + 1)%Z.
Proof.
  intros Hpt. unfold position, elapsed.
  rewrite tick_machineState, tick_phaseTime.
  unfold due. destruct (machineState st); cbn [duration nextState] in *;
    match goal with
    | |- context [(?a <=? ?b)%Z] => destruct (Z.leb_spec a b)
    end; cbn [duration nextState];
    match goal with
    | |- context [(?a =? ?b)%Z] => destruct (Z.eqb_spec a b)
    end; lia.
Qed.

Lemma position_range (st : State) :
  (0 <= phaseTime st < duration (machineState st))%Z ->
  (0 <= position st <= 44)%Z.
Proof.
  unfold position, elapsed. destruct (machineState st); cbn [duration]; lia.
Qed.

Lemma vulcanizing_position (st : State) :
  (0 <= phaseTime st < duration (machineState st))%Z ->
  vulcanizing (machineState st) = true <-> (8 <= position st <= 32)%Z.
Proof.
  unfold position, elapsed. destruct (machineState st); cbn [duration vulcanizing];
    intros H; split; intros H';
    try discriminate; try reflexivity; lia.
Qed.

Lemma pressing_position (st : State) :
  (0 <= phaseTime st < duration (machineState st))%Z ->
  machineState st = PRESSING <-> (23 <= position st <= 32)%Z.
Proof.
  unfold position, elapsed. destruct (machineState st); cbn [duration vulcanizing];
    intros H; split; intros H';
    try discriminate; try reflexivity; lia.
Qed.

Lemma not_vulcanizing (st : State) :
  (0 <= phaseTime st < duration (machineState st))%Z ->
  ~ (8 <= position st <= 32)%Z -> vulcanizing (machineState st) = false.
Proof.
  unfold position, elapsed. destruct (machineState st); cbn [duration vulcanizing];
    intros H H'; try reflexivity; lia.
Qed.

Lemma not_pressing (st : State) :
  (0 <= phaseTime st < duration (machineState st))%Z ->
  ~ (23 <= position st <= 32)%Z ->
  Phase_eqb (machineState st) PRESSING = false /\ machineState st <> PRESSING.
Proof.
  unfold position, elapsed. destruct (machineState st); cbn [duration Phase_eqb];
    intros H H'; try (split; [reflexivity | discriminate]); lia.
Qed.

Lemma pumping_position (st : State) :
  (0 <= phaseTime st < duration (machineState st))%Z ->
  (machineState st = CLOSING \/ machineState st = HEATING
   \/ machineState st = PRESSING) <-> (5 <= position st <= 32)%Z.
Proof.
  unfold position, elapsed. destruct (machineState st); cbn [duration vulcanizing];
    intros H; split; intros H';
    try (destruct H' as [H'|[H'|H']]; discriminate); try lia; auto.
Qed.

Lemma idle_position (st : State) :
  (0 <= phaseTime st < duration (machineState st))%Z ->
  machineState st = IDLE <-> (position st <= 4)%Z.
Proof.
  unfold position, elapsed. destruct (machineState st); cbn [duration vulcanizing];
    intros H; split; intros H';
    try discriminate; try reflexivity; lia.
Qed.

Lemma completes_position (st : State) :
  (0 <= phaseTime st < duration (machineState st))%Z ->
  completes (machineState st) (phaseTime st) = (position st =? 44)%Z.
Proof.
  unfold position, elapsed, completes, due.
  destruct (machineState st); cbn [duration Phase_eqb]; intros H;
    rewrite ?andb_false_r, ?andb_true_r;
    try (symmetry; apply Z.eqb_neq; lia).
  destruct (Z.leb_spec 4 (phaseTime st + 1)), (Z.eqb_spec (41 + phaseTime st) 44);
    try reflexivity; lia.
Qed.

(** *** The temperature envelope *)

Lemma positioned (ms : Phase) (pt : Z) :
  (0 <= pt < duration ms)%Z ->
  fst (hottest (Z.to_nat (elapsed ms pt))) = (ms, pt).
Proof.
  intros H.
  destruct ms; simpl in H.
  - assert (Hc : (pt = 0 \/ pt = 1 \/ pt = 2 \/ pt = 3 \/ pt = 4)%Z) by lia.
    repeat (destruct Hc as [->|Hc]; [vm_compute; reflexivity|]).
    subst; vm_compute; reflexivity.
  - assert (Hc : (pt = 0 \/ pt = 1 \/ pt = 2)%Z) by lia.
    repeat (destruct Hc as [->|Hc]; [vm_compute; reflexivity|]).
    subst; vm_compute; reflexivity.
  - assert (Hc : (pt = 0 \/ pt = 1 \/ pt = 2 \/ pt = 3 \/ pt = 4 \/ pt = 5
                  \/ pt = 6 \/ pt = 7 \/ pt = 8 \/ pt = 9 \/ pt = 10 \/ pt = 11
                  \/ pt = 12 \/ pt = 13 \/ pt = 14)%Z) by lia.
    repeat (destruct Hc as [->|Hc]; [vm_compute; reflexivity|]).
    subst; vm_compute; reflexivity.
  - assert (Hc : (pt = 0 \/ pt = 1 \/ pt = 2 \/ pt = 3 \/ pt = 4 \/ pt = 5
                  \/ pt = 6 \/ pt = 7 \/ pt = 8 \/ pt = 9)%Z) by lia.
    repeat (destruct Hc as [->|Hc]; [vm_compute; reflexivity|]).
    subst; vm_compute; reflexivity.
  - assert (Hc : (pt = 0 \/ pt = 1 \/ pt = 2 \/ pt = 3 \/ pt = 4 \/ pt = 5
                  \/ pt = 6 \/ pt = 7)%Z) by lia.
    repeat (destruct Hc as [->|Hc]; [vm_compute; reflexivity|]).
    subst; vm_compute; reflexivity.
  - assert (Hc : (pt = 0 \/ pt = 1 \/ pt = 2 \/ pt = 3)%Z) by lia.
    repeat (destruct Hc as [->|Hc]; [vm_compute; reflexivity|]).
    subst; vm_compute; reflexivity.
Qed.

Lemma hottest_step (k : nat) :
  snd (hottest (S k)) == warmest (fst (fst (hottest k))) (snd (hottest k)).
Proof.
  change (snd (hottest (S k)))
    with (Qred (warmest (fst (fst (hottest k))) (snd (hottest k)))).
  apply Qred_correct.
Qed.

Lemma hottest_table :
  forallb (fun k => Qle_bool 25 (snd (hottest k))
                    && Qle_bool (snd (hottest k)) 144.8
                    && (Qle_bool (snd (hottest k)) 131.9 || Nat.ltb 24 k))
          (seq 0 46) = true.
Proof. vm_compute. reflexivity. Qed.

Lemma hottest_bounds (k : nat) :
  (k <= 45)%nat ->
  25 <= snd (hottest k) <= 144.8 /\ ((k <= 24)%nat -> snd (hottest k) <= 131.9).
Proof.
  intros Hk. pose proof hottest_table as Ht.
  rewrite forallb_forall in Ht.
  specialize (Ht k). rewrite in_seq in Ht.
  assert (Hin : (0 <= k < 0 + 46)%nat) by lia.
  apply Ht in Hin. apply andb_prop in Hin. destruct Hin as [Hin H3].
  apply andb_prop in Hin. destruct Hin as [H1 H2].
  apply Qle_bool_iff in H1, H2.
  split; [split; assumption|].
  intros Hk'. apply orb_prop in H3. destruct H3 as [H3|H3].
  - apply Qle_bool_iff in H3. exact H3.
  - apply Nat.ltb_lt in H3. lia.
Qed.

Lemma hottest_wraps : snd (hottest 45) <= snd (hottest 0).
Proof. vm_compute. discriminate. Qed.

Lemma warmest_mono (ms : Phase) (a b : Q) :
  a <= b -> warmest ms a <= warmest ms b.
Proof.
  intros H. unfold warmest.
  destruct ms; cbn [vulcanizing tempTargetByState]; unfold TARGET_TEMP;
    divisions; lra.
Qed.

Lemma nextTemp_below (ms : Phase) (temp : Q) (env : Env) :
  random (rndTempNoise env) -> 25 <= temp ->
  nextTemp ms temp env <= warmest ms temp.
Proof.
  intros [H0 H1] Ht.
  unfold nextTemp, predictedT, clamp, warmest, dt,
    BRAKE_PAD_TEMP_MIN, BRAKE_PAD_TEMP_MAX.
  destruct ms; cbn [vulcanizing tempTargetByState]; unfold TARGET_TEMP;
    divisions; minmax; lra.
Qed.

Lemma temperature_tracked (st : State) (env : Env) :
  (0 <= phaseTime st < duration (machineState st))%Z ->
  random (rndTempNoise env) ->
  currentTemp st <= snd (hottest (Z.to_nat (position st))) ->
  currentTemp (tick st env)
  <= snd (hottest (Z.to_nat (position (tick st env)))).
Proof.
  intros Hpt Hr Ht.
  destruct (position_tick st env Hpt) as [_ Hpos].
  pose proof (position_range st Hpt) as Hrange.
  pose proof (positioned _ _ Hpt) as Hat. fold (position st) in Hat.
  set (k := Z.to_nat (position st)) in *.
  assert (Hk : (k <= 44)%nat) by (unfold k; lia).
  assert (Hstep : currentTemp (tick st env) <= snd (hottest (S k))).
  { rewrite hottest_step, Hat. simpl fst.
    rewrite tick_currentTemp.
    pose proof (proj1 (hottest_bounds k ltac:(lia))) as [Hlo _].
    destruct (Qlt_le_dec (currentTemp st) 25) as [Hcold|Hwarm].
    - apply Qle_trans with (warmest (machineState st) 25).
      + assert (Hsame : nextTemp (machineState st) (currentTemp st) env
                        <= warmest (machineState st) 25).
        { destruct Hr as [H0 H1].
          unfold nextTemp, predictedT, clamp, warmest, dt,
            BRAKE_PAD_TEMP_MIN, BRAKE_PAD_TEMP_MAX.
          destruct (machineState st); cbn [vulcanizing tempTargetByState];
            unfold TARGET_TEMP; divisions; minmax; lra. }
        exact Hsame.
      + apply warmest_mono. exact Hlo.
    - apply Qle_trans with (warmest (machineState st) (currentTemp st)).
      + apply nextTemp_below; assumption.
      + apply warmest_mono. exact Ht. }
  rewrite Hpos. destruct (Z.eqb_spec (position st) 44) as [H44|H44].
  - assert (Hk45 : S k = 45%nat) by (unfold k; lia).
    rewrite Hk45 in Hstep.
    apply Qle_trans with (snd (hottest 45)); [exact Hstep | exact hottest_wraps].
  - replace (Z.to_nat (position st + 1)) with (S k) by (unfold k; lia).
    exact Hstep.
Qed.

(** *** The pressure envelope *)

Lemma nextPressure_above (ms : Phase) (p f : Q) (env : Env) :
  ms = CLOSING \/ ms = HEATING \/ ms = PRESSING ->
  random (rndPressureNoise env) -> random (rndLeak env) ->
  f <= p -> 0 <= p <= 260 ->
  Qmin 235 (f + 10.95) <= nextPressure ms p env.
Proof.
  intros Hms [Hn0 Hn1] [Hl0 Hl1] Hf [Hp0 Hp1].
  unfold nextPressure, clamp, dt, BRAKE_PAD_PRESSURE_MIN, BRAKE_PAD_PRESSURE_MAX.
  destruct Hms as [-> | [-> | ->]]; cbn [Phase_eqb]; divisions; minmax; lra.
Qed.

Lemma pumpedTo_next (n : Z) :
  (5 <= n <= 32)%Z -> pumpedTo (n + 1) <= Qmin 235 (pumpedTo n + 10.95).
Proof.
  intros Hn. unfold pumpedTo.
  replace ((5 <=? n + 1)%Z && (n + 1 <=? 33)%Z) with true
    by (symmetry; apply andb_true_intro; split; apply Z.leb_le; lia).
  replace ((5 <=? n)%Z && (n <=? 33)%Z) with true
    by (symmetry; apply andb_true_intro; split; apply Z.leb_le; lia).
  replace (n + 1 - 5)%Z with ((n - 5) + 1)%Z by lia.
  rewrite inject_Z_plus. change (inject_Z 1) with 1.
  generalize (inject_Z (n - 5)). intros x.
  minmax; lra.
Qed.

Lemma pumpedTo_outside (n : Z) : (n <= 5 \/ 33 < n)%Z -> pumpedTo n <= 0.
Proof.
  intros Hn. unfold pumpedTo.
  destruct (Z.leb_spec 5 n), (Z.leb_spec n 33); cbn [andb]; try lra; try lia.
  assert (n = 5%Z) by lia. subst n. vm_compute. discriminate.
Qed.

Lemma pumpedTo_pressed (n : Z) : (25 <= n <= 33)%Z -> 219 <= pumpedTo n.
Proof.
  intros Hn. unfold pumpedTo.
  replace ((5 <=? n)%Z && (n <=? 33)%Z) with true
    by (symmetry; apply andb_true_intro; split; apply Z.leb_le; lia).
  assert (H : 20 <= inject_Z (n - 5)).
  { change 20 with (inject_Z 20). rewrite <- Zle_Qle. lia. }
  revert H. generalize (inject_Z (n - 5)). intros x Hx.
  minmax; lra.
Qed.

Lemma pumpedTo_end : 235 <= pumpedTo 33.
Proof. vm_compute. discriminate. Qed.

Lemma pressure_tracked (st : State) (env : Env) :
  (0 <= phaseTime st < duration (machineState st))%Z ->
  random (rndPressureNoise env) -> random (rndLeak env) ->
  pumpedTo (position st) <= currentPressure st /\ 0 <= currentPressure st <= 260 ->
  pumpedTo (position (tick st env)) <= currentPressure (tick st env) /\
  0 <= currentPressure (tick st env) <= 260.
Proof.
  intros Hpt HrP HrL [Hlo Hp].
  destruct (position_tick st env Hpt) as [_ Hpos].
  pose proof (position_range st Hpt) as Hn.
  pose proof (proj2 (Properties.tick_withinLimits st env)) as Hp'.
  unfold BRAKE_PAD_PRESSURE_MIN, BRAKE_PAD_PRESSURE_MAX in Hp'.
  split; [|exact Hp'].
  rewrite Hpos.
  destruct (Z.eqb_spec (position st) 44) as [H44|H44].
  - apply Qle_trans with 0; [apply pumpedTo_outside; lia | apply Hp'].
  - destruct (Z_le_gt_dec 5 (position st)) as [H5|H5];
      [destruct (Z_le_gt_dec (position st) 32) as [H32|H32]|].
    + apply Qle_trans with (Qmin 235 (pumpedTo (position st) + 10.95)).
      * apply pumpedTo_next. lia.
      * rewrite tick_currentPressure.
        apply nextPressure_above; try assumption.
        apply (pumping_position st Hpt). lia.
    + apply Qle_trans with 0; [apply pumpedTo_outside; lia | apply Hp'].
    + apply Qle_trans with 0; [apply pumpedTo_outside; lia | apply Hp'].
Qed.

(** *** A dashboard that has not heated yet *)

Lemma quiet_rejects (ms : Phase) (temp pressure : Q) (env : Env) :
  vulcanizing ms = false ->
  tempRejects ms temp env = 0%Z /\
  pressureRejects ms pressure env = 0%Z /\
  vibrationRejects ms env = 0%Z.
Proof.
  destruct ms; intros H; try discriminate; repeat split.
Qed.

Lemma quiet_vibration (ms : Phase) (env : Env) :
  ms <> PRESSING -> random (rndVibration env) ->
  snd (vibrationOf ms env) = None /\
  2 <= fst (vibrationOf ms env) < 4.
Proof.
  intros Hms [H0 H1].
  assert (Hv : vibrationOf ms env = (2 + rndVibration env * 2, None))
    by (destruct ms; try reflexivity; congruence).
  rewrite Hv. cbn [fst snd]. split; [reflexivity | lra].
Qed.

Lemma vibrationPenaltyOf_safe (v : Q) : v <= 4 -> vibrationPenaltyOf v = 5.
Proof.
  intros H. unfold vibrationPenaltyOf, VIBRATION_CRITICAL, VIBRATION_WARNING,
    VIBRATION_SAFE.
  rewrite (proj2 (JsFacts.gtb_le v 8)) by lra.
  rewrite (proj2 (JsFacts.gtb_le v 5)) by lra.
  rewrite (proj2 (JsFacts.gtb_le v 4)) by lra.
  reflexivity.
Qed.

Lemma healthUpdate_fresh (v r : Q) :
  v <= 4 -> 0 <= r -> 98 <= healthUpdate 0 0 3 124 v r.
Proof.
  intros Hv Hr. unfold healthUpdate.
  rewrite (vibrationPenaltyOf_safe v Hv).
  cbn [Z.ltb Z.compare Pos.compare Pos.compare_cont].
  change (Qabs 0) with 0.
  change (inject_Z 3 / inject_Z (Z.max 1 124)) with (3 # 124).
  minmax; lra.
Qed.

(** *** The invariant *)

Lemma tracked_mounted (now : Z) : tracked (mounted now).
Proof.
  constructor; unfold heated, position; cbn.
  - lia.
  - lia.
  - discriminate.
  - split; [discriminate | split; discriminate].
  - intros H; lia.
  - intros H; lia.
  - intros [H|H]; lia.
  - intros [H|H]; lia.
  - intros _. repeat split; try reflexivity. intros H; lia.
Qed.

Lemma tracked_toggle (b : bool) (st : State) :
  tracked st -> tracked (setIsRunning b st).
Proof.
  intros [Hpt Htc Htemp Hp Htd Hpd Htdh Hpdh Hfresh].
  constructor; try assumption.
  intros Hh. destruct (Hfresh Hh) as (H1 & H2 & H3 & H4 & H5 & H6).
  assert (Htc' : totalCycles st = 124%Z).
  { unfold heated in Hh. change (totalCycles (setIsRunning b st)) with (totalCycles st) in Hh. lia. }
  repeat split; try assumption.
  - change (seenRejectCount (setIsRunning b st))
      with (if b && negb (isRunning st) then rejectCount st else seenRejectCount st).
    destruct (b && negb (isRunning st)); assumption.
  - change (seenTotalCycles (setIsRunning b st))
      with (if b && negb (isRunning st) then totalCycles st else seenTotalCycles st).
    destruct (b && negb (isRunning st)); assumption.
Qed.

Lemma tick_tracked (st : State) (env : Env) :
  tracked st -> fair env -> tracked (tick st env).
Proof.
  intros [Hpt Htc Htemp Hp Htd Hpd Htdh Hpdh Hfresh] Hfair.
  destruct Hfair as (_ & HrT & HrP & _ & HrL & _ & HrV & _ & _ & _ & _ & _ & HrH).
  destruct (position_tick st env Hpt) as [Hpt' Hpos].
  pose proof (position_range st Hpt) as Hn.
  pose proof (completes_position st Hpt) as Hcomp.
  assert (Htc' : totalCycles (tick st env)
                 = (totalCycles st + if (position st =? 44)%Z then 1 else 0)%Z).
  { rewrite Properties.tick_totalCycles, Hcomp. reflexivity. }
  pose proof (vulcanizing_position st Hpt) as Hvul.
  pose proof (pressing_position st Hpt) as Hpress.
  assert (Hhot : currentTemp st <= 144.8).
  { apply Qle_trans with (snd (hottest (Z.to_nat (position st)))); [exact Htemp|].
    apply hottest_bounds. lia. }
  unfold heated in *.
  constructor.
  - exact Hpt'.
  - destruct (position st =? 44)%Z; lia.
  - apply temperature_tracked; assumption.
  - apply pressure_tracked; assumption.
  - rewrite Hpos. intros Hr.
    destruct (Z.eqb_spec (position st) 44) as [H44|H44]; [lia|].
    rewrite tick_tempDeviation. unfold tempDevOf.
    rewrite (proj2 Hvul) by lia. reflexivity.
  - rewrite Hpos. intros Hr.
    destruct (Z.eqb_spec (position st) 44) as [H44|H44]; [lia|].
    rewrite tick_pressureDeviation. unfold pressureDevOf.
    rewrite (proj2 Hpress) by lia. reflexivity.
  - unfold heated. rewrite Htc', Hpos. intros Hh Hout.
    assert (Hnv : vulcanizing (machineState st) = false).
    { apply (not_vulcanizing st Hpt).
      destruct (Z.eqb_spec (position st) 44); lia. }
    rewrite tick_tempDeviation, Hnv.
    destruct (Z.eq_dec (position st) 33) as [H33|H33].
    + rewrite Htd by lia. unfold TARGET_TEMP. divisions. lra.
    + apply Htdh; destruct (Z.eqb_spec (position st) 44); lia.
  - unfold heated. rewrite Htc', Hpos. intros Hh Hout.
    assert (Hnp : Phase_eqb (machineState st) PRESSING = false).
    { apply (not_pressing st Hpt).
      destruct (Z.eqb_spec (position st) 44); lia. }
    rewrite tick_pressureDeviation, Hnp.
    destruct (Z.eq_dec (position st) 33) as [H33|H33].
    + rewrite Hpd by lia.
      assert (Hend : 235 <= currentPressure st).
      { apply Qle_trans with (pumpedTo (position st)); [|apply Hp].
        rewrite H33. apply pumpedTo_end. }
      unfold TARGET_PRESSURE. divisions. lra.
    + apply Hpdh; destruct (Z.eqb_spec (position st) 44); lia.
  - unfold heated. rewrite Htc', Hpos. intros Hh.
    assert (H44 : position st <> 44%Z).
    { intros E. rewrite E in Hh. cbn in Hh. lia. }
    destruct (Z.eqb_spec (position st) 44) as [E|_]; [contradiction|].
    assert (Hfr : ~ ((124 < totalCycles st)%Z \/ (8 < position st)%Z)) by lia.
    destruct (Hfresh Hfr) as (H1 & H2 & H3 & H4 & H5 & _).
    assert (Hnv : vulcanizing (machineState st) = false)
      by (apply (not_vulcanizing st Hpt); lia).
    destruct (not_pressing st Hpt ltac:(lia)) as [Hnpb Hnp].
    destruct (quiet_rejects (machineState st) (currentTemp (tick st env))
                (currentPressure (tick st env)) env Hnv) as (R1 & R2 & R3).
    destruct (quiet_vibration (machineState st) env Hnp HrV) as (_ & Hv).
    split; [rewrite tick_tempDeviation, Hnv; exact H1|].
    split; [rewrite tick_pressureDeviation, Hnpb; exact H2|].
    split; [rewrite Properties.tick_rejectCount, R1, R2, R3; lia|].
    split; [exact H4|]. split; [exact H5|].
    intros _. rewrite tick_healthIndex.
    rewrite H4, H5. unfold tempDevOf, pressureDevOf. rewrite Hnv, Hnpb.
    apply healthUpdate_fresh; [lra | apply HrH].
Qed.

Lemma operated_tracked (st : State) : operated st -> tracked st.
Proof.
  induction 1 as [now | st env _ IH _ Hfair | st b _ IH].
  - apply tracked_mounted.
  - apply tick_tracked; assumption.
  - apply tracked_toggle; assumption.
Qed.

Lemma operated_reachable (st : State) : operated st -> reachable st.
Proof.
  induction 1 as [now | st env _ IH Hrun _ | st b _ IH].
  - apply reach_mounted.
  - apply reach_tick; assumption.
  - apply reach_toggle; assumption.
Qed.

Lemma operated_run (st : State) (envs : list Env) :
  operated st -> isRunning st = true -> Forall fair envs ->
  operated (run st envs).
Proof.
  revert st. induction envs as [|env envs IH]; intros st Hst Hrun Hf; [exact Hst|].
  inversion Hf as [|? ? Hfe Hfs]; subst. simpl. apply IH.
  - apply op_tick; assumption.
  - exact Hrun.
  - exact Hfs.
Qed.

(** *** What the envelopes rule out *)

Lemma pumpedTo_pressing (n : Z) : (24 <= n <= 33)%Z -> 208 <= pumpedTo n.
Proof.
  intros Hn. unfold pumpedTo.
  replace ((5 <=? n)%Z && (n <=? 33)%Z) with true
    by (symmetry; apply andb_true_intro; split; apply Z.leb_le; lia).
  assert (H : 19 <= inject_Z (n - 5)).
  { change 19 with (inject_Z 19). rewrite <- Zle_Qle. lia. }
  revert H. generalize (inject_Z (n - 5)). intros x Hx.
  minmax; lra.
Qed.

(** X7. On fair draws the mould never comes near its setpoint: the
    temperature stays at or below 144.8 degrees, under the 148.5 degrees
    where the tolerance band around 165 begins. So every tick in HEATING
    raises the critical "Temperature Low" alert, and every tick in
    PRESSING raises a temperature alert of one kind or the other. *)
Theorem temperature_short_of_target (st : State) (env : Env)
  (Hst : operated st) (Hfair : fair env) :
  let temp' := currentTemp (tick st env) in
  currentTemp st <= 144.8 /\
  (machineState st = HEATING ->
   tempOffer HEATING temp'
   = Some (temperatureLow temp' (tempDevOf HEATING temp'), critical)) /\
  (machineState st = PRESSING ->
   exists (m : string) (ty : AlertType), tempOffer PRESSING temp' = Some (m, ty)).
Proof.
  intros temp'.
  pose proof (operated_tracked st Hst) as Ht.
  pose proof (tick_tracked st env Ht Hfair) as Ht'.
  destruct Ht as [Hpt _ Htemp _ _ _ _ _ _].
  destruct Ht' as [Hpt' _ Htemp' _ _ _ _ _ _].
  pose proof (position_range st Hpt) as Hn.
  pose proof (position_range _ Hpt') as Hn'.
  destruct (position_tick st env Hpt) as [_ Hpos].
  fold temp' in Htemp'.
  assert (Hcap : temp' <= 144.8).
  { apply Qle_trans with (snd (hottest (Z.to_nat (position (tick st env)))));
      [exact Htemp'|].
    apply hottest_bounds. lia. }
  split; [|split].
  - apply Qle_trans with (snd (hottest (Z.to_nat (position st)))); [exact Htemp|].
    apply hottest_bounds. lia.
  - intros Hms.
    assert (Hlow : temp' <= 131.9).
    { apply Qle_trans with (snd (hottest (Z.to_nat (position (tick st env)))));
        [exact Htemp'|].
      apply hottest_bounds; [lia|].
      rewrite Hpos. unfold position, elapsed in *. rewrite Hms in *.
      cbn [duration] in Hpt.
      destruct (Z.eqb_spec (8 + phaseTime st) 44); lia. }
    unfold tempOffer, tempDevOf. cbn [vulcanizing].
    unfold TEMP_TOLERANCE, TEMP_WARNING_THRESHOLD, TARGET_TEMP.
    rewrite (proj2 (JsFacts.gtb_gt _ _))
      by (apply Qabs_beyond; right; divisions; lra).
    rewrite (proj2 (JsFacts.ltb_lt _ _)) by lra.
    reflexivity.
  - intros _. unfold tempOffer, tempDevOf. cbn [vulcanizing].
    unfold TEMP_TOLERANCE, TARGET_TEMP.
    rewrite (proj2 (JsFacts.gtb_gt _ _))
      by (apply Qabs_beyond; right; divisions; lra).
    destruct (Js.ltb temp' TEMP_WARNING_THRESHOLD); eexists; eexists; reflexivity.
Qed.

Lemma fair_steady (draw : Q) (now : Z) : random draw -> fair (steady draw now).
Proof.
  intros H. repeat split; apply H.
Qed.

Lemma calmTicks_fair (n : nat) : Forall fair (calmTicks n).
Proof.
  apply Forall_forall. intros env Hin. unfold calmTicks in Hin.
  apply in_map_iff in Hin. destruct Hin as (k & <- & _).
  apply fair_steady. split; [discriminate | reflexivity].
Qed.

Lemma operated_calm (n : nat) : operated (run (mounted 0) (calmTicks n)).
Proof.
  apply operated_run; [apply op_mounted | reflexivity | apply calmTicks_fair].
Qed.

Lemma temperature_short_of_target_witness :
  operated (run (mounted 0) (calmTicks 10)) /\
  fair (calm 11) /\
  currentTemp (run (mounted 0) (calmTicks 10)) <= 144.8 /\
  exists m : string,
    tempOffer HEATING (currentTemp (tick (run (mounted 0) (calmTicks 10)) (calm 11)))
    = Some (m, critical).
Proof.
  assert (Hop : operated (run (mounted 0) (calmTicks 10))) by apply operated_calm.
  assert (Hf : fair (calm 11))
    by (apply fair_steady; split; [discriminate | reflexivity]).
  split; [exact Hop|]. split; [exact Hf|].
  destruct (temperature_short_of_target _ (calm 11) Hop Hf) as (H1 & H2 & _).
  split; [exact H1|].
  eexists. apply H2. reflexivity.
Defined.

(** X8. On fair draws the "Pressure Loss" alert is dead code. The pump
    has run for at least 18 ticks before PRESSING begins, so every
    pressure read in PRESSING is at least 208 bar: more than 15 % above
    the 180 bar target, never below the 162 bar that the alert asks for.
    No tick offers the alert and no tick counts a pressure reject. *)
Theorem pressure_loss_never_alarms (st : State) (env : Env)
  (Hst : operated st) (Hfair : fair env) :
  let pressure' := currentPressure (tick st env) in
  pressureOffer (machineState st) pressure' = None /\
  pressureRejects (machineState st) pressure' env = 0%Z /\
  (machineState st = PRESSING ->
   208 <= pressure' /\ 15 < pressureDevOf PRESSING pressure').
Proof.
  intros pressure'.
  pose proof (operated_tracked st Hst) as Ht.
  pose proof (tick_tracked st env Ht Hfair) as Ht'.
  destruct Ht as [Hpt _ _ _ _ _ _ _ _].
  destruct Ht' as [Hpt' _ _ [Hplo' _] _ _ _ _ _].
  destruct (position_tick st env Hpt) as [_ Hpos].
  fold pressure' in Hplo'.
  assert (Hhigh : machineState st = PRESSING -> 208 <= pressure').
  { intros Hms. apply Qle_trans with (pumpedTo (position (tick st env)));
      [|exact Hplo'].
    apply pumpedTo_pressing. rewrite Hpos.
    apply (pressing_position st Hpt) in Hms.
    destruct (Z.eqb_spec (position st) 44); lia. }
  assert (Hquiet : pressureAlarm (machineState st) pressure' = false).
  { unfold pressureAlarm.
    destruct (Phase_eqb (machineState st) PRESSING) eqn:E; [|reflexivity].
    apply Properties.Phase_eqb_eq in E. specialize (Hhigh E).
    unfold TARGET_PRESSURE.
    rewrite (proj2 (JsFacts.ltb_ge pressure' (180 * 0.9))) by lra.
    rewrite andb_false_r. reflexivity. }
  unfold pressureOffer, pressureRejects. rewrite Hquiet.
  split; [reflexivity|]. split; [reflexivity|].
  intros Hms. specialize (Hhigh Hms). split; [exact Hhigh|].
  unfold pressureDevOf, TARGET_PRESSURE. cbn [Phase_eqb]. divisions. lra.
Qed.

Lemma pressure_loss_never_alarms_witness :
  operated (run (mounted 0) (calmTicks 23)) /\
  fair (calm 24) /\
  pressureOffer PRESSING
    (currentPressure (tick (run (mounted 0) (calmTicks 23)) (calm 24))) = None /\
  208 <= currentPressure (tick (run (mounted 0) (calmTicks 23)) (calm 24)).
Proof.
  assert (Hop : operated (run (mounted 0) (calmTicks 23))) by apply operated_calm.
  assert (Hf : fair (calm 24))
    by (apply fair_steady; split; [discriminate | reflexivity]).
  split; [exact Hop|]. split; [exact Hf|].
  destruct (pressure_loss_never_alarms _ (calm 24) Hop Hf) as (H1 & _ & H3).
  split; [exact H1 | exact (proj1 (H3 eq_refl))].
Defined.

(** *** One tick of the process model *)

Lemma vibrationOf_range (ms : Phase) (env : Env) :
  random (rndVibration env) -> random (rndCriticalVibration env) ->
  random (rndWarningVibration env) ->
  match snd (vibrationOf ms env) with
  | None => 2 <= fst (vibrationOf ms env) < 4
  | Some warning => ms = PRESSING /\ 4.5 <= fst (vibrationOf ms env) < 5.5
  | Some critical => ms = PRESSING /\ 6 <= fst (vibrationOf ms env) < 10
  | Some info => False
  end.
Proof.
  intros [Hb0 Hb1] [Hc0 Hc1] [Hw0 Hw1].
  assert (Hquiet : 2 <= 2 + rndVibration env * 2 < 4) by lra.
  unfold vibrationOf.
  destruct ms; cbn [Phase_eqb fst snd]; try exact Hquiet.
  destruct (Js.gtb (rndCriticalGate env) 0.92); cbn [fst snd].
  - split; [reflexivity | lra].
  - destruct (Js.gtb (rndWarningGate env) 0.88); cbn [fst snd]; [|exact Hquiet].
    split; [reflexivity | lra].
Qed.

(** X9. The vibration reading lies in a band fixed by its tier. Without
    a tier it is in [2, 4) and costs the health index the minimal
    penalty of 5. A warning reading is in [4.5, 5.5) and a critical one
    in [6, 10), both possible only in PRESSING; the health index, whose
    steps are at 4, 5 and 8 mm/s, takes 20 or 40 for a warning reading
    and 40 or 80 for a critical one. *)
Theorem vibration_bands (ms : Phase) (env : Env)
  (Hbase : random (rndVibration env))
  (Hcritical : random (rndCriticalVibration env))
  (Hwarning : random (rndWarningVibration env)) :
  let vibration := fst (vibrationOf ms env) in
  match snd (vibrationOf ms env) with
  | None => 2 <= vibration < 4 /\ vibrationPenaltyOf vibration = 5
  | Some warning =>
      ms = PRESSING /\ 4.5 <= vibration < 5.5 /\
      (vibrationPenaltyOf vibration = 20 \/ vibrationPenaltyOf vibration = 40)
  | Some critical =>
      ms = PRESSING /\ 6 <= vibration < 10 /\
      (vibrationPenaltyOf vibration = 40 \/ vibrationPenaltyOf vibration = 80)
  | Some info => False
  end.
Proof.
  intros vibration.
  pose proof (vibrationOf_range ms env Hbase Hcritical Hwarning) as Hr.
  fold vibration in Hr. revert Hr. generalize vibration. intros v.
  unfold vibrationPenaltyOf, VIBRATION_CRITICAL, VIBRATION_WARNING, VIBRATION_SAFE.
  destruct (snd (vibrationOf ms env)) as [[| |]|]; [| | trivial |].
  - intros (Hms & Hv). split; [exact Hms|]. split; [exact Hv|].
    destruct (Js.gtb v 8); [right; reflexivity|].
    rewrite (proj2 (JsFacts.gtb_gt v 5)) by lra. left; reflexivity.
  - intros (Hms & Hv). split; [exact Hms|]. split; [exact Hv|].
    rewrite (proj2 (JsFacts.gtb_le v 8)) by lra.
    destruct (Js.gtb v 5); [right; reflexivity|].
    rewrite (proj2 (JsFacts.gtb_gt v 4)) by lra. left; reflexivity.
  - intros Hv. split; [exact Hv|].
    rewrite (proj2 (JsFacts.gtb_le v 8)) by lra.
    rewrite (proj2 (JsFacts.gtb_le v 5)) by lra.
    rewrite (proj2 (JsFacts.gtb_le v 4)) by lra.
    reflexivity.
Qed.

Lemma vibration_bands_witness :
  random (rndVibration (eventful 1)) /\
  4.5 <= fst (vibrationOf PRESSING (eventful 1)) < 5.5 /\
  vibrationPenaltyOf (fst (vibrationOf PRESSING (eventful 1))) = 40.
Proof.
  assert (H : random 0.9) by (split; [discriminate | reflexivity]).
  split; [exact H|].
  pose proof (vibration_bands PRESSING (eventful 1) H H H) as Hb.
  split; [exact (proj1 (proj2 Hb)) | reflexivity].
Defined.

(** X10. A reject is never counted without a critical alert. A tick adds
    between 0 and 3 to the reject counter; outside HEATING and PRESSING
    it adds nothing and leaves the alert store alone; in HEATING it adds
    at most 1; and whenever the counter grows, the tick has offered a
    critical alert to the Alert Manager. *)
Theorem rejects_follow_critical_alerts (st : State) (env : Env) :
  let st' := tick st env in
  let ms := machineState st in
  (rejectCount st <= rejectCount st' <= rejectCount st + 3)%Z /\
  (vulcanizing ms = false ->
   rejectCount st' = rejectCount st /\ alertStore st' = alertStore st) /\
  (ms = HEATING -> (rejectCount st' <= rejectCount st + 1)%Z) /\
  ((rejectCount st < rejectCount st')%Z ->
   exists m : string,
     tempOffer ms (currentTemp st') = Some (m, critical) \/
     pressureOffer ms (currentPressure st') = Some (m, critical) \/
     vibrationOffer ms env = Some (m, critical)).
Proof.
  intros st' ms.
  pose proof (Properties.tick_rejectCount st env) as Hr.
  fold st' ms in Hr.
  assert (Ht : (0 <= tempRejects ms (currentTemp st') env <= 1)%Z).
  { unfold tempRejects.
    destruct (vulcanizing ms && _ && _); [|lia].
    destruct (Js.gtb (rndTempReject env) 0.8); lia. }
  assert (Hp : (0 <= pressureRejects ms (currentPressure st') env <= 1)%Z).
  { unfold pressureRejects.
    destruct (pressureAlarm ms (currentPressure st')); [|lia].
    destruct (Js.gtb (rndPressureReject env) 0.7); lia. }
  assert (Hv : (0 <= vibrationRejects ms env <= 1)%Z).
  { unfold vibrationRejects.
    destruct (snd (vibrationOf ms env)) as [[| |]|]; try lia.
    destruct (Js.gtb (rndVibrationReject env) 0.6); lia. }
  split; [lia|]. split; [|split].
  - intros Hq.
    destruct (quiet_rejects ms (currentTemp st') (currentPressure st') env Hq)
      as (R1 & R2 & R3).
    split; [lia|].
    unfold st'. rewrite Properties.tick_alertStore. fold st' ms.
    destruct ms; try discriminate; reflexivity.
  - intros Hms. rewrite Hms in *.
    assert (pressureRejects HEATING (currentPressure st') env = 0%Z) by reflexivity.
    assert (vibrationRejects HEATING env = 0%Z) by reflexivity.
    lia.
  - intros Hgrow.
    assert (Hone : (0 < tempRejects ms (currentTemp st') env
                    \/ 0 < pressureRejects ms (currentPressure st') env
                    \/ 0 < vibrationRejects ms env)%Z) by lia.
    destruct Hone as [H|[H|H]].
    + unfold tempRejects in H. unfold tempOffer.
      destruct (vulcanizing ms); cbn [andb] in H; [|lia].
      destruct (Js.gtb (Qabs (tempDevOf ms (currentTemp st'))) TEMP_TOLERANCE);
        cbn [andb] in H; [|lia].
      destruct (Js.ltb (currentTemp st') TEMP_WARNING_THRESHOLD); [|lia].
      eexists. left. reflexivity.
    + unfold pressureRejects in H. unfold pressureOffer.
      destruct (pressureAlarm ms (currentPressure st')); [|lia].
      eexists. right. left. reflexivity.
    + unfold vibrationRejects in H. unfold vibrationOffer.
      destruct (vibrationOf ms env) as [v [[| |]|]]; cbn [snd] in H; try lia.
      eexists. right. right. reflexivity.
Qed.

(** X11. The sensor reading stays within 0.4 degrees of the model
    prediction plotted beside it, and both stay inside the physical
    range of the mould, whatever the state the tick starts from. *)
Theorem reading_follows_prediction (st : State) (env : Env)
  (Hnoise : random (rndTempNoise env)) :
  let predicted := predictedT (machineState st) (currentTemp st) in
  Qabs (currentTemp (tick st env) - predicted) <= 0.4 /\
  BRAKE_PAD_TEMP_MIN <= predicted <= BRAKE_PAD_TEMP_MAX /\
  Sample.predictedTemp (sampleOf st env) = Js.fixed predicted 1.
Proof.
  intros predicted. destruct Hnoise as [H0 H1].
  assert (Hp : BRAKE_PAD_TEMP_MIN <= predicted <= BRAKE_PAD_TEMP_MAX)
    by (apply clamp_bounds; discriminate).
  split; [|split; [exact Hp | reflexivity]].
  rewrite tick_currentTemp. unfold nextTemp. fold predicted.
  unfold BRAKE_PAD_TEMP_MIN, BRAKE_PAD_TEMP_MAX in *.
  revert Hp. generalize predicted. intros p Hp.
  unfold clamp. apply Qabs_within. minmax; lra.
Qed.

Lemma reading_follows_prediction_witness :
  random (rndTempNoise (eventful 1)) /\
  Qabs (currentTemp (tick (mounted 0) (eventful 1))
        - predictedT IDLE (currentTemp (mounted 0))) <= 0.4.
Proof.
  assert (H : random (rndTempNoise (eventful 1)))
    by (split; [discriminate | reflexivity]).
  split; [exact H|].
  exact (proj1 (reading_follows_prediction (mounted 0) (eventful 1) H)).
Defined.

(** X12. Inside the physical range the predicted temperature is a plain
    first-order relaxation: the clamp is idle, and the gap to the target
    of the phase shrinks by the factor 25/26 (HEATING, PRESSING) or 17/18
    (other phases) per tick. The prediction moves towards the target and
    neither reaches nor overshoots it. *)
Theorem prediction_relaxes (ms : Phase) (temp : Q)
  (Hrange : BRAKE_PAD_TEMP_MIN <= temp <= BRAKE_PAD_TEMP_MAX) :
  let target := tempTargetByState ms in
  let keep := if vulcanizing ms then 25 # 26 else 17 # 18 in
  target - predictedT ms temp == keep * (target - temp) /\
  (temp <= target -> temp <= predictedT ms temp <= target) /\
  (target <= temp -> target <= predictedT ms temp <= temp).
Proof.
  intros target keep. unfold target, keep.
  unfold BRAKE_PAD_TEMP_MIN, BRAKE_PAD_TEMP_MAX in Hrange.
  unfold predictedT, clamp, dt, BRAKE_PAD_TEMP_MIN, BRAKE_PAD_TEMP_MAX.
  destruct ms; cbn [vulcanizing tempTargetByState]; unfold TARGET_TEMP;
    divisions; minmax; repeat split; intros; lra.
Qed.

Lemma prediction_relaxes_witness :
  BRAKE_PAD_TEMP_MIN <= 139 <= BRAKE_PAD_TEMP_MAX /\
  TARGET_TEMP - predictedT HEATING 139 == (25 # 26) * (TARGET_TEMP - 139).
Proof.
  assert (H : BRAKE_PAD_TEMP_MIN <= 139 <= BRAKE_PAD_TEMP_MAX)
    by (split; discriminate).
  split; [exact H|].
  exact (proj1 (prediction_relaxes HEATING 139 H)).
Defined.

(** X13. The hydraulic circuit has no resting point inside its range.
    With the pump on (CLOSING, HEATING, PRESSING) a tick raises the
    pressure by at least 4 bar or up to the 260 bar cap: the relief valve
    that opens at 235 bar cannot hold it. With the pump off a tick lowers
    it by at least 6.2 bar or down to 0. *)
Theorem pressure_has_no_rest (ms : Phase) (pressure : Q) (env : Env)
  (Hnoise : random (rndPressureNoise env)) (Hleak : random (rndLeak env))
  (Hrange : BRAKE_PAD_PRESSURE_MIN <= pressure <= BRAKE_PAD_PRESSURE_MAX) :
  match ms with
  | CLOSING | HEATING | PRESSING =>
      Qmin BRAKE_PAD_PRESSURE_MAX (pressure + 4) <= nextPressure ms pressure env
  | IDLE | COOLING | OPENING =>
      nextPressure ms pressure env <= Qmax BRAKE_PAD_PRESSURE_MIN (pressure - 6.2)
  end.
Proof.
  destruct Hnoise as [Hn0 Hn1], Hleak as [Hl0 Hl1].
  unfold BRAKE_PAD_PRESSURE_MIN, BRAKE_PAD_PRESSURE_MAX in *.
  destruct Hrange as [Hp0 Hp1].
  unfold nextPressure, clamp, dt, BRAKE_PAD_PRESSURE_MIN, BRAKE_PAD_PRESSURE_MAX.
  destruct ms; cbn [Phase_eqb]; divisions; minmax; lra.
Qed.

Lemma pressure_has_no_rest_witness :
  random (rndPressureNoise (calm 1)) /\ random (rndLeak (calm 1)) /\
  BRAKE_PAD_PRESSURE_MIN <= 240 <= BRAKE_PAD_PRESSURE_MAX /\
  244 <= nextPressure PRESSING 240 (calm 1).
Proof.
  assert (H : random 0.5) by (split; [discriminate | reflexivity]).
  assert (Hr : BRAKE_PAD_PRESSURE_MIN <= 240 <= BRAKE_PAD_PRESSURE_MAX)
    by (split; discriminate).
  split; [exact H|]. split; [exact H|]. split; [exact Hr|].
  exact (pressure_has_no_rest PRESSING 240 (calm 1) H H Hr).
Defined.

(** *** Periodicity *)

Lemma run_position (envs : list Env) (st : State) :
  (0 <= phaseTime st < duration (machineState st))%Z ->
  (0 <= phaseTime (run st envs) < duration (machineState (run st envs)))%Z /\
  position (run st envs)
  = ((position st + Z.of_nat (List.length envs)) mod 45)%Z /\
  totalCycles (run st envs)
  = (totalCycles st + (position st + Z.of_nat (List.length envs)) / 45)%Z.
Proof.
  revert st. induction envs as [|env envs IH]; intros st Hpt.
  - pose proof (position_range st Hpt) as Hn. cbn [run fold_left List.length].
    split; [exact Hpt|].
    rewrite Z.add_0_r, Z.mod_small, Z.div_small by lia. split; lia.
  - destruct (position_tick st env Hpt) as [Hpt' Hpos].
    pose proof (position_range st Hpt) as Hn.
    pose proof (completes_position st Hpt) as Hcomp.
    assert (Htc : totalCycles (tick st env)
                  = (totalCycles st + if (position st =? 44)%Z then 1 else 0)%Z).
    { rewrite Properties.tick_totalCycles, Hcomp. reflexivity. }
    destruct (IH (tick st env) Hpt') as (H1 & H2 & H3).
    change (run st (env :: envs)) with (run (tick st env) envs).
    split; [exact H1|].
    rewrite H2, H3, Hpos, Htc.
    replace (Z.of_nat (List.length (env :: envs)))
      with (Z.of_nat (List.length envs) + 1)%Z by (cbn [List.length]; lia).
    generalize (Z.of_nat (List.length envs)) (Nat2Z.is_nonneg (List.length envs)).
    intros k Hk.
    destruct (Z.eqb_spec (position st) 44) as [E|E].
    + rewrite E. replace (44 + (k + 1))%Z with (k + 1 * 45)%Z by lia.
      rewrite Z.mod_add, Z.div_add by lia.
      rewrite Z.add_0_l. split; [reflexivity | lia].
    + replace (position st + 1 + k)%Z with (position st + (k + 1))%Z by lia.
      split; [reflexivity | lia].
Qed.

(** X14. The phase machine is periodic with period 45. After [n] ticks
    from the mount the phase clock is inside its phase, the dashboard
    stands [n mod 45] ticks into the cycle, and [n / 45] cycles have been
    added to the 124 of the mount. *)
Theorem cycle_position (now : Z) (envs : list Env) :
  let st := run (mounted now) envs in
  let n := Z.of_nat (List.length envs) in
  (0 <= phaseTime st < duration (machineState st))%Z /\
  elapsed (machineState st) (phaseTime st) = (n mod 45)%Z /\
  totalCycles st = (124 + n / 45)%Z.
Proof.
  intros st n.
  assert (H0 : (0 <= phaseTime (mounted now) < duration (machineState (mounted now)))%Z)
    by (cbn; lia).
  destruct (run_position envs (mounted now) H0) as (H1 & H2 & H3).
  split; [exact H1|]. split; [exact H2 | exact H3].
Qed.

(** *** Health index *)

(** X15. The health index has no memory. After a tick outside HEATING
    and PRESSING in a reachable state it is 99.5 minus a fifth of the
    reject penalty, give or take half a point, whatever the readings and
    the health index were before: at least 79, so the health rule of
    the status badge cannot be what keeps the badge at "Critical" in
    those phases. *)
Theorem health_forgets_outside_vulcanization (st : State) (env : Env)
  (Hst : reachable st) (Hquiet : vulcanizing (machineState st) = false)
  (Hvibration : random (rndVibration env)) (Hhealth : random (rndHealth env)) :
  let penalty :=
    Qmin (inject_Z (seenRejectCount st)
          / inject_Z (Z.max 1 (seenTotalCycles st)) * 150) 100 in
  healthIndex (tick st env) == 99.5 - 0.2 * penalty + (rndHealth env - 0.5) /\
  79 <= healthIndex (tick st env).
Proof.
  intros penalty.
  destruct (Properties.reachable_countersSane st Hst) as [_ Hseen].
  destruct Hhealth as [Hh0 Hh1].
  assert (Hnp : machineState st <> PRESSING)
    by (intros E; rewrite E in Hquiet; discriminate).
  destruct (quiet_vibration (machineState st) env Hnp Hvibration) as (_ & Hv).
  rewrite tick_healthIndex.
  rewrite (Properties.healthUpdate_formula _ _ _ _ _ _ Hseen).
  unfold weightedPenalty. fold penalty.
  assert (Hstep : vibrationStep (fst (vibrationOf (machineState st) env)) = 5).
  { rewrite <- Properties.vibrationPenaltyOf_step.
    apply vibrationPenaltyOf_safe. lra. }
  rewrite Hstep.
  assert (Ht : tempDevOf (machineState st) (currentTemp (tick st env)) = 0)
    by (unfold tempDevOf; rewrite Hquiet; reflexivity).
  assert (Hp : pressureDevOf (machineState st) (currentPressure (tick st env)) = 0).
  { unfold pressureDevOf.
    destruct (machineState st); try reflexivity; contradiction. }
  rewrite Ht, Hp. change (Qabs 0) with 0.
  assert (Hpen : 0 <= penalty <= 100).
  { apply Properties.capped_bounds. apply Properties.rejectRate_nonneg. exact Hseen. }
  revert Hpen. generalize penalty. intros q Hq.
  split; minmax; lra.
Qed.

Lemma health_forgets_outside_vulcanization_witness :
  reachable (run (mounted 0) (calmTicks 33)) /\
  vulcanizing (machineState (run (mounted 0) (calmTicks 33))) = false /\
  79 <= healthIndex (tick (run (mounted 0) (calmTicks 33)) (calm 34)).
Proof.
  assert (Hr : reachable (run (mounted 0) (calmTicks 33))).
  { apply Properties.reachable_run; [apply reach_mounted | reflexivity]. }
  assert (Hq : vulcanizing (machineState (run (mounted 0) (calmTicks 33))) = false)
    by (vm_compute; reflexivity).
  assert (H : random 0.5) by (split; [discriminate | reflexivity]).
  split; [exact Hr|]. split; [exact Hq|].
  exact (proj2 (health_forgets_outside_vulcanization _ (calm 34) Hr Hq H H)).
Defined.

End ProcessFacts.

(** ** What the operator is shown *)

Module ReadoutFacts.

Import Dashboard Behaviour Operation Readouts StoreFacts ProcessFacts.
Local Open Scope Q_scope.

(** *** The status badge *)

Lemma status_critical (st : State) :
  isRunning st = true -> machineState st <> IDLE ->
  (healthIndex st < 60 \/ 20 < Qabs (tempDeviation st)
   \/ 20 < Qabs (pressureDeviation st)) ->
  getMachineStatus st = mkStatus "Critical" "red".
Proof.
  intros Hrun Hidle Hc. unfold getMachineStatus. rewrite Hrun. cbn [negb].
  assert (Hi : Phase_eqb (machineState st) IDLE = false).
  { destruct (Phase_eqb (machineState st) IDLE) eqn:E; [|reflexivity].
    apply Properties.Phase_eqb_eq in E. contradiction. }
  rewrite Hi.
  assert (Hb : Js.ltb (healthIndex st) 60
               || Js.gtb (Qabs (tempDeviation st)) (TEMP_TOLERANCE * 2)
               || Js.gtb (Qabs (pressureDeviation st)) (PRESSURE_TOLERANCE * 2)
               = true).
  { unfold TEMP_TOLERANCE, PRESSURE_TOLERANCE.
    destruct Hc as [Hc|[Hc|Hc]].
    - rewrite (proj2 (JsFacts.ltb_lt _ _) Hc). reflexivity.
    - rewrite (proj2 (JsFacts.gtb_gt (Qabs (tempDeviation st)) (10 * 2)))
        by (apply Qle_lt_trans with 20; [discriminate | exact Hc]).
      rewrite orb_true_r. reflexivity.
    - rewrite (proj2 (JsFacts.gtb_gt (Qabs (pressureDeviation st)) (10 * 2)))
        by (apply Qle_lt_trans with 20; [discriminate | exact Hc]).
      apply orb_true_r. }
  rewrite Hb. reflexivity.
Qed.

(** X16. Once the first HEATING tick since the mount has run, the status
    badge of a running dashboard shows "Critical" in every phase but
    IDLE, whatever the draws: the temperature deviation cell is below -20 %
    until the second PRESSING tick, and from then on the pressure
    deviation cell is above +20 %, stale values included. *)
Theorem status_stuck_at_critical (st : State)
  (Hst : operated st) (Hrun : isRunning st = true)
  (Hidle : machineState st <> IDLE) (Hheated : heated st) :
  getMachineStatus st = mkStatus "Critical" "red".
Proof.
  destruct (operated_tracked st Hst)
    as [Hpt Htc Htemp [Hplo Hp] Htd Hpd Htdh Hpdh Hfresh].
  pose proof (position_range st Hpt) as Hn.
  apply status_critical; [exact Hrun | exact Hidle | right].
  destruct (Z_le_gt_dec 9 (position st)) as [H9|H9];
    [destruct (Z_le_gt_dec (position st) 33) as [H33|H33]|].
  - destruct (Z_le_gt_dec (position st) 24) as [H24|H24].
    + left. apply Qabs_beyond. right. rewrite Htd by lia.
      assert (Hh : currentTemp st <= 131.9).
      { apply Qle_trans with (snd (hottest (Z.to_nat (position st))));
          [exact Htemp|].
        apply hottest_bounds; lia. }
      unfold TARGET_TEMP. divisions. lra.
    + right. apply Qabs_beyond. left. rewrite Hpd by lia.
      assert (Hl : 219 <= currentPressure st).
      { apply Qle_trans with (pumpedTo (position st)); [|exact Hplo].
        apply pumpedTo_pressed. lia. }
      unfold TARGET_PRESSURE. divisions. lra.
  - right. apply Qabs_beyond. left.
    apply Qlt_trans with 30; [reflexivity|]. apply Hpdh; [exact Hheated | lia].
  - right. apply Qabs_beyond. left.
    apply Qlt_trans with 30; [reflexivity|]. apply Hpdh; [exact Hheated | lia].
Qed.

Lemma status_stuck_at_critical_witness :
  operated (run (mounted 0) (calmTicks 40)) /\
  label (getMachineStatus (run (mounted 0) (calmTicks 40))) = "Critical"%string.
Proof.
  assert (Hop : operated (run (mounted 0) (calmTicks 40))) by apply operated_calm.
  split; [exact Hop|].
  rewrite (status_stuck_at_critical (run (mounted 0) (calmTicks 40)) Hop).
  - reflexivity.
  - reflexivity.
  - vm_compute. discriminate.
  - right. vm_compute. reflexivity.
Defined.

(** X17. Before the first HEATING tick the badge of a running dashboard
    follows the phase: "Idle" in IDLE, "Healthy" in CLOSING and "Heating
    Phase" in the state that enters HEATING. Together with the property
    above: "Warning" and "Degraded" are never shown, and "Healthy" and
    "Heating Phase" are never shown again after the first cycle has begun
    to heat. *)
Theorem status_before_heating (st : State)
  (Hst : operated st) (Hrun : isRunning st = true) (Hfresh : ~ heated st) :
  getMachineStatus st
  = match machineState st with
    | IDLE => mkStatus "Idle" "gray"
    | HEATING => mkStatus "Heating Phase" "blue"
    | _ => mkStatus "Healthy" "green"
    end.
Proof.
  destruct (operated_tracked st Hst)
    as [Hpt Htc Htemp [Hplo Hp] Htd Hpd Htdh Hpdh Hfr].
  destruct (Hfr Hfresh) as (H1 & H2 & _ & _ & _ & Hh).
  unfold heated in Hfresh.
  assert (Hn : (position st <= 8)%Z) by lia.
  unfold getMachineStatus. rewrite Hrun. cbn [negb].
  destruct (machineState st) eqn:Ems; cbn [Phase_eqb]; try reflexivity;
    unfold position, elapsed in Hn, Hh, Htemp; rewrite Ems in Hn, Hh, Htemp;
    cbn [duration] in Hpt; try lia.
  - (* CLOSING *)
    assert (Hhealth : 98 <= healthIndex st) by (apply Hh; lia).
    unfold TEMP_TOLERANCE, PRESSURE_TOLERANCE.
    rewrite !(proj2 (JsFacts.ltb_ge (healthIndex st) _)) by lra.
    rewrite !(proj2 (JsFacts.gtb_le (Qabs (tempDeviation st)) _))
      by (apply Qabs_within; lra).
    rewrite !(proj2 (JsFacts.gtb_le (Qabs (pressureDeviation st)) _))
      by (apply Qabs_within; lra).
    reflexivity.
  - (* HEATING, at phase time 0 *)
    assert (Hhealth : 98 <= healthIndex st) by (apply Hh; lia).
    assert (Hpt0 : phaseTime st = 0%Z) by lia.
    rewrite Hpt0 in Htemp.
    assert (Hcool : currentTemp st <= 131.9).
    { apply Qle_trans with (snd (hottest (Z.to_nat (8 + 0)))); [exact Htemp|].
      apply hottest_bounds; vm_compute; lia. }
    unfold TEMP_TOLERANCE, PRESSURE_TOLERANCE, TEMP_WARNING_THRESHOLD, TARGET_TEMP.
    rewrite !(proj2 (JsFacts.ltb_ge (healthIndex st) _)) by lra.
    rewrite !(proj2 (JsFacts.gtb_le (Qabs (tempDeviation st)) _))
      by (apply Qabs_within; lra).
    rewrite !(proj2 (JsFacts.gtb_le (Qabs (pressureDeviation st)) _))
      by (apply Qabs_within; lra).
    rewrite (proj2 (JsFacts.ltb_lt (currentTemp st) _)) by lra.
    reflexivity.
Qed.

Lemma status_before_heating_witness :
  operated (run (mounted 0) (calmTicks 8)) /\
  label (getMachineStatus (run (mounted 0) (calmTicks 8))) = "Heating Phase"%string.
Proof.
  assert (Hop : operated (run (mounted 0) (calmTicks 8))) by apply operated_calm.
  split; [exact Hop|].
  rewrite (status_before_heating (run (mounted 0) (calmTicks 8)) Hop).
  - reflexivity.
  - reflexivity.
  - unfold heated. vm_compute. intros [H|H]; discriminate.
Defined.

(** *** The deviation cells and the OEE figure *)

Lemma deviation_cells_bounded (st : State) :
  reachable st ->
  (-85 <= tempDeviation st <= 34) /\ (-100 <= pressureDeviation st <= 45).
Proof.
  induction 1 as [now | st env _ IH _ | st b _ IH].
  - split; split; discriminate.
  - destruct IH as [IHt IHp].
    destruct (Properties.tick_withinLimits st env) as [Ht Hp].
    unfold BRAKE_PAD_TEMP_MIN, BRAKE_PAD_TEMP_MAX in Ht.
    unfold BRAKE_PAD_PRESSURE_MIN, BRAKE_PAD_PRESSURE_MAX in Hp.
    rewrite tick_tempDeviation, tick_pressureDeviation.
    unfold tempDevOf, pressureDevOf, TARGET_TEMP, TARGET_PRESSURE.
    split.
    + destruct (vulcanizing (machineState st)); [divisions; lra | exact IHt].
    + destruct (Phase_eqb (machineState st) PRESSING); [divisions; lra | exact IHp].
  - exact IH.
Qed.

Lemma Qle_bool_same (c x y : Q) : x == y -> Qle_bool c x = Qle_bool c y.
Proof.
  intros H. destruct (Qle_bool c x) eqn:Ex, (Qle_bool c y) eqn:Ey; try reflexivity.
  - apply Qle_bool_iff in Ex. rewrite H in Ex. apply Qle_bool_iff in Ex. congruence.
  - apply Qle_bool_iff in Ey. rewrite <- H in Ey. apply Qle_bool_iff in Ey. congruence.
Qed.

(** X18. The colour of the OEE figure and the figure itself agree. The
    colour is computed without the 0.6 floor that the printed figure
    puts under its performance factor, but in every reachable state the
    deviation cells are small enough for the floor to be idle: both
    compute the same OEE, the figure is green from 75 and amber from 60
    of that OEE, and the OEE is at most 93.1, so that only the lower
    bound of the printed range [50, 100] can ever apply. *)
Theorem oee_colour_matches_figure (st : State) (isDark : bool)
  (Hst : reachable st) :
  oeeColourValue st == oeeRaw st /\
  oeeColour isDark st
  = (if Qle_bool 75 (oeeRaw st)
     then (if isDark then "text-green-400" else "text-emerald-600")
     else if Qle_bool 60 (oeeRaw st)
          then (if isDark then "text-yellow-400" else "text-amber-600")
          else (if isDark then "text-red-400" else "text-rose-500"))%string /\
  oeeClamped st == Qmax 50 (oeeRaw st) /\
  oeeClamped st <= 93.1.
Proof.
  assert (Hsame : oeeColourValue st == oeeRaw st /\
                  oeeClamped st == Qmax 50 (oeeRaw st) /\
                  oeeClamped st <= 93.1).
  { destruct (deviation_cells_bounded st Hst) as [Ht Hp].
    destruct (Properties.reachable_countersSane st Hst) as [Hr _].
    assert (Hat : Qabs (tempDeviation st) <= 85) by (apply Qabs_within; lra).
    assert (Hap : Qabs (pressureDeviation st) <= 100) by (apply Qabs_within; lra).
    pose proof (Qabs_nonneg (tempDeviation st)) as Hat0.
    pose proof (Qabs_nonneg (pressureDeviation st)) as Hap0.
    assert (Hq : 0 <= inject_Z (rejectCount st) / inject_Z (Z.max 1 (totalCycles st))).
    { apply Qle_shift_div_l.
      - change 0 with (inject_Z 0). rewrite <- Zlt_Qlt. lia.
      - rewrite Qmult_0_l. change 0 with (inject_Z 0). rewrite <- Zle_Qle. exact Hr. }
    unfold oeeClamped, oeeColourValue, oeeRaw.
    revert Hq.
    generalize (inject_Z (rejectCount st) / inject_Z (Z.max 1 (totalCycles st))).
    intros q Hq.
    revert Hat Hap Hat0 Hap0.
    generalize (Qabs (tempDeviation st)) (Qabs (pressureDeviation st)).
    intros a b Hat Hap Hat0 Hap0.
    assert (Hperf : Qmax 0.6 (0.95 - a / 100 * 0.1 - b / 100 * 0.1)
                    == 0.95 - a / 100 * 0.1 - b / 100 * 0.1).
    { apply Q.max_r. divisions. lra. }
    assert (Hrange : 0.765 <= 0.95 - a / 100 * 0.1 - b / 100 * 0.1 <= 0.95)
      by (divisions; lra).
    rewrite Hperf.
    revert Hrange. generalize (0.95 - a / 100 * 0.1 - b / 100 * 0.1). intros p Hp'.
    assert (Hquality : 0.55 <= Qmax 0.55 (1 - q) <= 1) by (minmax; lra).
    revert Hquality. generalize (Qmax 0.55 (1 - q)). intros k Hk.
    assert (Hpk : p * k <= 0.95) by nra.
    assert (Hpk0 : 0 <= p * k) by nra.
    split; [reflexivity|].
    assert (Htop : (if isRunning st then 0.98 else 0.7) * p * k * 100 <= 93.1)
      by (destruct (isRunning st); nra).
    revert Htop. generalize ((if isRunning st then 0.98 else 0.7) * p * k * 100).
    intros o Ho. split; minmax; lra. }
  destruct Hsame as (H1 & H2 & H3).
  split; [exact H1|]. split; [|split; assumption].
  unfold oeeColour.
  rewrite (Qle_bool_same 75 _ _ H1), (Qle_bool_same 60 _ _ H1). reflexivity.
Qed.

Lemma oee_colour_matches_figure_witness :
  reachable (run (mounted 0) (calmTicks 30)) /\
  oeeColourValue (run (mounted 0) (calmTicks 30))
  == oeeRaw (run (mounted 0) (calmTicks 30)).
Proof.
  assert (Hr : reachable (run (mounted 0) (calmTicks 30))).
  { apply Properties.reachable_run; [apply reach_mounted | reflexivity]. }
  split; [exact Hr|].
  exact (proj1 (oee_colour_matches_figure _ true Hr)).
Defined.

(** *** The "Cycle Phase Time" card *)

Lemma cycleTime_sane (st : State) :
  reachable st ->
  (totalCycles st = 124 /\ cycleTime st = 0)%Z \/
  (124 < totalCycles st /\ 1 <= cycleTime st)%Z.
Proof.
  induction 1 as [now | st env _ IH _ | st b _ IH].
  - left. split; reflexivity.
  - rewrite Properties.tick_totalCycles.
    change (cycleTime (tick st env))
      with (if completes (machineState st) (phaseTime st)
            then Z.max 1 (Js.round (inject_Z (nowCycleEnd env - cycleStartRef st)
                                    / 1000))
            else cycleTime st).
    destruct (completes (machineState st) (phaseTime st)); lia.
  - exact IH.
Qed.

(** X19. The "Cycle Phase Time" card shows the running phase clock only
    until the first cycle completes. From then on it shows the
    wall-clock length of the last completed cycle, at least 1 second, and
    moves only when a cycle completes. *)
Theorem cycle_card_freezes (st : State) (Hst : reachable st) :
  cyclePhaseTime st
  = (if (totalCycles st =? 124)%Z then phaseTime st else cycleTime st) /\
  ((124 < totalCycles st)%Z -> (1 <= cyclePhaseTime st)%Z) /\
  (forall env : Env,
      completes (machineState st) (phaseTime st) = false ->
      cycleTime (tick st env) = cycleTime st).
Proof.
  unfold cyclePhaseTime.
  destruct (cycleTime_sane st Hst) as [[Ht Hc]|[Ht Hc]].
  - rewrite Ht, Hc. cbn. split; [reflexivity|]. split; [lia|].
    intros env Hn.
    change (cycleTime (tick st env))
      with (if completes (machineState st) (phaseTime st)
            then Z.max 1 (Js.round (inject_Z (nowCycleEnd env - cycleStartRef st)
                                    / 1000))
            else cycleTime st).
    rewrite Hn. exact Hc.
  - destruct (Z.eqb_spec (cycleTime st) 0) as [E|E]; [lia|].
    destruct (Z.eqb_spec (totalCycles st) 124) as [E'|E']; [lia|].
    split; [reflexivity|]. split; [intros _; exact Hc|].
    intros env Hn.
    change (cycleTime (tick st env))
      with (if completes (machineState st) (phaseTime st)
            then Z.max 1 (Js.round (inject_Z (nowCycleEnd env - cycleStartRef st)
                                    / 1000))
            else cycleTime st).
    rewrite Hn. reflexivity.
Qed.

Lemma cycle_card_freezes_witness :
  reachable (run (mounted 0) (calmTicks 47)) /\
  cyclePhaseTime (run (mounted 0) (calmTicks 47)) = 45%Z /\
  phaseTime (run (mounted 0) (calmTicks 47)) = 2%Z.
Proof.
  assert (Hr : reachable (run (mounted 0) (calmTicks 47))).
  { apply Properties.reachable_run; [apply reach_mounted | reflexivity]. }
  split; [exact Hr|].
  rewrite (proj1 (cycle_card_freezes _ Hr)).
  split; vm_compute; reflexivity.
Defined.

(** *** The vibration line *)

Lemma sample_vibration (st : State) (env : Env) :
  Sample.vibration (sampleOf st env)
  = Js.fixed (fst (vibrationOf (machineState st) env)) 1.
Proof. reflexivity. Qed.

(** X20. The colour of the vibration line can disagree with the tier of
    the alert of the same tick. After a tick without a vibration tier the
    line is green. After a tick with a warning tier it is green or
    yellow, never red; after a tick with a critical tier, whose alert
    reads "(Critical)", it is yellow or red, never green: the line
    turns yellow above 5 mm/s and red only above 8 mm/s. *)
Theorem vibration_line_colour (st : State) (env : Env) (isDark : bool)
  (Hst : reachable st)
  (Hbase : random (rndVibration env))
  (Hcritical : random (rndCriticalVibration env))
  (Hwarning : random (rndWarningVibration env)) :
  let tone := vibrationTone isDark (dataStream (tick st env)) in
  match snd (vibrationOf (machineState st) env) with
  | None => tone = Some (vibrationGreen isDark)
  | Some warning =>
      tone = Some (vibrationGreen isDark) \/ tone = Some (vibrationYellow isDark)
  | Some critical =>
      tone = Some (vibrationYellow isDark) \/ tone = Some (vibrationRed isDark)
  | Some info => False
  end.
Proof.
  intros tone.
  pose proof (tick_last_sample st env Hst) as Hlast.
  assert (Htone : tone
                  = Some (if Js.gtb (Sample.vibration (sampleOf st env)) VIBRATION_CRITICAL
                          then vibrationRed isDark
                          else if Js.gtb (Sample.vibration (sampleOf st env))
                                    VIBRATION_WARNING
                               then vibrationYellow isDark
                               else vibrationGreen isDark)).
  { unfold tone, vibrationTone.
    destruct (dataStream (tick st env)) as [|x l] eqn:E.
    - cbn in Hlast. discriminate.
    - rewrite Hlast. reflexivity. }
  rewrite Htone, sample_vibration.
  unfold VIBRATION_CRITICAL, VIBRATION_WARNING.
  pose proof (vibrationOf_range (machineState st) env Hbase Hcritical Hwarning) as Hr.
  revert Hr. generalize (fst (vibrationOf (machineState st) env)). intros v.
  destruct (snd (vibrationOf (machineState st) env)) as [[| |]|]; [| | trivial |].
  - intros (_ & Hv).
    assert (Hf : inject_Z 6 <= Js.fixed v 1 <= inject_Z 10).
    { apply Properties.fixed1_within; [lia|]. unfold inject_Z. lra. }
    unfold inject_Z in Hf.
    destruct (Js.gtb (Js.fixed v 1) 8); [right; reflexivity|].
    rewrite (proj2 (JsFacts.gtb_gt (Js.fixed v 1) 5)) by lra. left; reflexivity.
  - intros (_ & Hv).
    assert (Hf : inject_Z 4 <= Js.fixed v 1 <= inject_Z 6).
    { apply Properties.fixed1_within; [lia|]. unfold inject_Z. lra. }
    unfold inject_Z in Hf.
    rewrite (proj2 (JsFacts.gtb_le (Js.fixed v 1) 8)) by lra.
    destruct (Js.gtb (Js.fixed v 1) 5); [right | left]; reflexivity.
  - intros Hv.
    assert (Hf : inject_Z 2 <= Js.fixed v 1 <= inject_Z 4).
    { apply Properties.fixed1_within; [lia|]. unfold inject_Z. lra. }
    unfold inject_Z in Hf.
    rewrite (proj2 (JsFacts.gtb_le (Js.fixed v 1) 8)) by lra.
    rewrite (proj2 (JsFacts.gtb_le (Js.fixed v 1) 5)) by lra.
    reflexivity.
Qed.

(** Two ticks at the start of PRESSING. A warning excursion of 4.8 mm/s
    raises the vibration warning and leaves the line green; a critical
    excursion of 7 mm/s raises the critical alert and turns the line
    yellow. *)
Lemma vibration_line_colour_witness :
  reachable pressingBegins /\
  vibrationOffer (machineState pressingBegins) (vibrating 0.5 0.9 0.3 24000)
  = Some ("🟡 Vibration Warning: 4.80 mm/s (Safe: <4 mm/s)"%string, warning) /\
  (vibrationTone true (dataStream (tick pressingBegins (vibrating 0.5 0.9 0.3 24000)))
   = Some (vibrationGreen true) \/
   vibrationTone true (dataStream (tick pressingBegins (vibrating 0.5 0.9 0.3 24000)))
   = Some (vibrationYellow true)) /\
  vibrationTone true (dataStream (tick pressingBegins (vibrating 0.5 0.9 0.3 24000)))
  = Some (vibrationGreen true) /\
  vibrationOffer (machineState pressingBegins) (vibrating 0.95 0.5 0.25 24000)
  = Some ("🔴 High Vibration: 7.00 mm/s (Critical)"%string, critical) /\
  (vibrationTone true (dataStream (tick pressingBegins (vibrating 0.95 0.5 0.25 24000)))
   = Some (vibrationYellow true) \/
   vibrationTone true (dataStream (tick pressingBegins (vibrating 0.95 0.5 0.25 24000)))
   = Some (vibrationRed true)) /\
  vibrationTone true (dataStream (tick pressingBegins (vibrating 0.95 0.5 0.25 24000)))
  = Some (vibrationYellow true).
Proof.
  assert (Hr : reachable pressingBegins).
  { apply Properties.reachable_run; [apply reach_mounted | reflexivity]. }
  assert (Hh : random 0.5) by (split; [discriminate | reflexivity]).
  assert (Hw : random 0.3) by (split; [discriminate | reflexivity]).
  assert (Hc : random 0.25) by (split; [discriminate | reflexivity]).
  assert (Hms : machineState pressingBegins = PRESSING) by (vm_compute; reflexivity).
  assert (Ew : snd (vibrationOf PRESSING (vibrating 0.5 0.9 0.3 24000)) = Some warning)
    by (vm_compute; reflexivity).
  assert (Ec : snd (vibrationOf PRESSING (vibrating 0.95 0.5 0.25 24000))
               = Some critical) by (vm_compute; reflexivity).
  pose proof (vibration_line_colour pressingBegins (vibrating 0.5 0.9 0.3 24000) true
                Hr Hh Hw Hw) as Hwarning.
  pose proof (vibration_line_colour pressingBegins (vibrating 0.95 0.5 0.25 24000) true
                Hr Hh Hc Hc) as Hcritical.
  cbv zeta in Hwarning, Hcritical. rewrite Hms in Hwarning, Hcritical.
  rewrite Ew in Hwarning. rewrite Ec in Hcritical.
  split; [exact Hr|]. split; [vm_compute; reflexivity|].
  split; [exact Hwarning|]. split; [vm_compute; reflexivity|].
  split; [vm_compute; reflexivity|].
  split; [exact Hcritical|]. vm_compute; reflexivity.
Defined.

(** *** Rounding of the telemetry *)

Lemma fixed1_near (x : Q) : Qabs (Js.fixed x 1 - x) <= 1 # 20.
Proof.
  unfold Js.fixed, Js.scaled.
  change (inject_Z (10 ^ Z.of_nat 1)) with 10.
  pose proof (Qfloor_le (Qabs x * 10 + (1 # 2))) as Hle.
  pose proof (Qlt_floor (Qabs x * 10 + (1 # 2))) as Hlt.
  rewrite inject_Z_plus in Hlt. change (inject_Z 1) with 1 in Hlt.
  revert Hle Hlt. generalize (inject_Z (Qfloor (Qabs x * 10 + (1 # 2)))).
  intros n Hle Hlt.
  destruct (Js.ltb x 0) eqn:E.
  - apply JsFacts.ltb_lt in E.
    assert (Ha : Qabs x == - x) by (apply Qabs_neg; lra).
    rewrite Ha in Hle, Hlt.
    apply Qabs_within. divisions. lra.
  - apply JsFacts.ltb_ge in E.
    assert (Ha : Qabs x == x) by (apply Qabs_pos; exact E).
    rewrite Ha in Hle, Hlt.
    apply Qabs_within. divisions. lra.
Qed.

(** X21. A telemetry sample is the state of the tick rounded to one
    decimal: its temperature and pressure differ from the readings by at
    most 0.05 and stay inside the physical ranges [25, 220] and
    [0, 260] of the mould. *)
Theorem sample_is_rounded (st : State) (env : Env) :
  let sample := sampleOf st env in
  let st' := tick st env in
  Qabs (Sample.temp sample - currentTemp st') <= 1 # 20 /\
  Qabs (Sample.pressure sample - currentPressure st') <= 1 # 20 /\
  BRAKE_PAD_TEMP_MIN <= Sample.temp sample <= BRAKE_PAD_TEMP_MAX /\
  BRAKE_PAD_PRESSURE_MIN <= Sample.pressure sample <= BRAKE_PAD_PRESSURE_MAX.
Proof.
  intros sample st'.
  destruct (Properties.tick_withinLimits st env) as [Ht Hp]. fold st' in Ht, Hp.
  change (Sample.temp sample) with (Js.fixed (currentTemp st') 1).
  change (Sample.pressure sample) with (Js.fixed (currentPressure st') 1).
  split; [apply fixed1_near|]. split; [apply fixed1_near|].
  split.
  - apply (Properties.fixed1_within 25 220); [lia | exact Ht].
  - apply (Properties.fixed1_within 0 260); [lia | exact Hp].
Qed.

(** *** The footer against the badge *)

Lemma Qle_bool_gt (x y : Q) : y < x -> Qle_bool x y = false.
Proof.
  intros H. destruct (Qle_bool x y) eqn:E; [|reflexivity].
  apply Qle_bool_iff in E. lra.
Qed.

Lemma Qle_bool_le (x y : Q) : x <= y -> Qle_bool x y = true.
Proof.
  intros H. apply Qle_bool_iff. exact H.
Qed.

(** X22. On fair draws the line under the health bar follows the first
    HEATING tick like the badge does: before it the line reads "All
    parameters within tolerance"; after it the temperature deviation
    cell stays below -12 %, so the line shows the two deviations
    forever. *)
Theorem tolerance_note_follows_heating (st : State) (Hst : operated st) :
  (~ heated st -> toleranceNote st = "✓ All parameters within tolerance"%string) /\
  (heated st ->
   toleranceNote st
   = ("⚠ Temp: " ++ Js.toFixed (tempDeviation st) 1 ++ "% | Pressure: "
        ++ Js.toFixed (pressureDeviation st) 1 ++ "%")%string).
Proof.
  destruct (operated_tracked st Hst)
    as [Hpt Htc Htemp [Hplo Hp] Htd Hpd Htdh Hpdh Hfr].
  pose proof (position_range st Hpt) as Hn.
  unfold toleranceNote, TEMP_TOLERANCE, PRESSURE_TOLERANCE.
  split.
  - intros Hfresh. destruct (Hfr Hfresh) as (H1 & H2 & _).
    rewrite (Qle_bool_le (Qabs (tempDeviation st)) 10)
      by (apply Qabs_within; lra).
    rewrite (Qle_bool_le (Qabs (pressureDeviation st)) 10)
      by (apply Qabs_within; lra).
    reflexivity.
  - intros Hheated.
    assert (Hcold : tempDeviation st < -12).
    { destruct (Z_le_gt_dec 9 (position st)) as [H9|H9];
        [destruct (Z_le_gt_dec (position st) 33) as [H33|H33]|].
      - rewrite Htd by lia.
        assert (Hh : currentTemp st <= 144.8).
        { apply Qle_trans with (snd (hottest (Z.to_nat (position st))));
            [exact Htemp|].
          apply hottest_bounds; lia. }
        unfold TARGET_TEMP. divisions. lra.
      - apply Htdh; [exact Hheated | lia].
      - apply Htdh; [exact Hheated | lia]. }
    rewrite (Qle_bool_gt (Qabs (tempDeviation st)) 10)
      by (apply Qabs_beyond; right; lra).
    reflexivity.
Qed.

Lemma tolerance_note_follows_heating_witness :
  operated (run (mounted 0) (calmTicks 5)) /\
  toleranceNote (run (mounted 0) (calmTicks 5))
  = "✓ All parameters within tolerance"%string.
Proof.
  assert (Hop : operated (run (mounted 0) (calmTicks 5))) by apply operated_calm.
  split; [exact Hop|].
  apply (proj1 (tolerance_note_follows_heating _ Hop)).
  unfold heated. vm_compute. intros [H|H]; discriminate.
Defined.

(** X23. The badge and the footer never contradict each other on the good
    side: whenever the badge reads "Healthy" or "Heating Phase", the
    dashboard is running outside IDLE, the health icon is green and the
    line under the health bar reads "All parameters within tolerance". *)
Theorem good_badge_agrees_with_footer (st : State) (isDark : bool)
  (Hgood : label (getMachineStatus st) = "Healthy"%string
           \/ label (getMachineStatus st) = "Heating Phase"%string) :
  isRunning st = true /\ machineState st <> IDLE /\
  healthColour isDark st
  = (if isDark then "text-green-400" else "text-emerald-500")%string /\
  toleranceNote st = "✓ All parameters within tolerance"%string.
Proof.
  unfold getMachineStatus in Hgood.
  destruct (isRunning st) eqn:Hrun; cbn [negb] in Hgood;
    [|destruct Hgood; discriminate].
  destruct (Phase_eqb (machineState st) IDLE) eqn:Hidle;
    [destruct Hgood; discriminate|].
  destruct (Js.ltb (healthIndex st) 60) eqn:H60; cbn [orb] in Hgood;
    [destruct Hgood; discriminate|].
  destruct (Js.gtb (Qabs (tempDeviation st)) (TEMP_TOLERANCE * 2)); cbn [orb] in Hgood;
    [destruct Hgood; discriminate|].
  destruct (Js.gtb (Qabs (pressureDeviation st)) (PRESSURE_TOLERANCE * 2));
    [destruct Hgood; discriminate|].
  destruct (Js.ltb (healthIndex st) 75) eqn:H75; cbn [orb] in Hgood;
    [destruct Hgood; discriminate|].
  destruct (Js.gtb (Qabs (tempDeviation st)) (TEMP_TOLERANCE * 1.5)); cbn [orb] in Hgood;
    [destruct Hgood; discriminate|].
  destruct (Js.gtb (Qabs (pressureDeviation st)) (PRESSURE_TOLERANCE * 1.5));
    [destruct Hgood; discriminate|].
  destruct (Js.ltb (healthIndex st) 85) eqn:H85; cbn [orb] in Hgood;
    [destruct Hgood; discriminate|].
  destruct (Js.gtb (Qabs (tempDeviation st)) TEMP_TOLERANCE) eqn:Ht; cbn [orb] in Hgood;
    [destruct Hgood; discriminate|].
  destruct (Js.gtb (Qabs (pressureDeviation st)) PRESSURE_TOLERANCE) eqn:Hp;
    [destruct Hgood; discriminate|].
  apply JsFacts.ltb_ge in H85. apply JsFacts.gtb_le in Ht, Hp.
  split; [reflexivity|]. split.
  - intros E. rewrite E in Hidle. discriminate.
  - unfold healthColour, toleranceNote.
    rewrite (Qle_bool_le 85 (healthIndex st) H85).
    rewrite (Qle_bool_le _ _ Ht), (Qle_bool_le _ _ Hp).
    split; reflexivity.
Qed.

Lemma good_badge_agrees_with_footer_witness :
  label (getMachineStatus (run (mounted 0) (calmTicks 5))) = "Healthy"%string /\
  toleranceNote (run (mounted 0) (calmTicks 5))
  = "✓ All parameters within tolerance"%string.
Proof.
  assert (H : label (getMachineStatus (run (mounted 0) (calmTicks 5)))
              = "Healthy"%string) by (vm_compute; reflexivity).
  split; [exact H|].
  exact (proj2 (proj2 (proj2 (good_badge_agrees_with_footer
                                (run (mounted 0) (calmTicks 5)) true
                                (or_introl H))))).
Defined.

(** X24. Worse readings never improve the badge. Of two running
    dashboards outside IDLE, the one whose health index is not higher and
    whose deviations are not smaller in magnitude shows a status at least
    as severe, in the order Healthy or Heating Phase, Degraded, Warning,
    Critical. *)
Theorem status_severity_monotone (st1 st2 : State)
  (Hrun1 : isRunning st1 = true) (Hrun2 : isRunning st2 = true)
  (Hidle1 : machineState st1 <> IDLE) (Hidle2 : machineState st2 <> IDLE)
  (Hhealth : healthIndex st2 <= healthIndex st1)
  (Htemp : Qabs (tempDeviation st1) <= Qabs (tempDeviation st2))
  (Hpressure : Qabs (pressureDeviation st1) <= Qabs (pressureDeviation st2)) :
  (severity (label (getMachineStatus st1))
   <= severity (label (getMachineStatus st2)))%Z.
Proof.
  assert (Hi1 : Phase_eqb (machineState st1) IDLE = false).
  { destruct (Phase_eqb (machineState st1) IDLE) eqn:E; [|reflexivity].
    apply Properties.Phase_eqb_eq in E. contradiction. }
  assert (Hi2 : Phase_eqb (machineState st2) IDLE = false).
  { destruct (Phase_eqb (machineState st2) IDLE) eqn:E; [|reflexivity].
    apply Properties.Phase_eqb_eq in E. contradiction. }
  unfold getMachineStatus. rewrite Hrun1, Hrun2, Hi1, Hi2. cbn [negb].
  unfold TEMP_TOLERANCE, PRESSURE_TOLERANCE.
  revert Hhealth Htemp Hpressure.
  generalize (healthIndex st1) (healthIndex st2)
    (Qabs (tempDeviation st1)) (Qabs (tempDeviation st2))
    (Qabs (pressureDeviation st1)) (Qabs (pressureDeviation st2)).
  intros h1 h2 t1 t2 p1 p2 Hh Ht Hp.
  generalize (Phase_eqb (machineState st1) HEATING
              && Js.ltb (currentTemp st1) TEMP_WARNING_THRESHOLD)
             (Phase_eqb (machineState st2) HEATING
              && Js.ltb (currentTemp st2) TEMP_WARNING_THRESHOLD).
  intros w1 w2.
  repeat match goal with
  | |- context [Js.ltb ?a ?b] =>
      let E := fresh "E" in
      destruct (Js.ltb a b) eqn:E;
        [apply JsFacts.ltb_lt in E | apply JsFacts.ltb_ge in E]; cbn [orb]
  | |- context [Js.gtb ?a ?b] =>
      let E := fresh "E" in
      destruct (Js.gtb a b) eqn:E;
        [apply JsFacts.gtb_gt in E | apply JsFacts.gtb_le in E]; cbn [orb]
  end;
  try (exfalso; lra);
  destruct w1, w2; vm_compute; discriminate.
Qed.

Lemma status_severity_monotone_witness :
  isRunning (run (mounted 0) (calmTicks 5)) = true /\
  (severity (label (getMachineStatus (run (mounted 0) (calmTicks 5))))
   <= severity (label (getMachineStatus (run (mounted 0) (calmTicks 9)))))%Z.
Proof.
  assert (H1 : isRunning (run (mounted 0) (calmTicks 5)) = true) by reflexivity.
  assert (H2 : isRunning (run (mounted 0) (calmTicks 9)) = true) by reflexivity.
  split; [exact H1|].
  apply (status_severity_monotone _ _ H1 H2).
  - vm_compute. discriminate.
  - vm_compute. discriminate.
  - vm_compute. discriminate.
  - vm_compute. discriminate.
  - vm_compute. discriminate.
Defined.

End ReadoutFacts.

(** ** The older engine *)

Module LegacyFacts.

Import ProcessFacts.
Local Open Scope Q_scope.

(** *** The telemetry window *)

Lemma append_length (A : Type) (l : list A) (x : A) :
  (List.length l <= 60)%nat -> (List.length (Legacy.append l x) <= 60)%nat.
Proof.
  intros Hl. unfold Legacy.append.
  destruct (Nat.ltb_spec 60 (List.length (l ++ [x]))) as [H|H]; [|exact H].
  rewrite length_app in H. cbn [List.length] in H.
  destruct l as [|a l]; cbn [app tl List.length] in *; [lia|].
  rewrite length_app. cbn [List.length]. lia.
Qed.

Lemma append_window (A : Type) (xs l : list A) :
  (List.length l <= 60)%nat ->
  fold_left Legacy.append xs l
  = skipn (List.length (l ++ xs) - 60) (l ++ xs).
Proof.
  revert l. induction xs as [|x xs IH]; intros l Hl.
  - cbn [fold_left]. rewrite app_nil_r.
    replace (List.length l - 60)%nat with 0%nat by lia. reflexivity.
  - cbn [fold_left]. rewrite (IH _ (append_length A l x Hl)).
    unfold Legacy.append.
    destruct (Nat.ltb_spec 60 (List.length (l ++ [x]))) as [H|H].
    + rewrite length_app in H. cbn [List.length] in H.
      destruct l as [|a l]; cbn [List.length] in *; [lia|].
      cbn [app tl]. rewrite <- app_assoc. cbn [app].
      replace (List.length (a :: l ++ x :: xs) - 60)%nat
        with (S (List.length (l ++ x :: xs) - 60))%nat
        by (cbn [List.length]; rewrite !length_app; cbn [List.length]; lia).
      reflexivity.
    + rewrite <- app_assoc. reflexivity.
Qed.

(** X25. The ring store of the newer engine shows what the array of the
    older engine showed. After the same samples, the older
    [setDataStream] updater (append, then drop the oldest beyond 60)
    holds the last 60 of them, which is the snapshot that the ring store
    returns. *)
Theorem ring_store_refines_window (A : Type) (xs : list A) :
  fold_left Legacy.append xs [] = skipn (List.length xs - 60) xs /\
  map Some (fold_left Legacy.append xs [])
  = CircularBuffer.toArray (CircularBuffer.pushAll (CircularBuffer.new 60) xs).
Proof.
  assert (Hw : fold_left Legacy.append xs [] = skipn (List.length xs - 60) xs).
  { rewrite append_window by (cbn; lia). reflexivity. }
  split; [exact Hw|].
  assert (H60 : (0 < 60)%Z) by lia.
  rewrite (CircularBufferFacts.toArray_holds 60 xs _ H60
             (CircularBufferFacts.holds_pushAll 60 xs H60)).
  rewrite Hw. f_equal. f_equal. lia.
Qed.

(** *** Alerts *)

(** X26. In the older engine the head of the list is the alert accepted
    last, so a repeat of it within five seconds is always dropped, of
    whatever severity, and the list never holds more than ten alerts. *)
Theorem legacy_repeat_is_dropped (prev : list Alert) (clk clk' : Clock)
  (m : string) (ty ty' : AlertType)
  (Hnew : suppressed clk m prev = false)
  (Hsoon : (atCheck clk' - atStamp clk < 5000)%Z) :
  Legacy.addAlert clk' m ty' (Legacy.addAlert clk m ty prev)
  = Legacy.addAlert clk m ty prev /\
  (List.length (Legacy.addAlert clk m ty prev) <= 10)%nat.
Proof.
  unfold Legacy.addAlert at 2 3 4. rewrite Hnew.
  split.
  - unfold Legacy.addAlert. cbn [firstn suppressed msg time].
    rewrite String.eqb_refl. apply Z.ltb_lt in Hsoon. rewrite Hsoon.
    reflexivity.
  - rewrite length_firstn. lia.
Qed.

Lemma legacy_repeat_is_dropped_witness :
  suppressed (Behaviour.at_ms 1000) Behaviour.vibrationAt5
    [mkAlert Behaviour.lowTemperature critical 0] = false /\
  Legacy.addAlert (Behaviour.at_ms 2000) Behaviour.vibrationAt5 warning
    (Legacy.addAlert (Behaviour.at_ms 1000) Behaviour.vibrationAt5 warning
       [mkAlert Behaviour.lowTemperature critical 0])
  = [mkAlert Behaviour.vibrationAt5 warning 1000;
     mkAlert Behaviour.lowTemperature critical 0].
Proof.
  assert (H : suppressed (Behaviour.at_ms 1000) Behaviour.vibrationAt5
                [mkAlert Behaviour.lowTemperature critical 0] = false)
    by (vm_compute; reflexivity).
  assert (H' : (atCheck (Behaviour.at_ms 2000) - atStamp (Behaviour.at_ms 1000)
                < 5000)%Z) by (vm_compute; reflexivity).
  split; [exact H|].
  rewrite (proj1 (legacy_repeat_is_dropped _ _ (Behaviour.at_ms 2000)
                    Behaviour.vibrationAt5 warning warning H H')).
  vm_compute. reflexivity.
Defined.

(** *** The readings *)

Lemma legacy_tick_currentTemp (st : Legacy.State) (env : Legacy.Env) :
  Legacy.currentTemp (Legacy.tick st env)
  == Legacy.nextTemp (Legacy.machineState st) (Legacy.currentTemp st)
       (Legacy.rndNoise env).
Proof.
  change (Legacy.currentTemp (Legacy.tick st env))
    with (Qred (Legacy.nextTemp (Legacy.machineState st) (Legacy.currentTemp st)
                  (Legacy.rndNoise env))).
  apply Qred_correct.
Qed.

Lemma legacy_tick_currentPressure (st : Legacy.State) (env : Legacy.Env) :
  Legacy.currentPressure (Legacy.tick st env)
  == Legacy.nextPressure (Legacy.machineState st) (Legacy.currentPressure st)
       (Legacy.rndNoise env).
Proof.
  change (Legacy.currentPressure (Legacy.tick st env))
    with (Qred (Legacy.nextPressure (Legacy.machineState st)
                  (Legacy.currentPressure st) (Legacy.rndNoise env))).
  apply Qred_correct.
Qed.

Lemma legacy_nextTemp_range (ms : Phase) (temp rnd : Q) :
  Dashboard.random rnd -> 25 <= temp <= 165.625 ->
  25 <= Legacy.nextTemp ms temp rnd <= 165.625.
Proof.
  intros [H0 H1] [Hlo Hhi].
  unfold Legacy.nextTemp, Legacy.targetT, Legacy.heatingRate.
  destruct ms; cbn [Dashboard.vulcanizing Phase_eqb]; unfold TARGET_TEMP; lra.
Qed.

Lemma legacy_nextPressure_range (ms : Phase) (pressure rnd : Q) :
  Dashboard.random rnd -> -2.5 <= pressure <= 182.5 ->
  -2.5 <= Legacy.nextPressure ms pressure rnd <= 182.5.
Proof.
  intros [H0 H1] [Hlo Hhi].
  unfold Legacy.nextPressure.
  destruct ms; unfold TARGET_PRESSURE; lra.
Qed.

(** X27. The older engine has no clamp, and needs none for the
    temperature: on fair draws it stays within [25, 165.625] degrees.
    The pressure stays within [-2.5, 182.5] bar, so it can be negative,
    which the clamp of the newer engine rules out. *)
Theorem legacy_readings_bounded (st : Legacy.State) (Hst : Legacy.operated st) :
  25 <= Legacy.currentTemp st <= 165.625 /\
  -2.5 <= Legacy.currentPressure st <= 182.5.
Proof.
  induction Hst as [| st env _ IH _ Hfair | st b _ IH].
  - split; split; discriminate.
  - destruct IH as [IHt IHp].
    destruct Hfair as (_ & Hn & _).
    rewrite legacy_tick_currentTemp, legacy_tick_currentPressure.
    split; [apply legacy_nextTemp_range | apply legacy_nextPressure_range];
      assumption.
  - exact IH.
Qed.

Lemma legacy_fair_steady (draw : Q) (now : Z) :
  Dashboard.random draw -> Legacy.fair (Legacy.steady draw now).
Proof.
  intros H. repeat split; apply H.
Qed.

Lemma legacy_readings_bounded_witness :
  Legacy.operated (Legacy.tick Legacy.mounted (Legacy.steady 0 1000)) /\
  -2.5 <= Legacy.currentPressure (Legacy.tick Legacy.mounted (Legacy.steady 0 1000))
  /\ Legacy.currentPressure (Legacy.tick Legacy.mounted (Legacy.steady 0 1000)) < 0.
Proof.
  assert (Hop : Legacy.operated (Legacy.tick Legacy.mounted (Legacy.steady 0 1000))).
  { apply Legacy.op_tick; [apply Legacy.op_mounted | reflexivity|].
    apply legacy_fair_steady. split; [discriminate | reflexivity]. }
  split; [exact Hop|].
  split; [exact (proj1 (proj2 (legacy_readings_bounded _ Hop)))|].
  vm_compute. reflexivity.
Defined.

(** *** The status badge *)

Lemma legacy_health_floor (tempDev pressureDev vibration rnd : Q) :
  Qabs tempDev <= 10 -> Qabs pressureDev <= 10 -> 0 <= rnd ->
  70 <= Legacy.healthUpdate tempDev pressureDev vibration rnd.
Proof.
  intros Ht Hp Hr. unfold Legacy.healthUpdate,
    TEMP_TOLERANCE, PRESSURE_TOLERANCE, VIBRATION_CRITICAL, VIBRATION_WARNING.
  rewrite (proj2 (JsFacts.gtb_le (Qabs tempDev) 10)) by exact Ht.
  rewrite (proj2 (JsFacts.gtb_le (Qabs tempDev) (10 * 1.5))) by lra.
  rewrite (proj2 (JsFacts.gtb_le (Qabs pressureDev) 10)) by exact Hp.
  destruct (Js.gtb vibration 8); [|destruct (Js.gtb vibration 5)];
    minmax; lra.
Qed.

Lemma legacy_pressing_after (ms : Phase) (pt : Z) :
  fst (Legacy.advance (ms, pt)) = PRESSING -> ms = PRESSING \/ ms = HEATING.
Proof.
  unfold Legacy.advance.
  destruct (duration ms <=? pt)%Z; destruct ms; cbn; intros H;
    try discriminate; auto.
Qed.

Lemma legacy_tick_sound (st : Legacy.State) (env : Legacy.Env) :
  Legacy.fair env ->
  Legacy.machineState (Legacy.tick st env) = PRESSING ->
  Qabs (Legacy.tempDeviation (Legacy.tick st env)) <= 10 ->
  Qabs (Legacy.pressureDeviation (Legacy.tick st env)) <= 10 ->
  70 <= Legacy.healthIndex (Legacy.tick st env).
Proof.
  intros Hfair Hms Ht Hp.
  destruct Hfair as (_ & _ & _ & _ & [Hv0 Hv1] & _ & _ & _ & _ & _ & [Hh0 _]).
  change (Legacy.machineState (Legacy.tick st env))
    with (fst (Legacy.advance (Legacy.machineState st, Legacy.phaseTime st))) in Hms.
  apply legacy_pressing_after in Hms.
  change (Legacy.healthIndex (Legacy.tick st env))
    with (Legacy.healthUpdate
            (Dashboard.tempDevOf (Legacy.machineState st)
               (Legacy.currentTemp (Legacy.tick st env)))
            (Dashboard.pressureDevOf (Legacy.machineState st)
               (Legacy.currentPressure (Legacy.tick st env)))
            (fst (Legacy.vibrationOf (Legacy.machineState st) env))
            (Legacy.rndHealth env)).
  change (Legacy.tempDeviation (Legacy.tick st env))
    with (if Dashboard.vulcanizing (Legacy.machineState st)
          then Dashboard.tempDevOf (Legacy.machineState st)
                 (Legacy.currentTemp (Legacy.tick st env))
          else Legacy.tempDeviation st) in Ht.
  change (Legacy.pressureDeviation (Legacy.tick st env))
    with (if Phase_eqb (Legacy.machineState st) PRESSING
          then Dashboard.pressureDevOf (Legacy.machineState st)
                 (Legacy.currentPressure (Legacy.tick st env))
          else Legacy.pressureDeviation st) in Hp.
  destruct Hms as [Hms|Hms]; rewrite Hms in *;
    cbn [Dashboard.vulcanizing Phase_eqb] in Ht, Hp.
  - apply legacy_health_floor; assumption.
  - assert (Hq : Legacy.healthUpdate
                   (Dashboard.tempDevOf HEATING
                      (Legacy.currentTemp (Legacy.tick st env)))
                   (Dashboard.pressureDevOf HEATING
                      (Legacy.currentPressure (Legacy.tick st env)))
                   (fst (Legacy.vibrationOf HEATING env)) (Legacy.rndHealth env)
                 = Legacy.healthUpdate
                     (Dashboard.tempDevOf HEATING
                        (Legacy.currentTemp (Legacy.tick st env)))
                     0 (2 + Legacy.rndVibration env * 2) (Legacy.rndHealth env))
      by reflexivity.
    rewrite Hq. apply legacy_health_floor; [exact Ht | discriminate | exact Hh0].
Qed.

Lemma legacy_sound (st : Legacy.State) :
  Legacy.operated st ->
  Legacy.machineState st = PRESSING ->
  Qabs (Legacy.tempDeviation st) <= 10 ->
  Qabs (Legacy.pressureDeviation st) <= 10 ->
  70 <= Legacy.healthIndex st.
Proof.
  induction 1 as [| st env _ _ _ Hfair | st b _ IH].
  - discriminate.
  - apply legacy_tick_sound. exact Hfair.
  - exact IH.
Qed.

(** X28. The older status badge can never show "Critical". It asks for
    a health index below 70 in PRESSING, but only after the test for
    "Warning" has found both deviations within tolerance, and a tick that
    leaves them there deducts at most 20 for vibration: the health index
    is then at least 79. *)
Theorem legacy_critical_is_dead (st : Legacy.State) (Hst : Legacy.operated st) :
  Readouts.label (Legacy.getMachineStatus st) <> "Critical"%string.
Proof.
  pose proof (legacy_sound st Hst) as Hs.
  unfold Legacy.getMachineStatus.
  destruct (negb (Legacy.isRunning st)); [discriminate|].
  destruct (Phase_eqb (Legacy.machineState st) IDLE); [discriminate|].
  destruct (Phase_eqb (Legacy.machineState st) HEATING
            && Js.ltb (Legacy.currentTemp st) TEMP_WARNING_THRESHOLD);
    [discriminate|].
  destruct (Js.gtb (Qabs (Legacy.tempDeviation st)) TEMP_TOLERANCE) eqn:Et;
    [discriminate|].
  destruct (Js.gtb (Qabs (Legacy.pressureDeviation st)) PRESSURE_TOLERANCE) eqn:Ep;
    [discriminate|].
  cbn [orb].
  destruct (Phase_eqb (Legacy.machineState st) PRESSING) eqn:Ems; [|discriminate].
  apply Properties.Phase_eqb_eq in Ems.
  apply JsFacts.gtb_le in Et, Ep.
  specialize (Hs Ems Et Ep).
  rewrite (proj2 (JsFacts.ltb_ge (Legacy.healthIndex st) 70) Hs).
  discriminate.
Qed.

Lemma legacy_critical_is_dead_witness :
  Legacy.operated (Legacy.tick Legacy.mounted (Legacy.steady 0.5 1000)) /\
  Readouts.label
    (Legacy.getMachineStatus (Legacy.tick Legacy.mounted (Legacy.steady 0.5 1000)))
  <> "Critical"%string.
Proof.
  assert (Hop : Legacy.operated (Legacy.tick Legacy.mounted (Legacy.steady 0.5 1000))).
  { apply Legacy.op_tick; [apply Legacy.op_mounted | reflexivity|].
    apply legacy_fair_steady. split; [discriminate | reflexivity]. }
  split; [exact Hop|].
  exact (legacy_critical_is_dead _ Hop).
Defined.

(** *** The phase machine *)

Lemma legacy_position_tick (st : Legacy.State) (env : Legacy.Env) :
  (0 <= Legacy.phaseTime st <= duration (Legacy.machineState st))%Z ->
  let st' := Legacy.tick st env in
  let n := Legacy.elapsed (Legacy.machineState st) (Legacy.phaseTime st) in
  (0 <= Legacy.phaseTime st' <= duration (Legacy.machineState st'))%Z /\
  Legacy.elapsed (Legacy.machineState st') (Legacy.phaseTime st')
  = (if (n =? 50)%Z then 0 else n + 1)%Z /\
  Legacy.totalCycles st'
  = (Legacy.totalCycles st + if (n =? 50)%Z then 1 else 0)%Z.
Proof.
  intros Hpt st' n. unfold st', n.
  change (Legacy.machineState (Legacy.tick st env))
    with (fst (Legacy.advance (Legacy.machineState st, Legacy.phaseTime st))).
  change (Legacy.phaseTime (Legacy.tick st env))
    with (snd (Legacy.advance (Legacy.machineState st, Legacy.phaseTime st))).
  change (Legacy.totalCycles (Legacy.tick st env))
    with (if (duration (Legacy.machineState st) <=? Legacy.phaseTime st)%Z
             && Phase_eqb (Legacy.machineState st) OPENING
          then Legacy.totalCycles st + 1 else Legacy.totalCycles st)%Z.
  unfold Legacy.advance, Legacy.elapsed.
  destruct (Legacy.machineState st); cbn [duration Phase_eqb] in *;
    match goal with
    | |- context [(?a <=? ?b)%Z] => destruct (Z.leb_spec a b)
    end; cbn [fst snd duration Dashboard.nextState andb];
    match goal with
    | |- context [(?a =? ?b)%Z] => destruct (Z.eqb_spec a b)
    end; lia.
Qed.

Lemma legacy_run_position (envs : list Legacy.Env) (st : Legacy.State) :
  (0 <= Legacy.phaseTime st <= duration (Legacy.machineState st))%Z ->
  let st' := Legacy.run st envs in
  let n := Legacy.elapsed (Legacy.machineState st) (Legacy.phaseTime st) in
  (0 <= Legacy.phaseTime st' <= duration (Legacy.machineState st'))%Z /\
  Legacy.elapsed (Legacy.machineState st') (Legacy.phaseTime st')
  = ((n + Z.of_nat (List.length envs)) mod 51)%Z /\
  Legacy.totalCycles st'
  = (Legacy.totalCycles st + (n + Z.of_nat (List.length envs)) / 51)%Z.
Proof.
  revert st. induction envs as [|env envs IH]; intros st Hpt; cbv zeta.
  - assert (Hn : (0 <= Legacy.elapsed (Legacy.machineState st) (Legacy.phaseTime st)
                  <= 50)%Z).
    { unfold Legacy.elapsed. destruct (Legacy.machineState st);
        cbn [duration] in Hpt; lia. }
    cbn [Legacy.run fold_left List.length].
    split; [exact Hpt|].
    rewrite Z.add_0_r, Z.mod_small, Z.div_small by lia. split; lia.
  - destruct (legacy_position_tick st env Hpt) as (Hpt' & Hpos & Htc).
    assert (Hn : (0 <= Legacy.elapsed (Legacy.machineState st) (Legacy.phaseTime st)
                  <= 50)%Z).
    { unfold Legacy.elapsed. destruct (Legacy.machineState st);
        cbn [duration] in Hpt; lia. }
    destruct (IH (Legacy.tick st env) Hpt') as (H1 & H2 & H3).
    change (Legacy.run st (env :: envs)) with (Legacy.run (Legacy.tick st env) envs).
    split; [exact H1|].
    rewrite H2, H3, Hpos, Htc.
    replace (Z.of_nat (List.length (env :: envs)))
      with (Z.of_nat (List.length envs) + 1)%Z by (cbn [List.length]; lia).
    generalize (Z.of_nat (List.length envs)) (Nat2Z.is_nonneg (List.length envs)).
    intros k Hk.
    destruct (Z.eqb_spec (Legacy.elapsed (Legacy.machineState st)
                            (Legacy.phaseTime st)) 50) as [E|E].
    + rewrite E. replace (50 + (k + 1))%Z with (k + 1 * 51)%Z by lia.
      rewrite Z.mod_add, Z.div_add by lia.
      rewrite Z.add_0_l. split; [reflexivity | lia].
    + replace (Legacy.elapsed (Legacy.machineState st) (Legacy.phaseTime st)
               + 1 + k)%Z
        with (Legacy.elapsed (Legacy.machineState st) (Legacy.phaseTime st)
              + (k + 1))%Z by lia.
      split; [reflexivity | lia].
Qed.

(** X29. The older phase machine is periodic with period 51, not 45: it
    compares the phase clock with the duration before the increment
    takes effect, so a phase of duration [d] lasts [d + 1] ticks and the
    phase clock reaches [d]. After [n] ticks from the mount the
    dashboard stands [n mod 51] ticks into the cycle and [n / 51] cycles
    have been added to the 124 of the mount. *)
Theorem legacy_cycle_position (envs : list Legacy.Env) :
  let st := Legacy.run Legacy.mounted envs in
  let n := Z.of_nat (List.length envs) in
  (0 <= Legacy.phaseTime st <= duration (Legacy.machineState st))%Z /\
  Legacy.elapsed (Legacy.machineState st) (Legacy.phaseTime st) = (n mod 51)%Z /\
  Legacy.totalCycles st = (124 + n / 51)%Z.
Proof.
  intros st n.
  assert (H0 : (0 <= Legacy.phaseTime Legacy.mounted
                <= duration (Legacy.machineState Legacy.mounted))%Z) by (cbn; lia).
  destruct (legacy_run_position envs Legacy.mounted H0) as (H1 & H2 & H3).
  split; [exact H1|]. split; [exact H2 | exact H3].
Qed.

End LegacyFacts.
